(** * grade_cpp_practice: the exercise grader, embedded and verified

    The repository holds two variants of one script, [grademe_version1.py]
    (legacy) and [grademe_version6.py].  Both share [clear_folder],
    [normalize_output] and [run_and_check]; they differ in what
    [test_subject] announces and in the command loop under [__main__].

    Layout of this development:
    - [Text]      Python [str] as a sequence of code points, with
                  [strip], [splitlines], [join], [endswith];
    - [normalize_output] and its algebra (claims about the normalizer);
    - [FS], [World], the monad [M] of the script's effects;
    - [clear_folder], [run_and_check], [test_subject];
    - the command loops, in [Module V1] and [Module V6];
    - invariants of whole runs, by one induction over the script
      ([hoare]): directories kept, paths outside the workspace untouched,
      commands run. *)

From Stdlib Require Import NArith ZArith List Bool String Ascii Lia DecimalString.
From Stdlib Require DecimalFacts DecimalNat.
From stdpp Require Import base gmap list strings fin_maps.
Import ListNotations.

Local Open Scope N_scope.

(** ** Python text *)

(** A Python [str] is a sequence of Unicode code points. *)
Abbreviation char := N (only parsing).
Abbreviation str := (list N) (only parsing).

(** An ASCII literal of the source, as code points. *)
Definition lit (s : string) : str :=
  map N_of_ascii (list_ascii_of_string s).

Definition LF : char := 10.
Definition CR : char := 13.

(** [str.isspace] on one code point: CPython's [_PyUnicode_IsWhitespace]
    (bidirectional type WS, B or S, or category Zs). *)
Definition isspace (c : char) : bool :=
  ((9 <=? c) && (c <=? 13)) || ((28 <=? c) && (c <=? 31)) || (c =? 32)
  || (c =? 133) || (c =? 160) || (c =? 5760)
  || ((8192 <=? c) && (c <=? 8202))
  || (c =? 8232) || (c =? 8233) || (c =? 8239) || (c =? 8287) || (c =? 12288).

(** The line boundaries of [str.splitlines]: CPython's
    [_PyUnicode_IsLinebreak]. *)
Definition islinebreak (c : char) : bool :=
  ((10 <=? c) && (c <=? 13)) || ((28 <=? c) && (c <=? 30))
  || (c =? 133) || (c =? 8232) || (c =? 8233).

(** [s.lstrip()], [s.rstrip()], [s.strip()] with no argument. *)
Fixpoint lstrip (s : str) : str :=
  match s with
  | [] => []
  | c :: rest => if isspace c then lstrip rest else s
  end.

Definition rstrip (s : str) : str := rev (lstrip (rev s)).

Definition strip (s : str) : str := rstrip (lstrip s).

(** [s.splitlines()]: cut at every line boundary, a CR LF pair counting as
    one; the boundaries are not kept, and a boundary at the very end opens
    no further line. *)
Fixpoint splitlines (s : str) : list str :=
  match s with
  | [] => []
  | c :: rest =>
      if islinebreak c then
        [] :: match rest with
              | [] => []
              | c' :: rest' =>
                  if (c =? CR) && (c' =? LF) then splitlines rest'
                  else splitlines rest
              end
      else
        match splitlines rest with
        | [] => [[c]]
        | line :: lines => (c :: line) :: lines
        end
  end.

(** [sep.join(parts)]. *)
Fixpoint join (sep : str) (parts : list str) : str :=
  match parts with
  | [] => []
  | [p] => p
  | p :: rest => p ++ sep ++ join sep rest
  end.

(** Truth value of a [str] or a list: non-empty. *)
Definition truthy {A} (s : list A) : bool :=
  match s with [] => false | _ :: _ => true end.

(** [s.endswith(suffix)]. *)
Fixpoint startswith (s prefix : str) {struct prefix} : bool :=
  match prefix, s with
  | [], _ => true
  | p :: prefix', c :: s' => (c =? p) && startswith s' prefix'
  | _ :: _, [] => false
  end.

Definition endswith (s suffix : str) : bool :=
  startswith (rev s) (rev suffix).

(** ** The output normalizer *)

(** [normalize_output] (grademe_version6.py 25-28, grademe_version1.py 28-31):
<<
    lines = text.strip().splitlines()
    return [line.strip() for line in lines if line.strip()]
>> *)
Definition normalize_output (text : str) : list str :=
  let lines := splitlines (strip text) in
  map strip (List.filter (fun line => truthy (strip line)) lines).

(** The normalizer in the words of the specification: split on line
    boundaries, strip every line, drop the lines that became empty, keep
    the order.  It does not trim the text before splitting. *)
Definition normalize_spec (text : str) : list str :=
  List.filter truthy (map strip (splitlines text)).

(** The example text of the specification, ["a\n   \nb  \n"]. *)
Definition example_text : str :=
  lit "a" ++ [LF] ++ lit "   " ++ [LF] ++ lit "b  " ++ [LF].


(** ** Paths *)

Definition SLASH : char := 47.

(** [os.path.join(a, b)] of [posixpath]. *)
Definition os_path_join (a b : str) : str :=
  if startswith b [SLASH] then b
  else if negb (truthy a) || endswith a [SLASH] then a ++ b
  else a ++ SLASH :: b.

(** [os.path.dirname] and [os.path.basename] of [posixpath], computed on
    the reversed path: the head is all up to the last slash, with its
    trailing slashes removed unless it consists of slashes only. *)
Fixpoint drop_until_slash (r : str) : str :=
  match r with
  | [] => []
  | c :: r' => if c =? SLASH then r else drop_until_slash r'
  end.

Fixpoint drop_slashes (r : str) : str :=
  match r with
  | [] => []
  | c :: r' => if c =? SLASH then drop_slashes r' else r
  end.

Fixpoint take_until_slash (r : str) : str :=
  match r with
  | [] => []
  | c :: r' => if c =? SLASH then [] else c :: take_until_slash r'
  end.

Definition dirname (p : str) : str :=
  let head_rev := drop_until_slash (rev p) in
  match drop_slashes head_rev with
  | [] => rev head_rev
  | (_ :: _) as stripped => rev stripped
  end.

Definition basename (p : str) : str := rev (take_until_slash (rev p)).

(** The path configuration of both scripts (lines 8-11). *)
Definition TASKS_DIR : str := lit "./tasks/subjects".
Definition SOLUTIONS_DIR : str := lit "./solutions".
Definition BUILD_DIR : str := lit "./build".
Definition TRACE_DIR : str := lit "./traces".

(** ** The file system

    A file system is a finite map from paths, written as the script
    writes them, to nodes: a regular file with its text, or a directory.
    The entries of a directory [d] are the paths [os.path.join(d, name)]
    with [name] a single path component.  Every object is reached through
    one path only (no links, no [.] or [..] entries); text files hold the
    [str] that Python reads from and writes to them. *)
Inductive node :=
  | File (content : str)
  | Dir.

#[global] Instance node_eq_dec : EqDecision node.
Proof. solve_decision. Defined.

Abbreviation FS := (gmap (list N) node) (only parsing).

Definition fs_exists (fs : FS) (p : str) : bool :=
  match fs !! p with Some _ => true | None => false end.

Definition isfile (fs : FS) (p : str) : bool :=
  match fs !! p with Some (File _) => true | _ => false end.

Definition isdir (fs : FS) (p : str) : bool :=
  match fs !! p with Some Dir => true | _ => false end.

(** A single path component: not empty, no slash. *)
Definition valid_name (name : str) : bool :=
  truthy name && negb (existsb (N.eqb SLASH) name).

(** The name under which path [p] is listed in directory [d], if it is an
    entry of [d]. *)
Definition entry_name (d p : str) : option str :=
  let prefix := os_path_join d [] in
  if startswith p prefix then
    let name := drop (length prefix) p in
    if valid_name name then Some name else None
  else None.

(** The names [os.listdir(d)] returns, in an order the file system
    chooses. *)
Definition listdir (fs : FS) (d : str) : list str :=
  omap (entry_name d) (map_to_list fs).*1.

(** The parent of [p] is there to create [p] in: a directory of the file
    system, or the working directory when [p] is a bare name. *)
Definition parent_ok (fs : FS) (p : str) : bool :=
  match dirname p with
  | [] => true
  | (_ :: _) as d => isdir fs d
  end.

(** ** The world of the script *)

(** What one [print] or prompt call shows; one constructor per call site,
    with the text of the source in the comment. *)
Inductive Msg :=
  (* run_and_check *)
  | MsgProgramOutputHeader            (* "\n--- Program output ---" *)
  | MsgProgramOutput (text : str)     (* actual_output, when not empty *)
  | MsgNoOutput                       (* "[no output]" *)
  | MsgRuntimeErrors (err : str)      (* "Runtime errors:", result.stderr *)
  | MsgMatch                          (* "Output matches expected!" *)
  | MsgMismatch                       (* "Output does NOT match expected!" *)
  | MsgExpectedHeader                 (* "--- Expected ---" *)
  | MsgExpected (text : str)          (* "\n".join(norm_expected) *)
  | MsgGotHeader                      (* "--- Got ---" *)
  | MsgGot (text : str)               (* "\n".join(norm_actual) *)
  | MsgMismatchTraceSaved (path : str) (* "Mismatch trace saved to {trace_file}" *)
  (* test_subject *)
  | MsgNoExercises (level : str)      (* "No exercises found in {level}" *)
  | MsgWorkingOn (level exercise : str)  (* version6: "Working on {level}/exercise {exercise}" *)
  | MsgTesting (level exercise : str)    (* version1: "Testing {difficulty}/{exercise}" *)
  | MsgDescriptionHeader              (* version1: "\n--- Exercise Description ---" *)
  | MsgDescription (text : str)       (* version1: f.read().strip() *)
  | MsgDescriptionFooter              (* version1: "-----------------------------\n" *)
  | MsgNeedOneSolution                (* "You must place exactly ONE solution file (.c or .cpp) in ./solutions/" *)
  | MsgCompilationOk                  (* "Compilation successful!" *)
  | MsgCompilationFailed              (* "Compilation failed!" *)
  | MsgTraceSaved (path : str)        (* "Trace saved to {trace_file}" *)
  (* the command loops *)
  | MsgNoLevels                       (* version6: "No level folders found in tasks/subjects" *)
  | MsgAvailableLevels                (* version6: "Available levels:" *)
  | MsgLevelItem (i : nat) (lvl : str)   (* version6: "{i}. {lvl}" *)
  | MsgChoosePrompt (n : nat)         (* version6: prompt "Choose a level (1-{n}) or type level name ..., or EXIT: " *)
  | MsgInvalidChoice                  (* version6: "Invalid choice, try again.\n" *)
  | MsgActionPrompt                   (* version6: prompt "Press Enter to evaluate, New ..., NewNew ..., Exit ...: " *)
  | MsgReady                          (* version6: "\n--- Ready for next action ---\n" *)
  | MsgChooseNewLevel                 (* version6: "\nChoose a new level...\n" *)
  | MsgInvalidInput                   (* version6: "Invalid input, try again.\n" *)
  | MsgBye                            (* "Exiting program. Solutions, traces[,] and build cleared. Bye!" *)
  | MsgNoSubjects                     (* version1: "No subjects found in the folder." *)
  | MsgYourTask (difficulty : str)    (* version1: "Your task: Work on difficulty {d}. Type Enter to test." *)
  | MsgSwitching                      (* version1: "Switching to a new difficulty... Solutions, traces and build cleared.\n" *)
  | MsgReadyRetest.                   (* version1: "\n--- Ready to retest same difficulty (or type NEW/EXIT) ---\n" *)

#[global] Instance Msg_eq_dec : EqDecision Msg.
Proof. solve_decision. Defined.

(** A reading of the clock, [datetime.datetime.now()]. *)
Record datetime := mkDatetime {
  year : nat; month : nat; day : nat;
  hour : nat; minute : nat; second : nat
}.

(** A number in decimal, zero-padded to [width] digits. *)
Definition decimal (n : nat) : str :=
  lit (NilEmpty.string_of_uint (Nat.to_uint n)).

Definition zero_pad (width : nat) (n : nat) : str :=
  repeat 48 (width - length (decimal n))%nat ++ decimal n.

(** [dt.strftime("%Y%m%d_%H%M%S")] (four digits for the year, which the
    clock gives from 1000 to 9999). *)
Definition strftime (dt : datetime) : str :=
  zero_pad 4 (year dt) ++ zero_pad 2 (month dt) ++ zero_pad 2 (day dt)
  ++ lit "_"
  ++ zero_pad 2 (hour dt) ++ zero_pad 2 (minute dt) ++ zero_pad 2 (second dt).

(** The exceptions that can leave a call of the script. *)
Inductive exn :=
  | FileNotFoundError
  | NotADirectoryError
  | IsADirectoryError
  | SameFileError
  | OSError                                    (* the OS could not start a process *)
  | CalledProcessError (returncode : Z) (out err : str)
  | IndexError
  | ValueError
  | StopIteration
  | EOFError.

(** What a finished process leaves: [subprocess.CompletedProcess] with
    captured text, and the file system as the process left it. *)
Record Completed := mkCompleted {
  returncode : Z;
  stdout : str;
  stderr : str;
  fs_after : FS
}.

(** What the script takes from its host.  [spawn t argv fs] is what
    starting [argv] does at the [t]-th observation of the host on file
    system [fs] ([None]: the OS cannot start it); [now t] is the clock;
    [randbelow t n] drives [random.choice].  The last four are the
    Unicode-aware [str.lower], [str.upper], [str.isdigit] and [int] of
    CPython, whose tables are not part of the repository ([int] is [None]
    where it raises [ValueError]). *)
Record Env := mkEnv {
  spawn : nat -> list str -> FS -> option Completed;
  now : nat -> datetime;
  randbelow : nat -> nat -> nat;
  str_lower : str -> str;
  str_upper : str -> str;
  str_isdigit : str -> bool;
  int_of_str : str -> option Z
}.

(** The state the script acts on: the file system, what was shown on the
    terminal, every [subprocess.run] call made (its argument vector), the
    lines still to come on standard input, and the number of observations
    of the host made so far. *)
Record World := mkWorld {
  w_fs : FS;
  w_console : list Msg;
  w_invoked : list (list str);
  w_stdin : list str;
  w_tick : nat
}.

Definition set_fs (fs : FS) (w : World) : World :=
  mkWorld fs (w_console w) (w_invoked w) (w_stdin w) (w_tick w).

Definition add_console (m : Msg) (w : World) : World :=
  mkWorld (w_fs w) (w_console w ++ [m]) (w_invoked w) (w_stdin w) (w_tick w).

Definition add_invoked (argv : list str) (w : World) : World :=
  mkWorld (w_fs w) (w_console w) (w_invoked w ++ [argv]) (w_stdin w) (w_tick w).

Definition set_stdin (lines : list str) (w : World) : World :=
  mkWorld (w_fs w) (w_console w) (w_invoked w) lines (w_tick w).

Definition next_tick (w : World) : World :=
  mkWorld (w_fs w) (w_console w) (w_invoked w) (w_stdin w) (S (w_tick w)).

(** ** The monad of effects: state and exceptions *)

Inductive outcome (A : Type) :=
  | Ok (a : A)
  | Raise (e : exn).
Arguments Ok {A} a.
Arguments Raise {A} e.

Definition M (A : Type) : Type := World -> outcome A * World.

Definition ret {A} (a : A) : M A := fun w => (Ok a, w).

Definition bind {A B} (m : M A) (k : A -> M B) : M B :=
  fun w => match m w with
           | (Ok a, w') => k a w'
           | (Raise e, w') => (Raise e, w')
           end.

Definition raise {A} (e : exn) : M A := fun w => (Raise e, w).

Declare Scope script_scope.
Delimit Scope script_scope with script.
Notation "x <- m ;; k" := (bind m (fun x => k))
  (at level 100, m at next level, right associativity) : script_scope.
Notation "m ;; k" := (bind m (fun _ => k))
  (at level 100, right associativity) : script_scope.
Local Open Scope script_scope.

(** [try: body except CalledProcessError as e: handler(e)]. *)
Definition try_except_called_process_error {A}
    (body : M A) (handler : str -> str -> M A) : M A :=
  fun w => match body w with
           | (Raise (CalledProcessError _ out err), w') => handler out err w'
           | r => r
           end.

(** [for x in xs: body(x)]. *)
Fixpoint for_each {A} (xs : list A) (body : A -> M unit) : M unit :=
  match xs with
  | [] => ret tt
  | x :: rest => body x ;; for_each rest body
  end.

Definition get : M World := fun w => (Ok w, w).

Definition print (m : Msg) : M unit := fun w => (Ok tt, add_console m w).

(** [input(prompt)]: shows the prompt and takes the next line. *)
Definition input (prompt : option Msg) : M str :=
  fun w =>
    let w1 := match prompt with Some m => add_console m w | None => w end in
    match w_stdin w1 with
    | [] => (Raise EOFError, w1)
    | line :: rest => (Ok line, set_stdin rest w1)
    end.

Definition os_path_exists (p : str) : M bool := fun w => (Ok (fs_exists (w_fs w) p), w).
Definition os_path_isfile (p : str) : M bool := fun w => (Ok (isfile (w_fs w) p), w).
Definition os_path_isdir (p : str) : M bool := fun w => (Ok (isdir (w_fs w) p), w).

Definition os_listdir (d : str) : M (list str) :=
  fun w => match w_fs w !! d with
           | Some Dir => (Ok (listdir (w_fs w) d), w)
           | Some (File _) => (Raise NotADirectoryError, w)
           | None => (Raise FileNotFoundError, w)
           end.

Definition os_remove (p : str) : M unit :=
  fun w => match w_fs w !! p with
           | Some (File _) => (Ok tt, set_fs (delete p (w_fs w)) w)
           | Some Dir => (Raise IsADirectoryError, w)
           | None => (Raise FileNotFoundError, w)
           end.

(** [with open(p, "r") as f: f.read()]. *)
Definition read_file (p : str) : M str :=
  fun w => match w_fs w !! p with
           | Some (File content) => (Ok content, w)
           | Some Dir => (Raise IsADirectoryError, w)
           | None => (Raise FileNotFoundError, w)
           end.

(** [with open(p, "w") as f: f.write(...)], all writes taken together. *)
Definition write_file (p : str) (content : str) : M unit :=
  fun w => if isdir (w_fs w) p then (Raise IsADirectoryError, w)
           else if parent_ok (w_fs w) p then (Ok tt, set_fs (<[p := File content]> (w_fs w)) w)
           else (Raise FileNotFoundError, w).

(** [shutil.copy(src, dst)]. *)
Definition shutil_copy (src dst : str) : M unit :=
  w <- get ;;
  let dst' := if isdir (w_fs w) dst then os_path_join dst (basename src) else dst in
  if bool_decide (src = dst') then raise SameFileError
  else content <- read_file src ;; write_file dst' content.

Section Script.

Variable env : Env.

(** [subprocess.run(argv, check=check, capture_output=True, text=True)]. *)
Definition subprocess_run (argv : list str) (check : bool) : M Completed :=
  fun w =>
    let w1 := next_tick (add_invoked argv w) in
    match spawn env (w_tick w) argv (w_fs w) with
    | None => (Raise OSError, w1)
    | Some r =>
        let w2 := set_fs (fs_after r) w1 in
        if check && negb (returncode r =? 0)%Z
        then (Raise (CalledProcessError (returncode r) (stdout r) (stderr r)), w2)
        else (Ok r, w2)
    end.

(** [datetime.datetime.now().strftime("%Y%m%d_%H%M%S")]. *)
Definition timestamp_now : M str :=
  fun w => (Ok (strftime (now env (w_tick w))), next_tick w).

(** [random.choice(seq)]. *)
Definition random_choice (seq : list str) : M str :=
  fun w => match seq with
           | [] => (Raise IndexError, w)
           | x :: _ =>
               (Ok (nth (randbelow env (w_tick w) (length seq) mod length seq)%nat seq x),
                next_tick w)
           end.

(** [int(s)]. *)
Definition int (s : str) : M Z :=
  match int_of_str env s with
  | Some k => ret k
  | None => raise ValueError
  end.

(** ** The workspace manager *)

(** [clear_folder] (grademe_version6.py 17-23, grademe_version1.py 20-26):
<<
    if os.path.exists(folder_path):
        for file in os.listdir(folder_path):
            file_path = os.path.join(folder_path, file)
            if os.path.isfile(file_path):
                os.remove(file_path)
>> *)
Definition clear_folder (folder_path : str) : M unit :=
  ex <- os_path_exists folder_path ;;
  if ex then
    files <- os_listdir folder_path ;;
    for_each files (fun file =>
      let file_path := os_path_join folder_path file in
      isf <- os_path_isfile file_path ;;
      if isf then os_remove file_path else ret tt)
  else ret tt.

(** ** The build-and-verify pipeline *)

(** The text written to a mismatch trace (lines 58-62 of version6). *)
Definition mismatch_trace (norm_expected norm_actual : list str) : str :=
  [10060] ++ lit " Output mismatch!" ++ [LF]
  ++ lit "--- Expected ---" ++ [LF]
  ++ (join [LF] norm_expected ++ [LF])
  ++ lit "--- Got ---" ++ [LF]
  ++ (join [LF] norm_actual ++ [LF]).

(** The text written to a compile trace (lines 110-113 of version6). *)
Definition compile_trace (out err : str) : str :=
  lit "--- Compiler stdout ---" ++ [LF]
  ++ out
  ++ [LF] ++ lit "--- Compiler stderr ---" ++ [LF]
  ++ err.

Definition mismatch_trace_file (subject timestamp : str) : str :=
  os_path_join TRACE_DIR (subject ++ lit "_trace_" ++ timestamp ++ lit ".txt").

Definition compile_trace_file (level exercise timestamp : str) : str :=
  os_path_join TRACE_DIR
    (level ++ lit "_" ++ exercise ++ lit "_compile_" ++ timestamp ++ lit ".txt").

(** [run_and_check] (grademe_version6.py 30-63, grademe_version1.py 33-69). *)
Definition run_and_check (exe_file expected_output_file subject : str) : M unit :=
  result <- subprocess_run [exe_file] false ;;
  let actual_output := strip (stdout result) in
  print MsgProgramOutputHeader ;;
  print (if truthy actual_output then MsgProgramOutput actual_output else MsgNoOutput) ;;
  (if truthy (stderr result) then print (MsgRuntimeErrors (stderr result)) else ret tt) ;;
  has_expected <- os_path_isfile expected_output_file ;;
  if has_expected then
    raw <- read_file expected_output_file ;;
    let expected_output := strip raw in
    let norm_actual := normalize_output actual_output in
    let norm_expected := normalize_output expected_output in
    if bool_decide (norm_actual = norm_expected) then
      print MsgMatch
    else
      print MsgMismatch ;;
      print MsgExpectedHeader ;;
      print (MsgExpected (join [LF] norm_expected)) ;;
      print MsgGotHeader ;;
      print (MsgGot (join [LF] norm_actual)) ;;
      timestamp <- timestamp_now ;;
      let trace_file := mismatch_trace_file subject timestamp in
      write_file trace_file (mismatch_trace norm_expected norm_actual) ;;
      print (MsgMismatchTraceSaved trace_file)
  else ret tt.

(** The two scripts. *)
Inductive variant := Version1 | Version6.

(** What [test_subject] shows once the exercise is chosen: version6 names
    the exercise (line 77); version1 names it and shows [subject.txt]
    when there is one (lines 81-89). *)
Definition announce (v : variant) (level exercise subject_dir : str) : M unit :=
  match v with
  | Version6 => print (MsgWorkingOn level exercise)
  | Version1 =>
      print (MsgTesting level exercise) ;;
      let subject_txt := os_path_join subject_dir (lit "subject.txt") in
      has_txt <- os_path_isfile subject_txt ;;
      if has_txt then
        print MsgDescriptionHeader ;;
        text <- read_file subject_txt ;;
        print (MsgDescription (strip text)) ;;
        print MsgDescriptionFooter
      else ret tt
  end.

(** [f.endswith((".c", ".cpp"))]. *)
Definition recognized (f : str) : bool :=
  endswith f (lit ".c") || endswith f (lit ".cpp").

Definition exe_file : str := os_path_join BUILD_DIR (lit "program.out").

(** The toolchain table (lines 93-96 of version6). *)
Definition compiler (solution_file dst_file : str) : list str :=
  if endswith solution_file (lit ".cpp")
  then [lit "c++"; lit "-std=c++17"; lit "-o"; exe_file; dst_file]
  else [lit "gcc"; lit "-std=c11"; lit "-o"; exe_file; dst_file].

Definition expected_output_file (subject_dir : str) : str :=
  os_path_join (os_path_join subject_dir (lit "output")) (lit "output.txt").

(** [test_subject] (grademe_version6.py 65-114, grademe_version1.py
    71-127).  An early [return] is the end of its branch. *)
Definition test_subject (v : variant) (level : str) : M unit :=
  let level_dir := os_path_join TASKS_DIR level in
  names <- os_listdir level_dir ;;
  w0 <- get ;;
  let exercises :=
    List.filter (fun f => isdir (w_fs w0) (os_path_join level_dir f)) names in
  if negb (truthy exercises) then
    print (MsgNoExercises level)
  else
    exercise <- random_choice exercises ;;
    let subject_dir := os_path_join level_dir exercise in
    announce v level exercise subject_dir ;;
    clear_folder BUILD_DIR ;;
    staged <- os_listdir SOLUTIONS_DIR ;;
    let solution_files := List.filter recognized staged in
    if negb (length solution_files =? 1)%nat then
      print MsgNeedOneSolution
    else
      let first := nth 0 solution_files [] in
      let solution_file := os_path_join SOLUTIONS_DIR first in
      let dst_file := os_path_join BUILD_DIR first in
      shutil_copy solution_file dst_file ;;
      try_except_called_process_error
        (subprocess_run (compiler solution_file dst_file) true ;;
         print MsgCompilationOk ;;
         run_and_check exe_file (expected_output_file subject_dir)
                       (level ++ lit "_" ++ exercise))
        (fun out err =>
           print MsgCompilationFailed ;;
           timestamp <- timestamp_now ;;
           let trace_file := compile_trace_file level exercise timestamp in
           write_file trace_file (compile_trace out err) ;;
           print (MsgTraceSaved trace_file)).

End Script.

(** ** The session controller *)

(** How one turn of [while True] ends: [break], or the next turn with the
    value of [current_level] ([current_difficulty] in version1). *)
Inductive control :=
  | Break
  | Next (current_level : option str).

Module V6.
Section Loop.

Variable env : Env.

(** How the level prompt ends: [break], [continue], or on with the level
    chosen. *)
Inductive chosen :=
  | Stop
  | Again
  | Level (current_level : str).

(** The turn while [current_level is None] (grademe_version6.py 121-149):
    list the levels, ask for one, and run the pipeline once on it. *)
Definition choose_level : M chosen :=
  names <- os_listdir TASKS_DIR ;;
  w0 <- get ;;
  let levels :=
    List.filter (fun f => isdir (w_fs w0) (os_path_join TASKS_DIR f)) names in
  if negb (truthy levels) then
    print MsgNoLevels ;; ret Stop
  else
    print MsgAvailableLevels ;;
    for_each (combine (seq 1 (length levels)) levels)
             (fun il => print (MsgLevelItem (fst il) (snd il))) ;;
    raw <- input (Some (MsgChoosePrompt (length levels))) ;;
    let choice := str_lower env (strip raw) in
    if bool_decide (str_upper env choice = lit "EXIT") then
      clear_folder SOLUTIONS_DIR ;;
      clear_folder TRACE_DIR ;;
      clear_folder BUILD_DIR ;;
      print MsgBye ;;
      ret Stop
    else
      by_index <- (if str_isdigit env choice then
                     k <- int env choice ;;
                     ret ((1 <=? k)%Z && (k <=? Z.of_nat (length levels))%Z)
                   else ret false) ;;
      if by_index then
        k <- int env choice ;;
        let current_level := nth (Z.to_nat (k - 1)) levels [] in
        test_subject env Version6 current_level ;;
        ret (Level current_level)
      else if bool_decide (choice ∈ map (str_lower env) levels) then
        match List.find (fun lvl => bool_decide (str_lower env lvl = choice)) levels with
        | Some current_level =>
            test_subject env Version6 current_level ;;
            ret (Level current_level)
        | None => raise StopIteration
        end
      else
        print MsgInvalidChoice ;; ret Again.

(** The action prompt (grademe_version6.py 152-173). *)
Definition act (current_level : str) : M control :=
  raw <- input (Some MsgActionPrompt) ;;
  let user_input := str_lower env (strip raw) in
  if bool_decide (user_input = []) then
    test_subject env Version6 current_level ;;
    print MsgReady ;;
    ret (Next (Some current_level))
  else if bool_decide (user_input = lit "new") then
    test_subject env Version6 current_level ;;
    print MsgReady ;;
    ret (Next (Some current_level))
  else if bool_decide (user_input = lit "newnew") then
    print MsgChooseNewLevel ;;
    ret (Next None)
  else if bool_decide (user_input = lit "exit") then
    clear_folder SOLUTIONS_DIR ;;
    clear_folder TRACE_DIR ;;
    clear_folder BUILD_DIR ;;
    print MsgBye ;;
    ret Break
  else
    print MsgInvalidInput ;;
    ret (Next (Some current_level)).

(** One turn of the command loop (grademe_version6.py 120-173). *)
Definition loop_body (current_level : option str) : M control :=
  match current_level with
  | None =>
      c <- choose_level ;;
      match c with
      | Stop => ret Break
      | Again => ret (Next None)
      | Level l => act l
      end
  | Some l => act l
  end.

(** The command loop, for at most [fuel] turns. *)
Fixpoint command_loop (fuel : nat) (current_level : option str) : M unit :=
  match fuel with
  | O => ret tt
  | S fuel' =>
      c <- loop_body current_level ;;
      match c with
      | Break => ret tt
      | Next cl => command_loop fuel' cl
      end
  end.

End Loop.
End V6.

Module V1.
Section Loop.

Variable env : Env.

(** [DIFFICULTIES] is listed once, when the script starts
    (grademe_version1.py 18). *)
Variable DIFFICULTIES : list str.

(** One turn of the command loop (grademe_version1.py 133-157). *)
Definition loop_body (current_difficulty : option str) : M control :=
  picked <- match current_difficulty with
            | None =>
                if negb (truthy DIFFICULTIES) then
                  print MsgNoSubjects ;; ret None
                else
                  d <- random_choice env DIFFICULTIES ;;
                  print (MsgYourTask d) ;;
                  ret (Some d)
            | Some d => ret (Some d)
            end ;;
  match picked with
  | None => ret Break
  | Some current_difficulty =>
      raw <- input None ;;
      let user_input := strip raw in
      if bool_decide (str_upper env user_input = lit "EXIT") then
        clear_folder SOLUTIONS_DIR ;;
        clear_folder TRACE_DIR ;;
        clear_folder BUILD_DIR ;;
        print MsgBye ;;
        ret Break
      else if bool_decide (str_upper env user_input = lit "NEW") then
        clear_folder SOLUTIONS_DIR ;;
        clear_folder TRACE_DIR ;;
        clear_folder BUILD_DIR ;;
        print MsgSwitching ;;
        ret (Next None)
      else
        test_subject env Version1 current_difficulty ;;
        print MsgReadyRetest ;;
        ret (Next (Some current_difficulty))
  end.

(** The command loop, for at most [fuel] turns. *)
Fixpoint command_loop (fuel : nat) (current_difficulty : option str) : M unit :=
  match fuel with
  | O => ret tt
  | S fuel' =>
      c <- loop_body current_difficulty ;;
      match c with
      | Break => ret tt
      | Next cd => command_loop fuel' cd
      end
  end.

End Loop.
End V1.

(** ** Notions used to state the properties *)

(** What [clear_folder d] leaves of a file system in which [d] is a
    directory: every entry of [d] that is a regular file is gone. *)
Definition remove_regular_files (d : str) (fs : FS) : FS :=
  filter (fun kv => ¬ (is_Some (entry_name d kv.1) ∧ kv.2 ≠ Dir)) fs.

(** What [clear_folder d] leaves of any file system in which [d] is not a
    regular file. *)
Definition clear_fs (d : str) (fs : FS) : FS :=
  match fs !! d with
  | Some Dir => remove_regular_files d fs
  | _ => fs
  end.

(** One turn of the loop of [clear_folder d], on the file system. *)
Definition remove_step (d : str) (fs : FS) (name : str) : FS :=
  if isfile fs (os_path_join d name) then delete (os_path_join d name) fs else fs.

(** A world with the given file system, a blank terminal, no process
    run and nothing typed yet. *)
Definition world_of (fs : FS) : World := mkWorld fs [] [] [] 0.

(** A build directory that holds an executable and a subdirectory. *)
Definition build_with_subdir : FS :=
  list_to_map
    [ (BUILD_DIR, Dir);
      (lit "./build/program.out", File (lit "ELF"));
      (lit "./build/obj", Dir);
      (lit "./build/obj/main.o", File (lit "obj")) ].

(** What [clear_folder d] guarantees between the world [w] it starts in
    and the world [w'] it ends in. *)
Definition cleared (d : str) (w w' : World) : Prop :=
  w_console w' = w_console w /\ w_invoked w' = w_invoked w /\
  w_stdin w' = w_stdin w /\ w_tick w' = w_tick w /\
  (* the directory itself stays as it was, a directory or missing *)
  w_fs w' !! d = w_fs w !! d /\
  (* nothing is created, and nothing outside of [d] is touched *)
  w_fs w' ⊆ w_fs w /\
  (forall p, entry_name d p = None -> w_fs w' !! p = w_fs w !! p) /\
  (* a missing directory: nothing happens at all *)
  (w_fs w !! d = None -> w' = w) /\
  (* a directory: its regular files are gone, the other entries stay *)
  (w_fs w !! d = Some Dir ->
     (forall n, n ∈ listdir (w_fs w') d <->
                n ∈ listdir (w_fs w) d /\ isfile (w_fs w) (os_path_join d n) = false) /\
     (forall n, n ∈ listdir (w_fs w') d -> isfile (w_fs w') (os_path_join d n) = false) /\
     ((forall n, n ∈ listdir (w_fs w) d -> isfile (w_fs w) (os_path_join d n) = true) ->
      listdir (w_fs w') d = [])).

(** A text without slash. *)
Definition no_slash (s : str) : Prop := existsb (N.eqb SLASH) s = false.

(** The world after [subprocess.run(argv)] has started a process that
    left [r]. *)
Definition after_process (argv : list str) (r : Completed) (w : World) : World :=
  set_fs (fs_after r) (next_tick (add_invoked argv w)).

(** What [run_and_check] shows of a finished run before it looks for the
    expected output: the header, the trimmed standard output or
    [[no output]], and the standard error when there is some. *)
Definition shown (r : Completed) : list Msg :=
  [ MsgProgramOutputHeader;
    if truthy (strip (stdout r)) then MsgProgramOutput (strip (stdout r)) else MsgNoOutput ]
  ++ (if truthy (stderr r) then [MsgRuntimeErrors (stderr r)] else []).

(** The verdicts among the messages. *)
Definition is_verdict (m : Msg) : bool :=
  match m with
  | MsgMatch | MsgMismatch => true
  | _ => false
  end.

(** ** A host to run the script on: ASCII case tables, a fixed clock, the
    first element as the random choice, a compiler that exits with
    [compile_rc] and a candidate program that prints [program_stdout] *)

Definition ascii_lower (s : str) : str :=
  map (fun c => if (65 <=? c) && (c <=? 90) then c + 32 else c) s.

Definition ascii_upper (s : str) : str :=
  map (fun c => if (97 <=? c) && (c <=? 122) then c - 32 else c) s.

Definition ascii_isdigit (s : str) : bool :=
  truthy s && forallb (fun c => (48 <=? c) && (c <=? 57)) s.

Definition ascii_int (s : str) : option Z :=
  if ascii_isdigit s
  then Some (fold_left (fun acc c => acc * 10 + Z.of_N (c - 48))%Z s 0%Z)
  else None.

Definition demo_env (compile_rc program_rc : Z) (program_stdout program_stderr : str) : Env :=
  mkEnv
    (fun _ argv fs =>
       match argv with
       | [_] => Some (mkCompleted program_rc program_stdout program_stderr fs)
       | _ =>
           Some (mkCompleted compile_rc [] (lit "main.cpp:1:1: error")
                   (if (compile_rc =? 0)%Z
                    then <[lit "./build/program.out" := File (lit "ELF")]> fs
                    else fs))
       end)
    (fun _ => mkDatetime 2024 1 2 3 4 5)
    (fun _ _ => 0%nat)
    ascii_lower ascii_upper ascii_isdigit ascii_int.

(** A workspace with one level, one exercise whose expected output is
    ["Hello\nWorld"], and one staged solution. *)
Definition demo_fs : FS :=
  list_to_map
    [ (lit "./tasks/subjects", Dir);
      (lit "./tasks/subjects/level1", Dir);
      (lit "./tasks/subjects/level1/1", Dir);
      (lit "./tasks/subjects/level1/1/output", Dir);
      (lit "./tasks/subjects/level1/1/output/output.txt",
       File (lit "Hello" ++ [LF] ++ lit "World"));
      (lit "./solutions", Dir);
      (lit "./solutions/main.cpp", File (lit "int main() { return 0; }"));
      (lit "./build", Dir);
      (lit "./traces", Dir) ].

(** Several messages shown in a row. *)
Definition add_all (ms : list Msg) (w : World) : World :=
  fold_left (fun w m => add_console m w) ms w.

(** The messages shown between world [w] and a later world [w']. *)
Definition printed (w w' : World) : list Msg :=
  drop (length (w_console w)) (w_console w').

(** The text of the expected-output file, when there is one. *)
Definition expected_text (fs : FS) (p : str) : option str :=
  match fs !! p with
  | Some (File raw) => Some raw
  | _ => None
  end.

(** The verdict that the program output and the expected text call for. *)
Definition verdict_for (out : str) (expected : option str) : list Msg :=
  match expected with
  | None => []
  | Some raw =>
      if bool_decide (normalize_output out = normalize_output raw)
      then [MsgMatch] else [MsgMismatch]
  end.

(** What [run_and_check] shows on a mismatch, up to the trace notice. *)
Definition mismatch_report (norm_expected norm_actual : list str) : list Msg :=
  [ MsgMismatch; MsgExpectedHeader; MsgExpected (join [LF] norm_expected);
    MsgGotHeader; MsgGot (join [LF] norm_actual) ].

(** The exercises of a level, as [test_subject] lists them. *)
Definition exercises_of (fs : FS) (level : str) : list str :=
  let level_dir := os_path_join TASKS_DIR level in
  List.filter (fun f => isdir fs (os_path_join level_dir f)) (listdir fs level_dir).

(** The entries of the staging area with a recognized extension. *)
Definition staged_solutions (fs : FS) : list str :=
  List.filter recognized (listdir fs SOLUTIONS_DIR).

(** The element [random.choice] takes at observation [t]. *)
Definition picked (env : Env) (t : nat) (seq : list str) : str :=
  match seq with
  | [] => []
  | x :: _ => nth (randbelow env t (length seq) mod length seq)%nat seq x
  end.

(** What [announce] shows. *)
Definition announced (v : variant) (level exercise : str) (fs : FS) : list Msg :=
  match v with
  | Version6 => [MsgWorkingOn level exercise]
  | Version1 =>
      MsgTesting level exercise ::
      match fs !! os_path_join (os_path_join (os_path_join TASKS_DIR level) exercise)
                               (lit "subject.txt") with
      | Some (File text) =>
          [MsgDescriptionHeader; MsgDescription (strip text); MsgDescriptionFooter]
      | _ => []
      end
  end.

(** The end of [test_subject], from [shutil.copy] on, for the one staged
    solution [first]. *)
Definition build_step (env : Env) (level exercise first : str) : M unit :=
  let subject_dir := os_path_join (os_path_join TASKS_DIR level) exercise in
  let solution_file := os_path_join SOLUTIONS_DIR first in
  let dst_file := os_path_join BUILD_DIR first in
  shutil_copy solution_file dst_file ;;
  try_except_called_process_error
    (subprocess_run env (compiler solution_file dst_file) true ;;
     print MsgCompilationOk ;;
     run_and_check env exe_file (expected_output_file subject_dir)
                   (level ++ lit "_" ++ exercise))
    (fun out err =>
       print MsgCompilationFailed ;;
       timestamp <- timestamp_now env ;;
       let trace_file := compile_trace_file level exercise timestamp in
       write_file trace_file (compile_trace out err) ;;
       print (MsgTraceSaved trace_file)).

(** The middle of [test_subject], once the exercise is announced: clear
    the build directory, scan the staging area, go on to [build_step] with
    the one solution found. *)
Definition after_announce (env : Env) (level exercise : str) : M unit :=
  clear_folder BUILD_DIR ;;
  staged <- os_listdir SOLUTIONS_DIR ;;
  let solution_files := List.filter recognized staged in
  if negb (length solution_files =? 1)%nat then
    print MsgNeedOneSolution
  else
    build_step env level exercise (nth 0 solution_files []).

(** The levels, as the level prompt of version6 lists them. *)
Definition levels_of (fs : FS) : list str :=
  List.filter (fun f => isdir fs (os_path_join TASKS_DIR f)) (listdir fs TASKS_DIR).

(** What the level prompt of version6 shows before it reads a line. *)
Definition level_menu (levels : list str) : list Msg :=
  MsgAvailableLevels
  :: map (fun il => MsgLevelItem (fst il) (snd il)) (combine (seq 1 (length levels)) levels)
  ++ [MsgChoosePrompt (length levels)].

(** The three directories cleared one after the other, as the scripts do
    on exit: staging, traces, build. *)
Definition reset_all_fs (fs : FS) : FS :=
  clear_fs BUILD_DIR (clear_fs TRACE_DIR (clear_fs SOLUTIONS_DIR fs)).

(** A world in which the line [line] was just typed. *)
Definition typing (line : str) (w : World) : World := set_stdin (line :: w_stdin w) w.

(** A workspace like [demo_fs] with a mismatch trace left by an earlier
    round. *)
Definition demo_fs_with_trace : FS :=
  <[lit "./traces/level1_1_trace_20240102_030405.txt" := File (lit "old trace")]> demo_fs.

(** Pieces of the demo workspace. *)
Definition demo_level : str := lit "level1".
Definition demo_subject : str := lit "level1_1".
Definition demo_expected : str := lit "./tasks/subjects/level1/1/output/output.txt".
Definition demo_expected_text : str := lit "Hello" ++ [LF] ++ lit "World".
Definition demo_source : str := lit "int main() { return 0; }".

(** Program outputs: the expected lines with a blank line in between, and
    the expected lines in the wrong order. *)
Definition hello_world : str := lit "Hello" ++ [LF; LF] ++ lit "World".
Definition world_hello : str := lit "World" ++ [LF] ++ lit "Hello".

(** [demo_fs] with a second staged solution. *)
Definition demo_fs_two_solutions : FS :=
  <[lit "./solutions/other.c" := File (lit "int main(void) { return 1; }")]> demo_fs.

(** ** Notions used in the proofs about text and paths *)

(** What [rstrip] does when a character is put in front. *)
Definition rcons (c : char) (r : str) : str :=
  match r with
  | [] => if isspace c then [] else [c]
  | _ :: _ => c :: r
  end.

(** The lines of a text with one more character in front, and the text
    that follows a line boundary. *)
Definition cons_first (c : char) (ls : list str) : list str :=
  match ls with
  | [] => [[c]]
  | line :: lines => (c :: line) :: lines
  end.

Definition after_break (c : char) (rest : str) : str :=
  match rest with
  | [] => []
  | c' :: rest' => if (c =? CR) && (c' =? LF) then rest' else rest
  end.

(** A text without line boundary. *)
Definition no_break (l : str) : Prop := forallb (fun c => negb (islinebreak c)) l = true.

(** How right-trimmed lines change when a character is put in front of the
    text. *)
Definition rcons_first (c : char) (rs : list str) : list str :=
  match rs with
  | [] => [rcons c []]
  | r :: rs' => rcons c r :: rs'
  end.

(** The shape of a normalized line: not empty, no whitespace at either end,
    no line boundary inside. *)
Definition clean (l : str) : Prop :=
  l <> [] /\ lstrip l = l /\ rstrip l = l /\ no_break l.

(** A directory path as the script configures them: not empty, no slash
    at the end. *)
Definition plain_dir (d : str) : Prop := truthy d = true /\ endswith d [SLASH] = false.

(** ** The demo workspace after a successful build and run *)

Definition demo_argv : list str :=
  [lit "c++"; lit "-std=c++17"; lit "-o"; lit "./build/program.out"; lit "./build/main.cpp"].

(** What the toolchain of [demo_env 0 ...] leaves. *)
Definition demo_compiled : Completed :=
  mkCompleted 0 [] (lit "main.cpp:1:1: error")
    (<[lit "./build/program.out" := File (lit "ELF")]>
       (<[lit "./build/main.cpp" := File demo_source]> (clear_fs BUILD_DIR demo_fs))).

(** What the candidate of [demo_env 0 program_rc out err] leaves. *)
Definition demo_ran (program_rc : Z) (out err : str) : Completed :=
  mkCompleted program_rc out err (fs_after demo_compiled).

(** [demo_fs] with a second level that holds a file and no exercise. *)
Definition demo_fs_empty_level : FS :=
  <[lit "./tasks/subjects/level2/README.txt" := File (lit "soon")]>
    (<[lit "./tasks/subjects/level2" := Dir]> demo_fs).

(** ** The end of a session *)

(** What the exit command leaves of world [w]: the three directories
    cleared, [msgs] shown, no process run, the lines after the command
    still unread. *)
Definition exited (msgs : list Msg) (rest : list str) (w w' : World) : Prop :=
  w_fs w' = reset_all_fs (w_fs w) /\
  printed w w' = msgs /\
  w_invoked w' = w_invoked w /\
  w_stdin w' = rest /\
  w_tick w' = w_tick w.

(** A host like [demo_env] whose [str.isdigit] also holds of the
    superscript two (U+00B2), which [int] rejects, as in CPython. *)
Definition superscript_env : Env :=
  mkEnv
    (spawn (demo_env 0 0 [] []))
    (now (demo_env 0 0 [] []))
    (randbelow (demo_env 0 0 [] []))
    ascii_lower ascii_upper
    (fun s => truthy s && forallb (fun c => ((48 <=? c) && (c <=? 57)) || (c =? 178)) s)
    ascii_int.

(** A workspace whose catalogue holds no level directory. *)
Definition demo_fs_no_level : FS :=
  list_to_map
    [ (lit "./tasks/subjects", Dir);
      (lit "./tasks/subjects/README.md", File (lit "levels go here"));
      (lit "./solutions", Dir);
      (lit "./solutions/main.cpp", File (lit "int main() { return 0; }"));
      (lit "./build", Dir);
      (lit "./traces", Dir) ].

(** ** Invariants of a run *)

(** [m] keeps the relation [R] between the world it starts in and the
    world it ends in, whether it returns or raises, and what it returns
    satisfies [Q]. *)
Definition hoare {A} (R : World -> World -> Prop) (m : M A) (Q : A -> Prop) : Prop :=
  forall w, R w (snd (m w)) /\ forall a, fst (m w) = Ok a -> Q a.

(** No condition on what is returned. *)
Definition any {A} : A -> Prop := fun _ => True.

(** The file system [fs'] has every directory of [fs]. *)
Definition dirs_kept (fs fs' : FS) : Prop :=
  forall k, fs !! k = Some Dir -> fs' !! k = Some Dir.

(** [p] is an entry of the directory [d]: one path component below it. *)
Definition is_entry (d p : str) : bool :=
  match entry_name d p with
  | Some _ => true
  | None => false
  end.

(** A path of the workspace: an entry of [./solutions], [./traces] or
    [./build], or [./build/<name>/<name>] for a name with a recognized
    extension (where [shutil.copy] puts the copy of the staged file when
    its destination [./build/<name>] is a directory).  An entry is a
    single component below its directory: a longer path, through [..] or
    otherwise, is not one. *)
Definition in_workspace (p : str) : bool :=
  is_entry SOLUTIONS_DIR p || is_entry TRACE_DIR p || is_entry BUILD_DIR p
  || (valid_name (basename p) && recognized (basename p)
      && bool_decide (p = os_path_join (os_path_join BUILD_DIR (basename p)) (basename p))).

(** The two kinds of command line the script hands to [subprocess.run]:
    the candidate, and the toolchain on the copy of a staged file. *)
Definition script_command (argv : list str) : Prop :=
  argv = [exe_file] \/
  exists first, valid_name first = true /\
    argv = compiler (os_path_join SOLUTIONS_DIR first) (os_path_join BUILD_DIR first).

(** The level a turn of the command loop starts with, if any, satisfies
    [good]; and so for the way a turn ends. *)
Definition good_level (good : str -> Prop) (current_level : option str) : Prop :=
  match current_level with
  | Some l => good l
  | None => True
  end.

Definition good_control (good : str -> Prop) (c : control) : Prop :=
  match c with
  | Break => True
  | Next current_level => good_level good current_level
  end.

Definition good_chosen (good : str -> Prop) (c : V6.chosen) : Prop :=
  match c with
  | V6.Level l => good l
  | _ => True
  end.

(** A host whose processes write nothing. *)
Definition idle_env : Env := demo_env 1 0 hello_world [].

(** A host on which the toolchain is not installed ([toolchain = false]),
    or on which it exits with zero and the candidate cannot be started. *)
Definition broken_env (toolchain : bool) : Env :=
  mkEnv
    (fun _ argv fs =>
       match argv with
       | [_] => None
       | _ => if toolchain
              then Some (mkCompleted 0 [] []
                           (<[lit "./build/program.out" := File (lit "ELF")]> fs))
              else None
       end)
    (now (demo_env 0 0 [] []))
    (randbelow (demo_env 0 0 [] []))
    ascii_lower ascii_upper ascii_isdigit ascii_int.

(** [demo_fs] without the staging directory. *)
Definition demo_fs_no_staging : FS :=
  delete (lit "./solutions/main.cpp") (delete SOLUTIONS_DIR demo_fs).

(** ** The trace names and the clock, as the specification words them *)









(** The staged entries with a recognized extension that are regular
    files. *)
Definition staged_solution_files (fs : FS) : list str :=
  List.filter (fun f => isfile fs (os_path_join SOLUTIONS_DIR f)) (staged_solutions fs).

(** A workspace like [demo_fs] whose staging area holds no file, and one
    directory named [x.c]. *)
Definition demo_fs_directory_staged : FS :=
  <[lit "./solutions/x.c" := Dir]> (delete (lit "./solutions/main.cpp") demo_fs).

(** The notice on the one solution file, among the messages. *)
Definition is_solution_notice (m : Msg) : bool :=
  match m with
  | MsgNeedOneSolution => true
  | _ => false
  end.

(* ================================================================== *)
(** * Verification *)

(** *** Behaviour of the text primitives on the examples of the Python
    documentation *)

Example splitlines_doc :
  splitlines (lit "ab c" ++ [LF; LF] ++ lit "de fg" ++ [CR] ++ lit "kl" ++ [CR; LF])
  = [lit "ab c"; []; lit "de fg"; lit "kl"].
Proof. reflexivity. Qed.

Example splitlines_empty : splitlines [] = [].
Proof. reflexivity. Qed.

Example splitlines_one_line : splitlines (lit "One line" ++ [LF]) = [lit "One line"].
Proof. reflexivity. Qed.

Example strip_doc : strip (lit "   spacious   ") = lit "spacious".
Proof. reflexivity. Qed.

Example endswith_cpp : endswith (lit "main.cpp") (lit ".cpp") = true.
Proof. reflexivity. Qed.

Example endswith_c_not_cpp : endswith (lit "main.cpp") (lit ".c") = false.
Proof. reflexivity. Qed.

(** ** Whitespace and line boundaries *)

Lemma islinebreak_isspace c : islinebreak c = true -> isspace c = true.
Proof.
  unfold islinebreak, isspace.
  rewrite !orb_true_iff, !andb_true_iff, !N.leb_le, !N.eqb_eq. lia.
Qed.

Lemma islinebreak_LF : islinebreak LF = true.
Proof. reflexivity. Qed.

#[global] Arguments isspace : simpl never.
#[global] Arguments islinebreak : simpl never.

(** ** [lstrip] and [rstrip] *)

Lemma lstrip_app a b :
  lstrip (a ++ b) = match lstrip a with [] => lstrip b | _ :: _ => lstrip a ++ b end.
Proof.
  induction a as [|c a IH]; simpl.
  - destruct (lstrip b); reflexivity.
  - destruct (isspace c); [exact IH | reflexivity].
Qed.

Lemma rstrip_cons c l : rstrip (c :: l) = rcons c (rstrip l).
Proof.
  unfold rstrip. simpl rev. rewrite lstrip_app.
  destruct (lstrip (rev l)) as [|x xs] eqn:E.
  - simpl. destruct (isspace c); reflexivity.
  - rewrite rev_app_distr. change (rev [c]) with [c].
    remember (rev (x :: xs)) as r eqn:R. destruct r; [|reflexivity].
    apply (f_equal (@length N)) in R. rewrite length_rev in R. discriminate.
Qed.

Lemma rstrip_nil : rstrip [] = [].
Proof. reflexivity. Qed.

Lemma lstrip_rcons c r : lstrip (rcons c r) = if isspace c then lstrip r else rcons c r.
Proof.
  unfold rcons. destruct r as [|x r]; simpl; destruct (isspace c) eqn:E; simpl; rewrite ?E; reflexivity.
Qed.

(** Trimming the two ends commutes. *)
Lemma strip_lstrip_rstrip l : strip l = lstrip (rstrip l).
Proof.
  unfold strip. induction l as [|c l IH]; [reflexivity|].
  rewrite rstrip_cons, lstrip_rcons. simpl lstrip.
  destruct (isspace c) eqn:E; [exact IH | apply rstrip_cons].
Qed.

Lemma lstrip_idem l : lstrip (lstrip l) = lstrip l.
Proof.
  induction l as [|c l IH]; [reflexivity|]. simpl.
  destruct (isspace c) eqn:E; [exact IH | simpl; rewrite E; reflexivity].
Qed.

Lemma rstrip_idem l : rstrip (rstrip l) = rstrip l.
Proof. unfold rstrip. rewrite rev_involutive, lstrip_idem. reflexivity. Qed.

Lemma strip_idem l : strip (strip l) = strip l.
Proof.
  unfold strip at 1. rewrite (strip_lstrip_rstrip l), lstrip_idem.
  rewrite <- strip_lstrip_rstrip. unfold strip. apply rstrip_idem.
Qed.

Lemma lstrip_strip l : lstrip (strip l) = strip l.
Proof. rewrite strip_lstrip_rstrip. apply lstrip_idem. Qed.

Lemma rstrip_strip l : rstrip (strip l) = strip l.
Proof. unfold strip. apply rstrip_idem. Qed.

(** A text is its right-trimmed part followed by whitespace only. *)
Lemma lstrip_decomp l : exists w, l = w ++ lstrip l /\ forallb isspace w = true.
Proof.
  induction l as [|c l [w [H1 H2]]].
  - exists []. split; reflexivity.
  - simpl. destruct (isspace c) eqn:E.
    + exists (c :: w). simpl. rewrite E, H2. split; [congruence | reflexivity].
    + exists []. split; reflexivity.
Qed.

Lemma rstrip_decomp l : exists w, l = rstrip l ++ w /\ forallb isspace w = true.
Proof.
  destruct (lstrip_decomp (rev l)) as [w [H1 H2]].
  exists (rev w). split.
  - unfold rstrip. rewrite <- rev_app_distr, <- H1, rev_involutive. reflexivity.
  - rewrite forallb_forall in *. intros x Hx. apply H2. apply in_rev in Hx. exact Hx.
Qed.

(** ** [splitlines] *)

Lemma splitlines_break c rest :
  islinebreak c = true -> splitlines (c :: rest) = [] :: splitlines (after_break c rest).
Proof.
  intros H. simpl. rewrite H. unfold after_break.
  destruct rest as [|c' rest']; [reflexivity|].
  destruct ((c =? CR) && (c' =? LF)); reflexivity.
Qed.

Lemma splitlines_plain c rest :
  islinebreak c = false -> splitlines (c :: rest) = cons_first c (splitlines rest).
Proof. intros H. simpl. rewrite H. reflexivity. Qed.

(** Induction along the recursion of [splitlines]. *)
Lemma splitlines_rect (P : str -> Prop) :
  P [] ->
  (forall c rest, islinebreak c = true -> P (after_break c rest) -> P (c :: rest)) ->
  (forall c rest, islinebreak c = false -> P rest -> P (c :: rest)) ->
  forall s, P s.
Proof.
  intros Hnil Hbrk Hpl s.
  assert (Q : P s /\ (forall c' r', s = c' :: r' -> P r')).
  { induction s as [|c rest [IH1 IH2]].
    - split; [exact Hnil | discriminate].
    - split; [| intros c' r' [= _ <-]; exact IH1].
      destruct (islinebreak c) eqn:E; [apply Hbrk | apply Hpl]; try assumption.
      unfold after_break. destruct rest as [|c' rest']; [exact Hnil|].
      destruct ((c =? CR) && (c' =? LF)); [eapply IH2; reflexivity | exact IH1]. }
  exact (proj1 Q).
Qed.

Lemma splitlines_nil_inv s : splitlines s = [] -> s = [].
Proof.
  destruct s as [|c rest]; [reflexivity|]. simpl.
  destruct (islinebreak c); [discriminate|].
  destruct (splitlines rest); discriminate.
Qed.

(** No line of [splitlines] contains a line boundary. *)
Lemma splitlines_no_break s : Forall no_break (splitlines s).
Proof.
  induction s using splitlines_rect.
  - constructor.
  - rewrite splitlines_break by assumption. constructor; [reflexivity | assumption].
  - rewrite splitlines_plain by assumption.
    destruct (splitlines s) as [|l ls]; simpl.
    + constructor; [|constructor]. unfold no_break. simpl. rewrite H. reflexivity.
    + inversion IHs; subst. constructor; [|assumption].
      unfold no_break in *. simpl. rewrite H. simpl. assumption.
Qed.

(** A text without line boundary, followed by a line feed, is one line. *)
Lemma splitlines_line_LF l rest :
  no_break l -> splitlines (l ++ LF :: rest) = l :: splitlines rest.
Proof.
  unfold no_break. induction l as [|c l IH]; cbn [app]; intros H.
  - rewrite splitlines_break by reflexivity. f_equal.
    unfold after_break. destruct rest as [|c' rest']; reflexivity.
  - simpl in H. apply andb_true_iff in H as [Hc Hl].
    rewrite splitlines_plain by (apply negb_true_iff; exact Hc).
    rewrite IH by exact Hl. reflexivity.
Qed.

Lemma splitlines_single l : no_break l -> l <> [] -> splitlines l = [l].
Proof.
  unfold no_break. induction l as [|c l IH]; [congruence|]. intros H _.
  simpl in H. apply andb_true_iff in H as [Hc Hl].
  rewrite splitlines_plain by (apply negb_true_iff; exact Hc).
  destruct l as [|d l]; [reflexivity|].
  rewrite IH by (assumption || discriminate). reflexivity.
Qed.

(** ** The normalizer against its specification *)

Lemma map_filter_comm {A B} (f : A -> B) (p : B -> bool) (l : list A) :
  map f (List.filter (fun x => p (f x)) l) = List.filter p (map f l).
Proof.
  induction l as [|x l IH]; [reflexivity|]. simpl.
  destruct (p (f x)); simpl; rewrite IH; reflexivity.
Qed.

Lemma normalize_output_unfold text :
  normalize_output text = normalize_spec (strip text).
Proof. unfold normalize_output, normalize_spec. apply map_filter_comm. Qed.

Lemma strip_cons_space c l : isspace c = true -> strip (c :: l) = strip l.
Proof. intros H. unfold strip. simpl. rewrite H. reflexivity. Qed.

Lemma normalize_spec_cons_space c t :
  isspace c = true -> normalize_spec (c :: t) = normalize_spec t.
Proof.
  intros Hsp. unfold normalize_spec.
  destruct (islinebreak c) eqn:Hb.
  - rewrite splitlines_break by assumption. simpl.
    unfold after_break. destruct t as [|c' t']; [reflexivity|].
    destruct ((c =? CR) && (c' =? LF)) eqn:E; [|reflexivity].
    apply andb_true_iff in E as [_ E]. apply N.eqb_eq in E. subst c'.
    rewrite (splitlines_break LF) by reflexivity. simpl.
    destruct t'; reflexivity.
  - rewrite splitlines_plain by assumption.
    destruct (splitlines t) as [|l ls]; simpl.
    + rewrite strip_cons_space by assumption. reflexivity.
    + rewrite strip_cons_space by assumption. reflexivity.
Qed.

Lemma normalize_spec_lstrip t : normalize_spec (lstrip t) = normalize_spec t.
Proof.
  induction t as [|c t IH]; [reflexivity|]. simpl.
  destruct (isspace c) eqn:E; [|reflexivity].
  rewrite IH. symmetry. apply normalize_spec_cons_space. exact E.
Qed.

Lemma map_rstrip_cons_first c ls :
  map rstrip (cons_first c ls) = rcons_first c (map rstrip ls).
Proof.
  destruct ls as [|l ls]; simpl; rewrite rstrip_cons; reflexivity.
Qed.

Lemma splitlines_one_space c :
  isspace c = true -> map rstrip (splitlines [c]) = [[]].
Proof.
  intros Hsp. destruct (islinebreak c) eqn:Hb.
  - rewrite splitlines_break by assumption. reflexivity.
  - rewrite splitlines_plain by assumption. simpl.
    rewrite rstrip_cons. unfold rcons. rewrite rstrip_nil, Hsp. reflexivity.
Qed.

(** One more whitespace character at the end of a text changes nothing in
    its right-trimmed lines, or adds one empty line. *)
Lemma splitlines_snoc_space a c :
  isspace c = true ->
  map rstrip (splitlines (a ++ [c])) = map rstrip (splitlines a) \/
  map rstrip (splitlines (a ++ [c])) = map rstrip (splitlines a) ++ [[]].
Proof.
  intros Hsp. induction a as [|d a Hd IHa|d a Hd IHa] using splitlines_rect.
  - right. cbn [app]. apply splitlines_one_space. exact Hsp.
  - cbn [app]. rewrite !splitlines_break by assumption. simpl map.
    destruct a as [|c' rest'].
    + clear IHa. cbn [app]. unfold after_break.
      destruct ((d =? CR) && (c =? LF)); [left; reflexivity|].
      right. rewrite splitlines_one_space by assumption. reflexivity.
    + cbn [app]. unfold after_break in *.
      destruct ((d =? CR) && (c' =? LF)).
      * destruct IHa as [IH|IH]; rewrite IH; [left | right]; reflexivity.
      * destruct IHa as [IH|IH]; cbn [app] in IH; rewrite IH; [left | right]; reflexivity.
  - cbn [app]. rewrite !splitlines_plain by assumption.
    rewrite !map_rstrip_cons_first.
    destruct IHa as [IH|IH]; rewrite IH; [left; reflexivity|].
    destruct (map rstrip (splitlines a)) as [|r rs]; [left | right]; reflexivity.
Qed.

Lemma map_strip_as_rstrip ls : map strip ls = map lstrip (map rstrip ls).
Proof. rewrite map_map. apply map_ext. intros l. apply strip_lstrip_rstrip. Qed.

Lemma normalize_spec_snoc_space a c :
  isspace c = true -> normalize_spec (a ++ [c]) = normalize_spec a.
Proof.
  intros Hsp. unfold normalize_spec. rewrite !map_strip_as_rstrip.
  destruct (splitlines_snoc_space a c Hsp) as [H|H]; rewrite H; [reflexivity|].
  rewrite map_app, List.filter_app. simpl. apply app_nil_r.
Qed.

Lemma normalize_spec_app_spaces w : forall a,
  forallb isspace w = true -> normalize_spec (a ++ w) = normalize_spec a.
Proof.
  induction w as [|c w IH]; intros a H.
  - rewrite app_nil_r. reflexivity.
  - simpl in H. apply andb_true_iff in H as [Hc Hw].
    change (a ++ c :: w) with (a ++ [c] ++ w). rewrite app_assoc.
    rewrite IH by exact Hw. apply normalize_spec_snoc_space. exact Hc.
Qed.

Lemma normalize_spec_rstrip t : normalize_spec (rstrip t) = normalize_spec t.
Proof.
  destruct (rstrip_decomp t) as [w [H1 H2]].
  rewrite H1 at 2. symmetry. apply normalize_spec_app_spaces. exact H2.
Qed.

Lemma normalize_spec_strip t : normalize_spec (strip t) = normalize_spec t.
Proof. unfold strip. rewrite normalize_spec_rstrip. apply normalize_spec_lstrip. Qed.

(** Trimming a text before normalizing it changes nothing: the script
    trims the program output and the expected text before it calls
    [normalize_output]. *)
Lemma normalize_output_strip t : normalize_output (strip t) = normalize_output t.
Proof. rewrite !normalize_output_unfold, strip_idem. reflexivity. Qed.

Lemma normalize_output_spec text : normalize_output text = normalize_spec text.
Proof. rewrite normalize_output_unfold. apply normalize_spec_strip. Qed.

(** C1. For every input text, [normalize_output] returns the sequence
    obtained by splitting the text on line boundaries, stripping leading
    and trailing whitespace from each line, dropping the lines that became
    empty and keeping the order of the others; the text ["a\n   \nb  \n"]
    normalizes to [["a"; "b"]]. *)
Theorem C1_normalize_output_meets_spec :
  (forall text, normalize_output text = normalize_spec text) /\
  normalize_output example_text = [lit "a"; lit "b"].
Proof.
  split; [exact normalize_output_spec | reflexivity].
Qed.

(** ** Idempotence of the normalizer *)

Lemma no_break_lstrip l : no_break l -> no_break (lstrip l).
Proof.
  unfold no_break. induction l as [|c l IH]; [trivial|]. simpl.
  destruct (isspace c); simpl; [|trivial].
  intros H. apply andb_true_iff in H as [_ H]. auto.
Qed.

Lemma no_break_rev l : no_break l -> no_break (rev l).
Proof.
  unfold no_break. rewrite !forallb_forall. intros H x Hx.
  apply H. apply in_rev. exact Hx.
Qed.

Lemma no_break_strip l : no_break l -> no_break (strip l).
Proof.
  intros H. unfold strip, rstrip.
  auto using no_break_rev, no_break_lstrip.
Qed.

Lemma normalize_spec_clean x : Forall clean (normalize_spec x).
Proof.
  unfold normalize_spec.
  pose proof (splitlines_no_break x) as H.
  induction H as [|l ls Hl _ IH]; simpl; [constructor|].
  destruct (truthy (strip l)) eqn:E; [|exact IH].
  constructor; [|exact IH]. repeat split.
  - intros Hnil. rewrite Hnil in E. discriminate.
  - apply lstrip_strip.
  - apply rstrip_strip.
  - apply no_break_strip. exact Hl.
Qed.

Lemma clean_strip l : clean l -> strip l = l.
Proof. intros (_ & Hl & Hr & _). unfold strip. rewrite Hl. exact Hr. Qed.

Lemma splitlines_join ls : Forall clean ls -> splitlines (join [LF] ls) = ls.
Proof.
  induction 1 as [|l ls Hl Hls IH]; [reflexivity|].
  destruct Hl as (Hne & _ & _ & Hnb).
  destruct ls as [|l' ls'].
  - simpl. apply splitlines_single; assumption.
  - change (join [LF] (l :: l' :: ls')) with (l ++ LF :: join [LF] (l' :: ls')).
    rewrite splitlines_line_LF by exact Hnb. rewrite IH. reflexivity.
Qed.

Lemma normalize_spec_join ls : Forall clean ls -> normalize_spec (join [LF] ls) = ls.
Proof.
  intros H. unfold normalize_spec. rewrite splitlines_join by exact H.
  induction H as [|l ls Hl _ IH]; [reflexivity|]. simpl.
  rewrite (clean_strip l Hl), IH.
  destruct Hl as (Hne & _). destruct l; [congruence | reflexivity].
Qed.

(** C9. Normalization is idempotent: joining [normalize_output x] with
    newlines and normalizing the text again gives [normalize_output x]
    back, same lines in the same order. *)
Theorem C9_normalize_output_idempotent (x : str) :
  normalize_output (join [LF] (normalize_output x)) = normalize_output x.
Proof.
  rewrite (normalize_output_spec (join _ _)), (normalize_output_spec x).
  apply normalize_spec_join, normalize_spec_clean.
Qed.

(** ** Paths and directory entries *)

Lemma startswith_app pre r : startswith (pre ++ r) pre = true.
Proof.
  induction pre as [|c pre IH]; [destruct r; reflexivity|].
  simpl. rewrite N.eqb_refl. exact IH.
Qed.

Lemma startswith_inv p pre :
  startswith p pre = true -> p = pre ++ drop (length pre) p.
Proof.
  revert p. induction pre as [|c pre IH]; intros p H; [reflexivity|].
  destruct p as [|x p]; [discriminate|]. simpl in H.
  apply andb_true_iff in H as [Hx H]. apply N.eqb_eq in Hx. subst x.
  simpl. f_equal. apply IH. exact H.
Qed.

Lemma valid_name_inv n :
  valid_name n = true -> n <> [] /\ existsb (N.eqb SLASH) n = false.
Proof.
  unfold valid_name. intros H. apply andb_true_iff in H as [H1 H2].
  apply negb_true_iff in H2. split; [|exact H2].
  intros ->. discriminate.
Qed.

Lemma valid_name_not_abs n : valid_name n = true -> startswith n [SLASH] = false.
Proof.
  intros H. apply valid_name_inv in H as [Hne Hs].
  destruct n as [|c n]; [congruence|]. cbn [existsb startswith] in *.
  apply orb_false_iff in Hs as [Hc _].
  rewrite N.eqb_sym, Hc. reflexivity.
Qed.

(** An entry of [d] is [d], completed to a prefix, followed by its name. *)
Lemma os_path_join_name d n :
  valid_name n = true -> os_path_join d n = os_path_join d [] ++ n.
Proof.
  intros H. unfold os_path_join. rewrite (valid_name_not_abs n H). simpl.
  destruct (negb (truthy d) || endswith d [SLASH]).
  - rewrite app_nil_r. reflexivity.
  - rewrite <- app_assoc. reflexivity.
Qed.

Lemma entry_name_join d n :
  valid_name n = true -> entry_name d (os_path_join d n) = Some n.
Proof.
  intros H. unfold entry_name. rewrite (os_path_join_name d n H).
  rewrite startswith_app, drop_app_length, H. reflexivity.
Qed.

Lemma entry_name_inv d p n :
  entry_name d p = Some n -> valid_name n = true /\ p = os_path_join d n.
Proof.
  unfold entry_name. intros H.
  destruct (startswith p (os_path_join d [])) eqn:Hs; [|discriminate].
  destruct (valid_name (drop _ p)) eqn:Hv; [|discriminate].
  injection H as <-. split; [exact Hv|].
  rewrite os_path_join_name by exact Hv. apply startswith_inv. exact Hs.
Qed.

(** A directory is not an entry of itself. *)
Lemma entry_name_self d : entry_name d d = None.
Proof.
  destruct (entry_name d d) as [n|] eqn:E; [|reflexivity]. exfalso.
  apply entry_name_inv in E as [Hv E].
  rewrite os_path_join_name in E by exact Hv.
  apply valid_name_inv in Hv as [Hne _].
  apply (f_equal (@length N)) in E. unfold os_path_join in E. simpl in E.
  destruct (negb (truthy d) || endswith d [SLASH]);
    rewrite !length_app in E; destruct n; [congruence | simpl in E; lia
                                          | congruence | simpl in E; lia].
Qed.

Lemma elem_of_listdir (fs : gmap (list N) node) (d n : list N) :
  n ∈ listdir fs d <-> valid_name n = true /\ is_Some (fs !! os_path_join d n).
Proof.
  unfold listdir. rewrite list_elem_of_omap. split.
  - intros (p & Hp & E). apply entry_name_inv in E as [Hv ->]. split; [exact Hv|].
    apply list_elem_of_fmap in Hp as ([k x] & Hk & Hin). simpl in Hk. subst k.
    apply elem_of_map_to_list in Hin. eauto.
  - intros (Hv & x & Hx). exists (os_path_join d n). split.
    + apply list_elem_of_fmap. exists (os_path_join d n, x). split; [reflexivity|].
      apply elem_of_map_to_list. exact Hx.
    + apply entry_name_join. exact Hv.
Qed.

(** ** [clear_folder] *)

Lemma set_fs_same w : set_fs (w_fs w) w = w.
Proof. destruct w. reflexivity. Qed.

Lemma clear_folder_loop d names : forall w,
  for_each names (fun file =>
      let file_path := os_path_join d file in
      isf <- os_path_isfile file_path ;;
      if isf then os_remove file_path else ret tt) w
  = (Ok tt, set_fs (foldl (remove_step d) (w_fs w) names) w).
Proof.
  induction names as [|n names IH]; intros w; [destruct w; reflexivity|].
  cbn [for_each foldl]. unfold bind at 1.
  assert (Hstep : (isf <- os_path_isfile (os_path_join d n) ;;
                   if isf then os_remove (os_path_join d n) else ret tt) w
                  = (Ok tt, set_fs (remove_step d (w_fs w) n) w)).
  { unfold bind, os_path_isfile, os_remove, remove_step, isfile, ret.
    destruct (w_fs w !! os_path_join d n) as [[c|]|] eqn:E; rewrite ?E;
      try reflexivity; destruct w; reflexivity. }
  cbv zeta. rewrite Hstep. rewrite IH. reflexivity.
Qed.

Lemma remove_step_lookup (d : list N) (fs : gmap (list N) node) (n k : list N) :
  remove_step d fs n !! k
  = if bool_decide (k = os_path_join d n) && isfile fs k then None else fs !! k.
Proof.
  unfold remove_step. case_bool_decide as Hk; simpl.
  - subst k. destruct (isfile fs _) eqn:E; [apply lookup_delete_eq | reflexivity].
  - destruct (isfile fs _); [|reflexivity]. apply lookup_delete_ne. congruence.
Qed.

Lemma isfile_None (fs : gmap (list N) node) (k : list N) : fs !! k = None -> isfile fs k = false.
Proof. unfold isfile. intros ->. reflexivity. Qed.

Lemma foldl_remove_lookup (d : list N) (names : list (list N)) :
  forall (fs : gmap (list N) node) (k : list N),
  foldl (remove_step d) fs names !! k
  = if bool_decide (k ∈ map (os_path_join d) names) && isfile fs k
    then None else fs !! k.
Proof.
  induction names as [|n names IH]; intros fs k; cbn [foldl map].
  - rewrite bool_decide_eq_false_2 by apply not_elem_of_nil. reflexivity.
  - rewrite IH. unfold isfile at 1. rewrite remove_step_lookup.
    destruct (decide (k = os_path_join d n)) as [->|Hne].
    + rewrite (bool_decide_eq_true_2 (_ = _)) by reflexivity. simpl.
      rewrite (bool_decide_eq_true_2 (_ ∈ _ :: _)) by apply list_elem_of_here. simpl.
      destruct (isfile fs (os_path_join d n)) eqn:E.
      * rewrite andb_false_r. reflexivity.
      * unfold isfile in E. rewrite E, andb_false_r. reflexivity.
    + rewrite (bool_decide_eq_false_2 (_ = _)) by exact Hne. simpl.
      fold (isfile fs k).
      rewrite (bool_decide_ext (k ∈ os_path_join d n :: map (os_path_join d) names)
                               (k ∈ map (os_path_join d) names)).
      * reflexivity.
      * rewrite elem_of_cons. tauto.
Qed.

Lemma remove_regular_files_lookup (d : list N) (fs : gmap (list N) node) (k : list N) :
  remove_regular_files d fs !! k
  = if bool_decide (is_Some (entry_name d k)) && isfile fs k then None else fs !! k.
Proof.
  unfold remove_regular_files. apply option_eq. intros x.
  rewrite map_lookup_filter_Some. simpl. unfold isfile.
  case_bool_decide as He; simpl.
  - destruct (fs !! k) as [[c|]|]; split; try discriminate; try tauto.
    + intros [[= <-] H]. exfalso. apply H. split; [exact He | discriminate].
    + intros [= <-]. split; [reflexivity|]. intros [_ H]. congruence.
  - split; [tauto|]. intros H. split; [exact H | tauto].
Qed.

Lemma foldl_remove_listdir (d : list N) (fs : gmap (list N) node) :
  foldl (remove_step d) fs (listdir fs d) = remove_regular_files d fs.
Proof.
  apply map_eq. intros k.
  rewrite foldl_remove_lookup, remove_regular_files_lookup.
  destruct (isfile fs k) eqn:Hf; [|rewrite !andb_false_r; reflexivity].
  rewrite !andb_true_r.
  rewrite (bool_decide_ext (k ∈ map (os_path_join d) (listdir fs d))
                           (is_Some (entry_name d k))); [reflexivity|].
  change (map (os_path_join d) (listdir fs d)) with (os_path_join d <$> listdir fs d).
  rewrite list_elem_of_fmap. split.
  - intros (n & -> & Hn). apply elem_of_listdir in Hn as [Hv _].
    rewrite entry_name_join by exact Hv. eauto.
  - intros [n Hn]. apply entry_name_inv in Hn as [Hv ->].
    exists n. split; [reflexivity|]. apply elem_of_listdir. split; [exact Hv|].
    unfold isfile in Hf. destruct (fs !! os_path_join d n); [eauto | discriminate].
Qed.

Lemma clear_folder_dir (d : list N) (w : World) :
  w_fs w !! d = Some Dir ->
  clear_folder d w = (Ok tt, set_fs (remove_regular_files d (w_fs w)) w).
Proof.
  intros H. unfold clear_folder, bind at 1, os_path_exists, fs_exists. rewrite H.
  unfold bind at 1, os_listdir. rewrite H.
  rewrite clear_folder_loop, foldl_remove_listdir. reflexivity.
Qed.

Lemma clear_folder_missing (d : list N) (w : World) :
  w_fs w !! d = None -> clear_folder d w = (Ok tt, w).
Proof.
  intros H. unfold clear_folder, bind, os_path_exists, fs_exists. rewrite H. reflexivity.
Qed.

Lemma clear_folder_on_file (d c : list N) (w : World) :
  w_fs w !! d = Some (File c) -> clear_folder d w = (Raise NotADirectoryError, w).
Proof.
  intros H. unfold clear_folder, bind at 1, os_path_exists, fs_exists. rewrite H.
  unfold bind, os_listdir. rewrite H. reflexivity.
Qed.

(** Whenever the path does not name a regular file, [clear_folder]
    returns, and leaves [clear_fs]. *)
Lemma clear_folder_ok (d : list N) (w : World) :
  isfile (w_fs w) d = false ->
  clear_folder d w = (Ok tt, set_fs (clear_fs d (w_fs w)) w).
Proof.
  unfold isfile, clear_fs. intros H.
  destruct (w_fs w !! d) as [[c|]|] eqn:E; [discriminate | |].
  - apply clear_folder_dir. exact E.
  - rewrite set_fs_same. apply clear_folder_missing. exact E.
Qed.

Lemma remove_regular_files_subseteq (d : list N) (fs : gmap (list N) node) :
  remove_regular_files d fs ⊆ fs.
Proof. apply map_filter_subseteq. Qed.

Lemma clear_fs_subseteq (d : list N) (fs : gmap (list N) node) : clear_fs d fs ⊆ fs.
Proof.
  unfold clear_fs. destruct (fs !! d) as [[c|]|]; try reflexivity.
  apply remove_regular_files_subseteq.
Qed.

(** Paths that are not entries of [d] are left as they are. *)
Lemma clear_fs_lookup_other (d : list N) (fs : gmap (list N) node) (k : list N) :
  entry_name d k = None -> clear_fs d fs !! k = fs !! k.
Proof.
  intros H. unfold clear_fs. destruct (fs !! d) as [[c|]|]; try reflexivity.
  rewrite remove_regular_files_lookup, H.
  rewrite bool_decide_eq_false_2; [reflexivity|]. intros [? ?]. discriminate.
Qed.

(** Directories are left as they are. *)
Lemma clear_fs_lookup_dir (d : list N) (fs : gmap (list N) node) (k : list N) :
  fs !! k = Some Dir -> clear_fs d fs !! k = Some Dir.
Proof.
  intros H. unfold clear_fs. destruct (fs !! d) as [[c|]|]; try exact H.
  rewrite remove_regular_files_lookup. unfold isfile. rewrite H, andb_false_r. reflexivity.
Qed.

Lemma clear_fs_isfile_entry (d : list N) (fs : gmap (list N) node) (n : list N) :
  fs !! d = Some Dir -> valid_name n = true ->
  isfile (clear_fs d fs) (os_path_join d n) = false.
Proof.
  intros Hd Hv. unfold clear_fs. rewrite Hd. unfold isfile at 1.
  rewrite remove_regular_files_lookup, entry_name_join by exact Hv.
  rewrite bool_decide_eq_true_2 by eauto. simpl.
  destruct (isfile fs (os_path_join d n)) eqn:E; [reflexivity|].
  unfold isfile in E. destruct (fs !! os_path_join d n) as [[c|]|]; congruence.
Qed.

Lemma listdir_remove_regular_files (d : list N) (fs : gmap (list N) node) (n : list N) :
  n ∈ listdir (remove_regular_files d fs) d <->
  n ∈ listdir fs d /\ isfile fs (os_path_join d n) = false.
Proof.
  rewrite !elem_of_listdir, remove_regular_files_lookup. split.
  - intros (Hv & x & Hx). rewrite entry_name_join in Hx by exact Hv.
    rewrite bool_decide_eq_true_2 in Hx by eauto. simpl in Hx.
    destruct (isfile fs (os_path_join d n)); [discriminate|]. eauto.
  - intros ((Hv & Hx) & Hf). split; [exact Hv|]. rewrite Hf, andb_false_r. exact Hx.
Qed.

Lemma isfile_remove_regular_files (d : list N) (fs : gmap (list N) node) (n : list N) :
  valid_name n = true -> isfile (remove_regular_files d fs) (os_path_join d n) = false.
Proof.
  intros Hv. unfold isfile at 1. rewrite remove_regular_files_lookup.
  rewrite entry_name_join by exact Hv. rewrite bool_decide_eq_true_2 by eauto. simpl.
  destruct (isfile fs (os_path_join d n)) eqn:E; [reflexivity|].
  unfold isfile in E. destruct (fs !! os_path_join d n) as [[c|]|]; congruence.
Qed.

Lemma clear_fs_cleared (d : list N) (w : World) :
  cleared d w (set_fs (clear_fs d (w_fs w)) w).
Proof.
  unfold cleared. cbn [set_fs w_fs w_console w_invoked w_stdin w_tick].
  repeat split; try reflexivity.
  - apply clear_fs_lookup_other, entry_name_self.
  - apply clear_fs_subseteq.
  - intros p Hp. apply clear_fs_lookup_other. exact Hp.
  - intros H. unfold clear_fs. rewrite H. apply set_fs_same.
  - unfold clear_fs in *. rewrite H in *. apply listdir_remove_regular_files. assumption.
  - unfold clear_fs in *. rewrite H in *. apply listdir_remove_regular_files. assumption.
  - unfold clear_fs in *. rewrite H in *. apply listdir_remove_regular_files.
  - intros n Hn. unfold clear_fs in *. rewrite H in *.
    apply isfile_remove_regular_files. apply elem_of_listdir in Hn. tauto.
  - intros Hall. apply elem_of_nil_inv. intros n Hn.
    unfold clear_fs in Hn. rewrite H in Hn.
    apply listdir_remove_regular_files in Hn as [Hn Hf].
    rewrite (Hall n Hn) in Hf. discriminate.
Qed.

(** C7 (as the code has it).  For every path that does not name a regular
    file, [clear_folder] returns without error.  When the path is a
    directory it removes every regular file directly inside it and keeps
    the directory itself and all its other entries (subdirectories, with
    what they hold): a listing afterwards shows no regular file, and is
    empty when the directory held regular files only.  When the path does
    not exist nothing happens. *)
Theorem C7_clear_folder_removes_regular_files (d : list N) (w : World) :
  isfile (w_fs w) d = false ->
  exists w', clear_folder d w = (Ok tt, w') /\ cleared d w w'.
Proof.
  intros H. eexists. split; [apply clear_folder_ok; exact H | apply clear_fs_cleared].
Qed.

Lemma C7_clear_folder_witness :
  exists w', clear_folder BUILD_DIR (world_of build_with_subdir) = (Ok tt, w')
             /\ cleared BUILD_DIR (world_of build_with_subdir) w'.
Proof.
  apply (C7_clear_folder_removes_regular_files BUILD_DIR (world_of build_with_subdir)).
  reflexivity.
Defined.

(** C7 (as stated) fails: [clear_folder] does not delete all that a
    directory holds.  On a build directory with [program.out] and a
    subdirectory [obj], the listing afterwards still shows [obj]. *)
Lemma C7_counterexample_subdirectory_kept :
  ~ (forall (d : list N) (w : World),
        w_fs w !! d = Some Dir ->
        exists w', clear_folder d w = (Ok tt, w') /\ listdir (w_fs w') d = []).
Proof.
  intros H.
  destruct (H BUILD_DIR (world_of build_with_subdir) eq_refl) as (w' & Hrun & Hls).
  assert (E : listdir (w_fs w') BUILD_DIR
              = listdir (w_fs (snd (clear_folder BUILD_DIR (world_of build_with_subdir))))
                        BUILD_DIR)
    by (rewrite Hrun; reflexivity).
  rewrite Hls in E. vm_compute in E. discriminate E.
Qed.

(** ** Writing a trace file *)

Lemma no_slash_app a b : no_slash (a ++ b) <-> no_slash a /\ no_slash b.
Proof. unfold no_slash. rewrite existsb_app, orb_false_iff. reflexivity. Qed.

Lemma no_slash_decimal n : no_slash (decimal n).
Proof.
  unfold decimal. generalize (Nat.to_uint n). intros u.
  induction u; [reflexivity | exact IHu ..].
Qed.

Lemma no_slash_zero_pad width n : no_slash (zero_pad width n).
Proof.
  unfold zero_pad. apply no_slash_app. split; [|apply no_slash_decimal].
  generalize (width - length (decimal n))%nat. intros k.
  induction k; [reflexivity | exact IHk].
Qed.

Lemma no_slash_strftime dt : no_slash (strftime dt).
Proof.
  unfold strftime.
  repeat first [ apply no_slash_zero_pad | apply no_slash_app; split ].
  reflexivity.
Qed.

Lemma drop_until_slash_app a r :
  no_slash a -> drop_until_slash (a ++ SLASH :: r) = SLASH :: r.
Proof.
  unfold no_slash. induction a as [|c a IH]; intros H.
  - reflexivity.
  - cbn [existsb] in H. apply orb_false_iff in H as [Hc Ha].
    cbn [app drop_until_slash]. rewrite N.eqb_sym, Hc. apply IH. exact Ha.
Qed.

Lemma no_slash_rev a : no_slash a -> no_slash (rev a).
Proof.
  unfold no_slash. intros H.
  destruct (existsb (N.eqb SLASH) (rev a)) eqn:E; [|reflexivity].
  apply existsb_exists in E as (x & Hin & Hx). apply in_rev in Hin.
  rewrite <- H. symmetry. apply existsb_exists. eauto.
Qed.

Lemma dirname_entry d n :
  plain_dir d -> no_slash n -> dirname (d ++ SLASH :: n) = d.
Proof.
  intros [Hd He] Hn. unfold dirname.
  rewrite rev_app_distr. cbn [rev]. rewrite <- app_assoc. cbn [app].
  rewrite drop_until_slash_app by (apply no_slash_rev; exact Hn).
  unfold endswith in He. cbn [rev app] in He.
  destruct (rev d) as [|x t] eqn:E.
  - apply (f_equal (@rev N)) in E. rewrite rev_involutive in E. subst d. discriminate.
  - cbn [startswith] in He. rewrite andb_true_r in He.
    cbn [drop_slashes]. rewrite N.eqb_refl. cbn [drop_slashes]. rewrite He.
    change (rev (x :: t) = d). rewrite <- E. apply rev_involutive.
Qed.

Lemma os_path_join_plain d n :
  plain_dir d -> valid_name n = true -> os_path_join d n = d ++ SLASH :: n.
Proof.
  intros [Hd He] Hv. unfold os_path_join.
  rewrite (valid_name_not_abs n Hv), Hd, He. reflexivity.
Qed.

Lemma valid_name_intro n : n <> [] -> no_slash n -> valid_name n = true.
Proof.
  unfold valid_name, no_slash. intros Hne ->. destruct n; [congruence | reflexivity].
Qed.

Lemma parent_ok_entry (fs : gmap (list N) node) (d n : list N) :
  plain_dir d -> valid_name n = true -> fs !! d = Some Dir ->
  parent_ok fs (os_path_join d n) = true.
Proof.
  intros Hd Hv Hfs. unfold parent_ok.
  rewrite os_path_join_plain by assumption.
  rewrite dirname_entry; [| exact Hd | apply valid_name_inv in Hv; tauto].
  destruct Hd as [Hd _]. destruct d; [discriminate|].
  unfold isdir. rewrite Hfs. reflexivity.
Qed.

Lemma write_file_ok (p content : list N) (w : World) :
  isdir (w_fs w) p = false -> parent_ok (w_fs w) p = true ->
  write_file p content w = (Ok tt, set_fs (<[p := File content]> (w_fs w)) w).
Proof. intros H1 H2. unfold write_file. rewrite H1, H2. reflexivity. Qed.


Lemma plain_BUILD_DIR : plain_dir BUILD_DIR.
Proof. split; reflexivity. Qed.

Lemma plain_SOLUTIONS_DIR : plain_dir SOLUTIONS_DIR.
Proof. split; reflexivity. Qed.



(** ** Messages and worlds *)

Lemma add_all_fields ms : forall w,
  w_fs (add_all ms w) = w_fs w /\
  w_console (add_all ms w) = w_console w ++ ms /\
  w_invoked (add_all ms w) = w_invoked w /\
  w_stdin (add_all ms w) = w_stdin w /\
  w_tick (add_all ms w) = w_tick w.
Proof.
  induction ms as [|m ms IH]; intros w; cbn [add_all fold_left].
  - rewrite app_nil_r. repeat split; reflexivity.
  - destruct (IH (add_console m w)) as (H1 & H2 & H3 & H4 & H5).
    unfold add_all in *. rewrite H1, H2, H3, H4, H5.
    cbn [add_console w_fs w_console w_invoked w_stdin w_tick].
    rewrite <- app_assoc. repeat split; reflexivity.
Qed.

Lemma printed_app w w' ms : w_console w' = w_console w ++ ms -> printed w w' = ms.
Proof. unfold printed. intros ->. apply drop_app_length. Qed.

Example dirname_trace : dirname (lit "./traces/level1_1_trace_x.txt") = lit "./traces".
Proof. reflexivity. Qed.

Example dirname_bare : dirname (lit "program.out") = [].
Proof. reflexivity. Qed.

Example dirname_root : dirname (lit "/usr") = lit "/".
Proof. reflexivity. Qed.

Example basename_solution : basename (lit "./solutions/main.cpp") = lit "main.cpp".
Proof. reflexivity. Qed.

Example os_path_join_build : os_path_join BUILD_DIR (lit "program.out") = lit "./build/program.out".
Proof. reflexivity. Qed.

Example os_path_join_absolute : os_path_join BUILD_DIR (lit "/tmp/x") = lit "/tmp/x".
Proof. reflexivity. Qed.

Example strftime_example :
  strftime (mkDatetime 2024 1 2 3 4 5) = lit "20240102_030405".
Proof. reflexivity. Qed.

(** ** [run_and_check] *)

(** Reading the fields of a world that was built step by step. *)
Lemma w_fs_add_console m w : w_fs (add_console m w) = w_fs w.
Proof. reflexivity. Qed.

Lemma w_fs_next_tick w : w_fs (next_tick w) = w_fs w.
Proof. reflexivity. Qed.

Lemma w_fs_add_invoked argv w : w_fs (add_invoked argv w) = w_fs w.
Proof. reflexivity. Qed.

Lemma w_fs_set_stdin l w : w_fs (set_stdin l w) = w_fs w.
Proof. reflexivity. Qed.

Lemma w_fs_set_fs (fs : gmap (list N) node) w : w_fs (set_fs fs w) = fs.
Proof. reflexivity. Qed.

Lemma w_tick_add_console m w : w_tick (add_console m w) = w_tick w.
Proof. reflexivity. Qed.

Lemma w_tick_set_fs (fs : gmap (list N) node) w : w_tick (set_fs fs w) = w_tick w.
Proof. reflexivity. Qed.

Lemma w_tick_next_tick w : w_tick (next_tick w) = S (w_tick w).
Proof. reflexivity. Qed.

Lemma w_tick_add_invoked argv w : w_tick (add_invoked argv w) = w_tick w.
Proof. reflexivity. Qed.

Lemma w_stdin_add_console m w : w_stdin (add_console m w) = w_stdin w.
Proof. reflexivity. Qed.

Ltac wsimpl :=
  cbn [w_fs w_console w_invoked w_stdin w_tick
       add_console set_fs next_tick add_invoked set_stdin after_process] in *;
  rewrite ?w_fs_add_console, ?w_fs_next_tick, ?w_fs_add_invoked, ?w_fs_set_stdin,
          ?w_fs_set_fs, ?w_tick_add_console, ?w_tick_set_fs, ?w_tick_next_tick,
          ?w_tick_add_invoked, ?w_stdin_add_console.

Lemma bind_ok {A B} (m : M A) (k : A -> M B) w a w' :
  m w = (Ok a, w') -> bind m k w = k a w'.
Proof. unfold bind. intros ->. reflexivity. Qed.

Lemma bind_raise {A B} (m : M A) (k : A -> M B) w e w' :
  m w = (Raise e, w') -> bind m k w = (Raise e, w').
Proof. unfold bind. intros ->. reflexivity. Qed.

Lemma subprocess_run_no_check env argv w r :
  spawn env (w_tick w) argv (w_fs w) = Some r ->
  subprocess_run env argv false w = (Ok r, after_process argv r w).
Proof. intros H. unfold subprocess_run. rewrite H. reflexivity. Qed.

(** The whole of [run_and_check], once the candidate has run and left [r]. *)
Lemma run_and_check_spec env exe expected subject w r :
  spawn env (w_tick w) [exe] (w_fs w) = Some r ->
  run_and_check env exe expected subject w =
    let w1 := add_all (shown r) (after_process [exe] r w) in
    match fs_after r !! expected with
    | Some (File raw) =>
        let norm_actual := normalize_output (strip (stdout r)) in
        let norm_expected := normalize_output (strip raw) in
        if bool_decide (norm_actual = norm_expected) then
          (Ok tt, add_console MsgMatch w1)
        else
          let w2 := next_tick (add_all (mismatch_report norm_expected norm_actual) w1) in
          let trace_file := mismatch_trace_file subject (strftime (now env (S (w_tick w)))) in
          match write_file trace_file (mismatch_trace norm_expected norm_actual) w2 with
          | (Ok _, w3) => (Ok tt, add_console (MsgMismatchTraceSaved trace_file) w3)
          | (Raise e, w3) => (Raise e, w3)
          end
    | _ => (Ok tt, w1)
    end.
Proof.
  intros Hrun. unfold run_and_check.
  rewrite (bind_ok _ _ _ _ _ (subprocess_run_no_check env [exe] w r Hrun)).
  unfold shown. cbv zeta.
  destruct (truthy (stderr r)) eqn:Herr;
    (unfold bind at 1, print at 1; unfold bind at 1, print at 1;
     unfold bind at 1; unfold print at 1, ret at 1;
     unfold bind at 1, os_path_isfile at 1, isfile; wsimpl;
     destruct (fs_after r !! expected) as [[raw|]|] eqn:Hexp; try reflexivity;
     unfold bind at 1, read_file at 1; wsimpl; rewrite Hexp;
     destruct (bool_decide (normalize_output (strip (stdout r)) = normalize_output (strip raw)));
     reflexivity).
Qed.

Lemma after_shown_fields argv r w ms :
  let w1 := add_all ms (after_process argv r w) in
  w_fs w1 = fs_after r /\
  w_console w1 = w_console w ++ ms /\
  w_invoked w1 = w_invoked w ++ [argv] /\
  w_stdin w1 = w_stdin w /\
  w_tick w1 = S (w_tick w).
Proof.
  cbv zeta. destruct (add_all_fields ms (after_process argv r w)) as (H1 & H2 & H3 & H4 & H5).
  rewrite H1, H2, H3, H4, H5. repeat split; reflexivity.
Qed.

Lemma shown_no_verdict r : List.filter is_verdict (shown r) = [].
Proof.
  unfold shown. destruct (truthy (strip (stdout r))), (truthy (stderr r)); reflexivity.
Qed.

(** The run with no expected-output file. *)
Lemma run_and_check_no_expected env exe expected subject w r :
  spawn env (w_tick w) [exe] (w_fs w) = Some r ->
  isfile (fs_after r) expected = false ->
  run_and_check env exe expected subject w
  = (Ok tt, add_all (shown r) (after_process [exe] r w)).
Proof.
  intros Hrun Hno. rewrite (run_and_check_spec env exe expected subject w r Hrun).
  cbv zeta. unfold isfile in Hno.
  destruct (fs_after r !! expected) as [[raw|]|]; [discriminate | reflexivity ..].
Qed.

(** The run on matching output. *)
Lemma run_and_check_match env exe expected subject w r raw :
  spawn env (w_tick w) [exe] (w_fs w) = Some r ->
  fs_after r !! expected = Some (File raw) ->
  normalize_output (stdout r) = normalize_output raw ->
  run_and_check env exe expected subject w
  = (Ok tt, add_console MsgMatch (add_all (shown r) (after_process [exe] r w))).
Proof.
  intros Hrun Hexp Heq. rewrite (run_and_check_spec env exe expected subject w r Hrun).
  cbv zeta. rewrite Hexp, !normalize_output_strip.
  rewrite bool_decide_eq_true_2 by exact Heq. reflexivity.
Qed.


(** *** The timestamp *)












(** *** The mismatch trace *)




(** C8. When the exercise has no expected-output file, the run completes
    and shows the output of the candidate only (its trimmed standard
    output or [[no output]], and its standard error when there is some):
    no Match or Mismatch verdict is shown and nothing is written, the file
    system is as the candidate left it. *)
Theorem C8_no_expected_output_no_verdict env exe expected subject w r :
  spawn env (w_tick w) [exe] (w_fs w) = Some r ->
  isfile (fs_after r) expected = false ->
  exists w', run_and_check env exe expected subject w = (Ok tt, w') /\
    w_fs w' = fs_after r /\
    printed w w' = shown r /\
    List.filter is_verdict (printed w w') = [] /\
    w_invoked w' = w_invoked w ++ [[exe]].
Proof.
  intros Hrun Hno. eexists.
  split; [apply (run_and_check_no_expected _ _ _ _ _ _ Hrun Hno)|].
  destruct (after_shown_fields [exe] r w (shown r)) as (H1 & H2 & H3 & _).
  rewrite (printed_app _ _ _ H2). repeat split; try assumption.
  apply shown_no_verdict.
Qed.

(** The verdict shown by a run is the one that the standard output and
    the expected text call for. *)
Lemma run_and_check_verdict env exe expected subject w r :
  spawn env (w_tick w) [exe] (w_fs w) = Some r ->
  List.filter is_verdict (printed w (snd (run_and_check env exe expected subject w)))
  = verdict_for (stdout r) (expected_text (fs_after r) expected).
Proof.
  intros Hrun. rewrite (run_and_check_spec env exe expected subject w r Hrun).
  cbv zeta. unfold expected_text, verdict_for.
  destruct (after_shown_fields [exe] r w (shown r)) as (_ & Hc & _).
  destruct (fs_after r !! expected) as [[raw|]|];
    try (cbn [snd]; rewrite (printed_app _ _ _ Hc); apply shown_no_verdict).
  rewrite !normalize_output_strip.
  destruct (bool_decide (normalize_output (stdout r) = normalize_output raw)).
  - cbn [snd]. erewrite printed_app.
    2:{ cbn [add_console w_console]. rewrite Hc, <- app_assoc. reflexivity. }
    rewrite List.filter_app, shown_no_verdict. reflexivity.
  - set (rep := mismatch_report _ _).
    set (w1 := add_all (shown r) _) in *.
    destruct (add_all_fields rep w1) as (_ & Hc2 & _).
    assert (Hv : List.filter is_verdict (shown r ++ rep) = [MsgMismatch]).
    { rewrite List.filter_app, shown_no_verdict. reflexivity. }
    unfold write_file.
    destruct (isdir _ _); [|destruct (parent_ok _ _)]; cbn [snd].
    + erewrite printed_app; [exact Hv|].
      cbn [next_tick w_console]. rewrite Hc2, Hc, <- app_assoc. reflexivity.
    + erewrite printed_app.
      2:{ cbn [add_console set_fs next_tick w_console].
          rewrite Hc2, Hc, <- !app_assoc. reflexivity. }
      rewrite !List.filter_app, shown_no_verdict. reflexivity.
    + erewrite printed_app; [exact Hv|].
      cbn [next_tick w_console]. rewrite Hc2, Hc, <- app_assoc. reflexivity.
Qed.

(** C10. The verdict of a run depends on the standard output of the
    candidate and on the expected text only: two runs that agree on both
    show the same verdict, whatever the standard error and the exit code
    of the candidate (and whatever the host, the paths and the world the
    runs start in). *)
Theorem C10_verdict_depends_on_stdout_and_expected
    env1 env2 exe1 exe2 expected1 expected2 subject1 subject2 w1 w2 r1 r2 :
  spawn env1 (w_tick w1) [exe1] (w_fs w1) = Some r1 ->
  spawn env2 (w_tick w2) [exe2] (w_fs w2) = Some r2 ->
  stdout r1 = stdout r2 ->
  expected_text (fs_after r1) expected1 = expected_text (fs_after r2) expected2 ->
  List.filter is_verdict
    (printed w1 (snd (run_and_check env1 exe1 expected1 subject1 w1)))
  = List.filter is_verdict
      (printed w2 (snd (run_and_check env2 exe2 expected2 subject2 w2))).
Proof.
  intros H1 H2 Hout Hexp.
  rewrite (run_and_check_verdict _ _ _ _ _ _ H1), (run_and_check_verdict _ _ _ _ _ _ H2).
  rewrite Hout, Hexp. reflexivity.
Qed.

(** ** Listing a directory after another one was cleared *)

Lemma NoDup_omap_inj {A B} (f : A -> option B) (l : list A) :
  (forall x y z, f x = Some z -> f y = Some z -> x = y) ->
  NoDup l -> NoDup (omap f l).
Proof.
  intros Hinj. induction 1 as [|x l Hx Hl IH]; cbn [omap list_omap].
  - constructor.
  - destruct (f x) as [z|] eqn:E; [|exact IH].
    constructor; [|exact IH]. intros Hin.
    apply list_elem_of_omap in Hin as (y & Hy & Ey).
    rewrite (Hinj x y z E Ey) in Hx. contradiction.
Qed.

Lemma NoDup_listdir (fs : gmap (list N) node) (d : list N) : NoDup (listdir fs d).
Proof.
  unfold listdir. apply NoDup_omap_inj; [|apply NoDup_fst_map_to_list].
  intros x y z Hx Hy. apply entry_name_inv in Hx as [_ ->].
  apply entry_name_inv in Hy as [_ ->]. reflexivity.
Qed.

Lemma listdir_clear_fs_other (d d' : list N) (fs : gmap (list N) node) :
  (forall n, valid_name n = true -> entry_name d (os_path_join d' n) = None) ->
  listdir (clear_fs d fs) d' ≡ₚ listdir fs d'.
Proof.
  intros Hother. apply NoDup_Permutation; try apply NoDup_listdir.
  intros n. rewrite !elem_of_listdir. split; intros [Hv Hx]; (split; [exact Hv|]).
  - rewrite clear_fs_lookup_other in Hx by (apply Hother; exact Hv). exact Hx.
  - rewrite clear_fs_lookup_other by (apply Hother; exact Hv). exact Hx.
Qed.

Lemma elem_of_List_filter {A} (p : A -> bool) (l : list A) (x : A) :
  x ∈ List.filter p l <-> x ∈ l /\ p x = true.
Proof. rewrite !list_elem_of_In. apply filter_In. Qed.

Lemma NoDup_List_filter {A} (p : A -> bool) (l : list A) :
  NoDup l -> NoDup (List.filter p l).
Proof.
  induction 1 as [|x l Hx Hl IH]; cbn [List.filter]; [constructor|].
  destruct (p x); [|exact IH]. constructor; [|exact IH].
  rewrite elem_of_List_filter. tauto.
Qed.

Lemma filter_Permutation_NoDup {A} (p : A -> bool) (l k : list A) :
  NoDup l -> NoDup k -> l ≡ₚ k -> List.filter p l ≡ₚ List.filter p k.
Proof.
  intros Hl Hk Hperm. apply NoDup_Permutation.
  - apply NoDup_List_filter. exact Hl.
  - apply NoDup_List_filter. exact Hk.
  - intros x. rewrite !elem_of_List_filter, Hperm. reflexivity.
Qed.

(** Entries of the staging area are not entries of the build directory. *)
Lemma solutions_not_in_build n :
  valid_name n = true -> entry_name BUILD_DIR (os_path_join SOLUTIONS_DIR n) = None.
Proof.
  intros Hv. unfold entry_name.
  rewrite (os_path_join_plain SOLUTIONS_DIR n plain_SOLUTIONS_DIR Hv).
  reflexivity.
Qed.

Lemma staged_solutions_clear_build (fs : gmap (list N) node) :
  staged_solutions (clear_fs BUILD_DIR fs) ≡ₚ staged_solutions fs.
Proof.
  unfold staged_solutions. apply filter_Permutation_NoDup; try apply NoDup_listdir.
  apply listdir_clear_fs_other. exact solutions_not_in_build.
Qed.

Lemma isdir_clear_fs (d : list N) (fs : gmap (list N) node) (p : list N) :
  isdir (clear_fs d fs) p = isdir fs p.
Proof.
  unfold clear_fs. destruct (fs !! d) as [[c|]|]; try reflexivity.
  unfold isdir. rewrite remove_regular_files_lookup. unfold isfile.
  destruct (fs !! p) as [[c|]|]; rewrite ?andb_false_r; try reflexivity.
  destruct (bool_decide _); reflexivity.
Qed.

(** ** [test_subject], up to the scan of the staging area *)

Lemma w_fs_add_all ms w : w_fs (add_all ms w) = w_fs w.
Proof. apply add_all_fields. Qed.

Lemma w_console_add_all ms w : w_console (add_all ms w) = w_console w ++ ms.
Proof. apply add_all_fields. Qed.

Lemma w_invoked_add_all ms w : w_invoked (add_all ms w) = w_invoked w.
Proof. apply add_all_fields. Qed.

Lemma w_tick_add_all ms w : w_tick (add_all ms w) = w_tick w.
Proof. apply add_all_fields. Qed.

Lemma os_listdir_dir (d : list N) (w : World) :
  w_fs w !! d = Some Dir -> os_listdir d w = (Ok (listdir (w_fs w) d), w).
Proof. intros H. unfold os_listdir. rewrite H. reflexivity. Qed.

Lemma random_choice_run env seq w :
  seq <> [] -> random_choice env seq w = (Ok (picked env (w_tick w) seq), next_tick w).
Proof. destruct seq; [congruence | reflexivity]. Qed.

Lemma announce_run v level exercise w :
  announce v level exercise (os_path_join (os_path_join TASKS_DIR level) exercise) w
  = (Ok tt, add_all (announced v level exercise (w_fs w)) w).
Proof.
  destruct v; [|reflexivity].
  unfold announce, announced, bind, print, os_path_isfile, isfile, read_file, ret. wsimpl.
  destruct (w_fs w !! _) as [[text|]|] eqn:E; wsimpl; rewrite ?E; reflexivity.
Qed.

Lemma os_listdir_not_dir (d : list N) (w : World) :
  isdir (w_fs w) d = false ->
  os_listdir d w
  = (Raise (if fs_exists (w_fs w) d then NotADirectoryError else FileNotFoundError), w).
Proof.
  unfold isdir, os_listdir, fs_exists.
  destruct (w_fs w !! d) as [[c|]|]; [reflexivity | discriminate | reflexivity].
Qed.

Lemma after_announce_spec env level exercise w :
  after_announce env level exercise w =
    if isfile (w_fs w) BUILD_DIR then (Raise NotADirectoryError, w)
    else
      let w_c := set_fs (clear_fs BUILD_DIR (w_fs w)) w in
      if isdir (w_fs w) SOLUTIONS_DIR then
        let sols := staged_solutions (clear_fs BUILD_DIR (w_fs w)) in
        if negb (length sols =? 1)%nat
        then (Ok tt, add_console MsgNeedOneSolution w_c)
        else build_step env level exercise (nth 0 sols []) w_c
      else
        (Raise (if fs_exists (w_fs w) SOLUTIONS_DIR
                then NotADirectoryError else FileNotFoundError), w_c).
Proof.
  unfold after_announce.
  destruct (isfile (w_fs w) BUILD_DIR) eqn:Hb.
  - unfold isfile in Hb. destruct (w_fs w !! BUILD_DIR) as [[c|]|] eqn:E; try discriminate.
    apply bind_raise. apply (clear_folder_on_file _ c). exact E.
  - rewrite (bind_ok _ _ _ _ _ (clear_folder_ok BUILD_DIR w Hb)). cbv zeta.
    destruct (isdir (w_fs w) SOLUTIONS_DIR) eqn:Hs.
    + erewrite bind_ok.
      2:{ apply os_listdir_dir. cbn [set_fs w_fs]. apply clear_fs_lookup_dir.
          unfold isdir in Hs. destruct (w_fs w !! SOLUTIONS_DIR) as [[c|]|]; congruence. }
      cbn [set_fs w_fs]. fold (staged_solutions (clear_fs BUILD_DIR (w_fs w))).
      destruct (negb (length (staged_solutions (clear_fs BUILD_DIR (w_fs w))) =? 1)%nat);
        reflexivity.
    + erewrite bind_raise.
      2:{ apply os_listdir_not_dir. cbn [set_fs w_fs]. rewrite isdir_clear_fs. exact Hs. }
      cbn [set_fs w_fs]. unfold fs_exists.
      rewrite (clear_fs_lookup_other BUILD_DIR (w_fs w) SOLUTIONS_DIR eq_refl).
      reflexivity.
Qed.

(** The whole of [test_subject], up to [build_step]. *)
Lemma test_subject_spec env v level w :
  test_subject env v level w =
    match w_fs w !! os_path_join TASKS_DIR level with
    | Some Dir =>
        if negb (truthy (exercises_of (w_fs w) level)) then
          (Ok tt, add_console (MsgNoExercises level) w)
        else
          let exercise := picked env (w_tick w) (exercises_of (w_fs w) level) in
          after_announce env level exercise
            (add_all (announced v level exercise (w_fs w)) (next_tick w))
    | Some (File _) => (Raise NotADirectoryError, w)
    | None => (Raise FileNotFoundError, w)
    end.
Proof.
  unfold test_subject. cbv zeta.
  destruct (w_fs w !! os_path_join TASKS_DIR level) as [[c|]|] eqn:Hlevel;
    try (apply bind_raise; unfold os_listdir; rewrite Hlevel; reflexivity).
  rewrite (bind_ok _ _ _ _ _ (os_listdir_dir _ _ Hlevel)).
  unfold bind at 1, get at 1.
  fold (exercises_of (w_fs w) level).
  destruct (exercises_of (w_fs w) level) as [|x l] eqn:Eex; [reflexivity|].
  cbn [truthy negb]. rewrite <- Eex.
  assert (Hex : exercises_of (w_fs w) level <> []) by (rewrite Eex; discriminate).
  rewrite (bind_ok _ _ _ _ _ (random_choice_run env _ w Hex)).
  rewrite (bind_ok _ _ _ _ _ (announce_run v level _ (next_tick w))).
  reflexivity.
Qed.

(** ** The scan of the staging area *)

Lemma staged_length_clear_build (fs : gmap (list N) node) :
  length (staged_solutions (clear_fs BUILD_DIR fs)) = length (staged_solutions fs).
Proof. apply Permutation_length, staged_solutions_clear_build. Qed.

(** Without exactly one staged solution, [after_announce] stops at the
    scan at the latest. *)
Lemma after_announce_aborts env level exercise w :
  length (staged_solutions (w_fs w)) <> 1%nat ->
  let r := after_announce env level exercise w in
  w_invoked (snd r) = w_invoked w /\ w_fs (snd r) ⊆ w_fs w /\
  w_console (snd r) = w_console w ++
    (if negb (isfile (w_fs w) BUILD_DIR) && isdir (w_fs w) SOLUTIONS_DIR
     then [MsgNeedOneSolution] else []) /\
  (isfile (w_fs w) BUILD_DIR = false -> isdir (w_fs w) SOLUTIONS_DIR = true ->
   fst r = Ok tt /\ w_fs (snd r) = clear_fs BUILD_DIR (w_fs w)).
Proof.
  intros Hlen. cbv zeta. rewrite after_announce_spec.
  destruct (isfile (w_fs w) BUILD_DIR) eqn:Hb; cbn [negb andb].
  - cbn [snd fst]. rewrite app_nil_r. repeat split; try reflexivity; discriminate.
  - cbv zeta. destruct (isdir (w_fs w) SOLUTIONS_DIR) eqn:Hs.
    + rewrite staged_length_clear_build.
      apply Nat.eqb_neq in Hlen. rewrite Hlen. cbn [negb snd fst add_console set_fs
        w_invoked w_fs w_console].
      repeat split; try reflexivity. apply clear_fs_subseteq.
    + cbn [snd fst set_fs w_invoked w_fs w_console]. rewrite app_nil_r.
      repeat split; try reflexivity; try discriminate. apply clear_fs_subseteq.
Qed.

Lemma isdir_Some_Dir (fs : gmap (list N) node) (p : list N) :
  fs !! p = Some Dir -> isdir fs p = true /\ isfile fs p = false.
Proof. unfold isdir, isfile. intros ->. split; reflexivity. Qed.

(** What the scan of the staging area does, by the number of entries
    with a recognized name ([.c] or [.cpp]), be they files or directories.
    When this number is not one, the run invokes no compiler (no process
    at all) and creates no file; with the level, build and staging
    directories in place it ends normally on a configuration error (no
    exercises in the level, or not exactly one solution), and after the
    latter the build directory holds no [program.out].  A process is
    invoked only when exactly one such entry is staged. *)
Theorem staged_entries_not_one_aborts env v level w :
  let r := test_subject env v level w in
  (length (staged_solutions (w_fs w)) <> 1%nat ->
     w_invoked (snd r) = w_invoked w /\
     w_fs (snd r) ⊆ w_fs w /\
     (w_fs w !! os_path_join TASKS_DIR level = Some Dir ->
      w_fs w !! BUILD_DIR = Some Dir ->
      w_fs w !! SOLUTIONS_DIR = Some Dir ->
      match exercises_of (w_fs w) level with
      | [] => r = (Ok tt, add_console (MsgNoExercises level) w)
      | _ :: _ =>
          let exercise := picked env (w_tick w) (exercises_of (w_fs w) level) in
          fst r = Ok tt /\
          w_fs (snd r) = clear_fs BUILD_DIR (w_fs w) /\
          isfile (w_fs (snd r)) exe_file = false /\
          printed w (snd r)
          = announced v level exercise (w_fs w) ++ [MsgNeedOneSolution]
      end)) /\
  (w_invoked (snd r) <> w_invoked w -> length (staged_solutions (w_fs w)) = 1%nat).
Proof.
  cbv zeta.
  assert (Habort : length (staged_solutions (w_fs w)) <> 1%nat ->
     w_invoked (snd (test_subject env v level w)) = w_invoked w /\
     w_fs (snd (test_subject env v level w)) ⊆ w_fs w /\
     (w_fs w !! os_path_join TASKS_DIR level = Some Dir ->
      w_fs w !! BUILD_DIR = Some Dir ->
      w_fs w !! SOLUTIONS_DIR = Some Dir ->
      match exercises_of (w_fs w) level with
      | [] => test_subject env v level w = (Ok tt, add_console (MsgNoExercises level) w)
      | _ :: _ =>
          fst (test_subject env v level w) = Ok tt /\
          w_fs (snd (test_subject env v level w)) = clear_fs BUILD_DIR (w_fs w) /\
          isfile (w_fs (snd (test_subject env v level w))) exe_file = false /\
          printed w (snd (test_subject env v level w))
          = announced v level (picked env (w_tick w) (exercises_of (w_fs w) level)) (w_fs w)
            ++ [MsgNeedOneSolution]
      end)).
  { intros Hlen. rewrite test_subject_spec.
    destruct (w_fs w !! os_path_join TASKS_DIR level) as [[c|]|] eqn:Hlevel;
      try (cbn [snd]; repeat split; try reflexivity; discriminate).
    destruct (exercises_of (w_fs w) level) as [|x l] eqn:Eex; cbn [truthy negb].
    { cbn [snd add_console w_invoked w_fs]. repeat split; reflexivity. }
    rewrite <- Eex. cbv zeta.
    set (exercise := picked env (w_tick w) (exercises_of (w_fs w) level)).
    set (w_b := add_all (announced v level exercise (w_fs w)) (next_tick w)).
    assert (Hfs : w_fs w_b = w_fs w) by (subst w_b; rewrite w_fs_add_all; reflexivity).
    assert (Hinv : w_invoked w_b = w_invoked w)
      by (subst w_b; rewrite w_invoked_add_all; reflexivity).
    assert (Hcon : w_console w_b = w_console w ++ announced v level exercise (w_fs w))
      by (subst w_b; rewrite w_console_add_all; reflexivity).
    assert (Hlen' : length (staged_solutions (w_fs w_b)) <> 1%nat) by (rewrite Hfs; exact Hlen).
    destruct (after_announce_aborts env level exercise w_b Hlen') as (H1 & H2 & H3 & H4).
    rewrite Hinv in H1. rewrite Hfs in H2, H3, H4.
    split; [exact H1|]. split; [exact H2|].
    intros _ Hbuild Hsol.
    apply isdir_Some_Dir in Hbuild as Hb. apply isdir_Some_Dir in Hsol as Hs.
    destruct (H4 (proj2 Hb) (proj1 Hs)) as [H5 H6].
    split; [exact H5|]. split; [exact H6|]. split.
    - rewrite H6. apply clear_fs_isfile_entry; [exact Hbuild | reflexivity].
    - apply printed_app. rewrite H3, Hcon, (proj2 Hb), (proj1 Hs), <- app_assoc. reflexivity. }
  split; [exact Habort|].
  intros Hinv.
  destruct (Nat.eq_dec (length (staged_solutions (w_fs w))) 1%nat) as [E|E]; [exact E|].
  destruct (Habort E) as [H _]. contradiction.
Qed.

(** ** The build step *)

Lemma shutil_copy_ok (src dst content : list N) (w : World) :
  w_fs w !! src = Some (File content) ->
  isdir (w_fs w) dst = false ->
  src <> dst ->
  parent_ok (w_fs w) dst = true ->
  shutil_copy src dst w = (Ok tt, set_fs (<[dst := File content]> (w_fs w)) w).
Proof.
  intros Hsrc Hdst Hne Hparent. unfold shutil_copy, bind at 1, get at 1.
  rewrite Hdst. rewrite bool_decide_eq_false_2 by exact Hne.
  unfold bind, read_file. rewrite Hsrc. apply write_file_ok; assumption.
Qed.


Lemma solution_is_not_its_copy n :
  valid_name n = true -> os_path_join SOLUTIONS_DIR n <> os_path_join BUILD_DIR n.
Proof.
  intros Hv.
  rewrite (os_path_join_plain _ _ plain_SOLUTIONS_DIR Hv),
          (os_path_join_plain _ _ plain_BUILD_DIR Hv).
  vm_compute. discriminate.
Qed.

Lemma picked_In env t seq : seq <> [] -> In (picked env t seq) seq.
Proof.
  destruct seq as [|x l]; [congruence|]. intros _. unfold picked.
  apply nth_In. apply Nat.mod_upper_bound. discriminate.
Qed.


Lemma staged_solutions_valid (fs : gmap (list N) node) first :
  In first (staged_solutions fs) -> valid_name first = true.
Proof.
  unfold staged_solutions. intros H. apply filter_In in H as [H _].
  apply list_elem_of_In, elem_of_listdir in H. tauto.
Qed.


(** *** The compile trace *)



(** ** The command loops *)

Lemma isfile_clear_fs (d : list N) (fs : gmap (list N) node) (p : list N) :
  isfile fs p = false -> isfile (clear_fs d fs) p = false.
Proof.
  intros H. unfold clear_fs. destruct (fs !! d) as [[c|]|]; try exact H.
  unfold isfile at 1. rewrite remove_regular_files_lookup.
  destruct (bool_decide _ && isfile fs p); [reflexivity|exact H].
Qed.

(** The three [clear_folder] calls of the exit and change-level branches. *)
Lemma reset_all_run {A} (k : M A) w :
  isfile (w_fs w) SOLUTIONS_DIR = false ->
  isfile (w_fs w) TRACE_DIR = false ->
  isfile (w_fs w) BUILD_DIR = false ->
  (clear_folder SOLUTIONS_DIR ;; clear_folder TRACE_DIR ;; clear_folder BUILD_DIR ;; k) w
  = k (set_fs (reset_all_fs (w_fs w)) w).
Proof.
  intros Hs Ht Hb.
  rewrite (bind_ok _ _ _ _ _ (clear_folder_ok SOLUTIONS_DIR w Hs)).
  erewrite bind_ok.
  2:{ apply clear_folder_ok. cbn [set_fs w_fs]. apply isfile_clear_fs. exact Ht. }
  erewrite bind_ok.
  2:{ apply clear_folder_ok. cbn [set_fs w_fs]. do 2 apply isfile_clear_fs. exact Hb. }
  reflexivity.
Qed.

Lemma input_run prompt line rest w :
  w_stdin w = line :: rest ->
  input (Some prompt) w = (Ok line, set_stdin rest (add_console prompt w)).
Proof. intros H. unfold input. cbn [add_console w_stdin]. rewrite H. reflexivity. Qed.

Lemma input_no_prompt_run line rest w :
  w_stdin w = line :: rest -> input None w = (Ok line, set_stdin rest w).
Proof. intros H. unfold input. rewrite H. reflexivity. Qed.

Lemma for_each_print {A} (f : A -> Msg) (xs : list A) : forall w,
  for_each xs (fun x => print (f x)) w = (Ok tt, add_all (map f xs) w).
Proof.
  induction xs as [|x xs IH]; intros w; [reflexivity|].
  cbn [for_each map add_all fold_left]. unfold bind at 1, print at 1. apply IH.
Qed.

(** The change-level command of version1: [NEW]. *)
Lemma V1_new env DIFFICULTIES d w raw rest :
  w_stdin w = raw :: rest ->
  str_upper env (strip raw) = lit "NEW" ->
  isfile (w_fs w) SOLUTIONS_DIR = false ->
  isfile (w_fs w) TRACE_DIR = false ->
  isfile (w_fs w) BUILD_DIR = false ->
  V1.loop_body env DIFFICULTIES (Some d) w
  = (Ok (Next None),
     add_console MsgSwitching (set_fs (reset_all_fs (w_fs w)) (set_stdin rest w))).
Proof.
  intros Hin Hnew Hs Ht Hb. unfold V1.loop_body.
  unfold bind at 1, ret at 1.
  rewrite (bind_ok _ _ _ _ _ (input_no_prompt_run raw rest w Hin)).
  cbv zeta. rewrite Hnew.
  rewrite bool_decide_eq_false_2 by (vm_compute; discriminate).
  rewrite bool_decide_eq_true_2 by reflexivity.
  rewrite reset_all_run by (cbn [set_stdin w_fs]; assumption).
  reflexivity.
Qed.

(** The change-level command of version6: [newnew]. *)
Lemma V6_newnew env l w raw rest :
  w_stdin w = raw :: rest ->
  str_lower env (strip raw) = lit "newnew" ->
  V6.act env l w
  = (Ok (Next None),
     add_console MsgChooseNewLevel (set_stdin rest (add_console MsgActionPrompt w))).
Proof.
  intros Hin Hnew. unfold V6.act.
  rewrite (bind_ok _ _ _ _ _ (input_run MsgActionPrompt raw rest w Hin)).
  cbv zeta. rewrite Hnew.
  rewrite !bool_decide_eq_false_2 by (vm_compute; discriminate).
  rewrite bool_decide_eq_true_2 by reflexivity.
  reflexivity.
Qed.

(** C5 (as the code has it).  The change-level command moves the session
    to "no level selected".  In version1 (command [NEW]) the regular files
    of the staging, trace and build directories are removed first; in
    version6 (command [newnew]) nothing is cleared: the file system stays
    as it is. *)
Theorem C5_change_level env DIFFICULTIES level w raw rest :
  w_stdin w = raw :: rest ->
  (str_upper env (strip raw) = lit "NEW" ->
   isfile (w_fs w) SOLUTIONS_DIR = false ->
   isfile (w_fs w) TRACE_DIR = false ->
   isfile (w_fs w) BUILD_DIR = false ->
   exists w', V1.loop_body env DIFFICULTIES (Some level) w = (Ok (Next None), w') /\
     w_fs w' = reset_all_fs (w_fs w) /\
     printed w w' = [MsgSwitching] /\
     w_invoked w' = w_invoked w /\ w_stdin w' = rest) /\
  (str_lower env (strip raw) = lit "newnew" ->
   exists w', V6.loop_body env (Some level) w = (Ok (Next None), w') /\
     w_fs w' = w_fs w /\
     printed w w' = [MsgActionPrompt; MsgChooseNewLevel] /\
     w_invoked w' = w_invoked w /\ w_stdin w' = rest).
Proof.
  intros Hin. split.
  - intros Hnew Hs Ht Hb. eexists.
    split; [apply (V1_new _ _ _ _ _ _ Hin Hnew Hs Ht Hb)|].
    cbn [add_console set_fs set_stdin w_fs w_invoked w_stdin].
    repeat split; try reflexivity. apply printed_app. reflexivity.
  - intros Hnew. eexists.
    split; [apply (V6_newnew _ _ _ _ _ Hin Hnew)|].
    cbn [add_console set_fs set_stdin w_fs w_invoked w_stdin].
    repeat split; try reflexivity. apply printed_app.
    cbn [add_console set_stdin w_console]. rewrite <- app_assoc. reflexivity.
Qed.

(** An unrecognized line at the action prompt of version6. *)
Lemma V6_invalid_input env l w raw rest :
  w_stdin w = raw :: rest ->
  str_lower env (strip raw) <> [] ->
  str_lower env (strip raw) <> lit "new" ->
  str_lower env (strip raw) <> lit "newnew" ->
  str_lower env (strip raw) <> lit "exit" ->
  V6.act env l w
  = (Ok (Next (Some l)),
     add_console MsgInvalidInput (set_stdin rest (add_console MsgActionPrompt w))).
Proof.
  intros Hin H1 H2 H3 H4. unfold V6.act.
  rewrite (bind_ok _ _ _ _ _ (input_run MsgActionPrompt raw rest w Hin)).
  cbv zeta. rewrite !bool_decide_eq_false_2 by assumption. reflexivity.
Qed.

(** An unrecognized line at the level prompt of version6. *)
Lemma V6_invalid_choice env w raw rest :
  let choice := str_lower env (strip raw) in
  let levels := levels_of (w_fs w) in
  w_stdin w = raw :: rest ->
  w_fs w !! TASKS_DIR = Some Dir ->
  levels <> [] ->
  str_upper env choice <> lit "EXIT" ->
  (str_isdigit env choice = false \/
   exists k, int_of_str env choice = Some k /\
             ~ (1 <= k <= Z.of_nat (length levels))%Z) ->
  choice ∉ map (str_lower env) levels ->
  V6.choose_level env w
  = (Ok V6.Again,
     add_console MsgInvalidChoice (set_stdin rest (add_all (level_menu levels) w))).
Proof.
  cbv zeta. intros Hin Htasks Hlevels Hexit Hindex Hname.
  unfold V6.choose_level.
  rewrite (bind_ok _ _ _ _ _ (os_listdir_dir _ _ Htasks)).
  unfold bind at 1, get at 1. fold (levels_of (w_fs w)).
  assert (Ht : truthy (levels_of (w_fs w)) = true)
    by (destruct (levels_of (w_fs w)); [congruence | reflexivity]).
  rewrite Ht. cbn [negb].
  unfold bind at 1, print at 1.
  rewrite (bind_ok _ _ _ _ _ (for_each_print _ _ _)).
  erewrite bind_ok.
  2:{ apply input_run. rewrite (proj1 (proj2 (proj2 (proj2 (add_all_fields _ _))))).
      exact Hin. }
  cbv zeta. rewrite bool_decide_eq_false_2 by exact Hexit.
  assert (Hby : (if str_isdigit env (str_lower env (strip raw))
                 then k <- int env (str_lower env (strip raw)) ;;
                      ret ((1 <=? k)%Z && (k <=? Z.of_nat (length (levels_of (w_fs w))))%Z)
                 else ret false)
                = ret false).
  { destruct Hindex as [-> | (k & Hk & Hrange)]; [reflexivity|].
    destruct (str_isdigit env _); [|reflexivity].
    unfold int. rewrite Hk.
    assert (E : ((1 <=? k)%Z && (k <=? Z.of_nat (length (levels_of (w_fs w))))%Z) = false).
    { apply andb_false_iff.
      destruct (Z.leb_spec 1 k); [|left; reflexivity].
      destruct (Z.leb_spec k (Z.of_nat (length (levels_of (w_fs w))))); [|right; reflexivity].
      exfalso. apply Hrange. lia. }
    unfold bind, ret. rewrite E. reflexivity. }
  rewrite Hby. unfold bind at 1, ret at 1.
  rewrite bool_decide_eq_false_2 by exact Hname.
  unfold bind, print, ret, level_menu.
  cbn [add_all fold_left]. unfold add_all. rewrite fold_left_app. reflexivity.
Qed.

(** Any line but [EXIT] and [NEW] in version1 runs the pipeline. *)
Lemma V1_any_other_line env DIFFICULTIES d w raw rest :
  w_stdin w = raw :: rest ->
  str_upper env (strip raw) <> lit "EXIT" ->
  str_upper env (strip raw) <> lit "NEW" ->
  V1.loop_body env DIFFICULTIES (Some d) w
  = (test_subject env Version1 d ;; print MsgReadyRetest ;; ret (Next (Some d)))
      (set_stdin rest w).
Proof.
  intros Hin H1 H2. unfold V1.loop_body.
  unfold bind at 1, ret at 1.
  rewrite (bind_ok _ _ _ _ _ (input_no_prompt_run raw rest w Hin)).
  cbv zeta. rewrite !bool_decide_eq_false_2 by assumption. reflexivity.
Qed.

(** C6 (as the code has it).  In version6 an unrecognized line causes no
    transition and no pipeline run, at the action prompt (any line but the
    empty one, [new], [newnew] and [exit]) and at the level prompt (any
    line but [EXIT], a level number in range and a level name): the
    controller shows an "invalid" notice and prompts again, with the file
    system, the processes run and the host observations unchanged.  In
    version1 there is no unrecognized line: every line but [EXIT] and
    [NEW] runs the pipeline on the current difficulty. *)
Theorem C6_unrecognized_command env DIFFICULTIES level w raw rest :
  w_stdin w = raw :: rest ->
  (let user_input := str_lower env (strip raw) in
   user_input <> [] -> user_input <> lit "new" ->
   user_input <> lit "newnew" -> user_input <> lit "exit" ->
   exists w', V6.loop_body env (Some level) w = (Ok (Next (Some level)), w') /\
     w_fs w' = w_fs w /\ w_invoked w' = w_invoked w /\ w_tick w' = w_tick w /\
     printed w w' = [MsgActionPrompt; MsgInvalidInput] /\ w_stdin w' = rest) /\
  (let choice := str_lower env (strip raw) in
   let levels := levels_of (w_fs w) in
   w_fs w !! TASKS_DIR = Some Dir ->
   levels <> [] ->
   str_upper env choice <> lit "EXIT" ->
   (str_isdigit env choice = false \/
    exists k, int_of_str env choice = Some k /\
              ~ (1 <= k <= Z.of_nat (length levels))%Z) ->
   choice ∉ map (str_lower env) levels ->
   exists w', V6.loop_body env None w = (Ok (Next None), w') /\
     w_fs w' = w_fs w /\ w_invoked w' = w_invoked w /\ w_tick w' = w_tick w /\
     printed w w' = level_menu levels ++ [MsgInvalidChoice] /\ w_stdin w' = rest) /\
  (str_upper env (strip raw) <> lit "EXIT" ->
   str_upper env (strip raw) <> lit "NEW" ->
   V1.loop_body env DIFFICULTIES (Some level) w
   = (test_subject env Version1 level ;; print MsgReadyRetest ;; ret (Next (Some level)))
       (set_stdin rest w)).
Proof.
  intros Hin. split; [|split].
  - cbv zeta. intros H1 H2 H3 H4. eexists.
    split; [apply (V6_invalid_input _ _ _ _ _ Hin H1 H2 H3 H4)|].
    cbn [add_console set_stdin w_fs w_invoked w_tick w_stdin].
    repeat split; try reflexivity. apply printed_app.
    cbn [add_console set_stdin w_console]. rewrite <- app_assoc. reflexivity.
  - cbv zeta. intros Htasks Hlevels Hexit Hindex Hname. eexists. split.
    + unfold V6.loop_body.
      rewrite (bind_ok _ _ _ _ _
                 (V6_invalid_choice env w raw rest Hin Htasks Hlevels Hexit Hindex Hname)).
      reflexivity.
    + cbn [add_console set_stdin w_fs w_invoked w_tick w_stdin w_console].
      destruct (add_all_fields (level_menu (levels_of (w_fs w))) w)
        as (H1 & H2 & H3 & _ & H5).
      rewrite H1, H3, H5. repeat split; try reflexivity.
      apply printed_app. cbn [add_console set_stdin w_console].
      rewrite H2, <- app_assoc. reflexivity.
  - apply V1_any_other_line. exact Hin.
Qed.

(** ** The properties at work on the demo workspace *)


Lemma C8_no_expected_output_no_verdict_witness :
  exists w',
    run_and_check (demo_env 0 0 hello_world (lit "warning")) exe_file
                  (lit "./tasks/subjects/level1/2/output/output.txt") demo_subject
                  (world_of demo_fs) = (Ok tt, w') /\
    w_fs w' = demo_fs /\
    printed (world_of demo_fs) w' = shown (mkCompleted 0 hello_world (lit "warning") demo_fs) /\
    List.filter is_verdict (printed (world_of demo_fs) w') = [] /\
    w_invoked w' = w_invoked (world_of demo_fs) ++ [[exe_file]].
Proof.
  apply (C8_no_expected_output_no_verdict
           (demo_env 0 0 hello_world (lit "warning")) exe_file
           (lit "./tasks/subjects/level1/2/output/output.txt") demo_subject
           (world_of demo_fs) (mkCompleted 0 hello_world (lit "warning") demo_fs)).
  - reflexivity.
  - reflexivity.
Defined.

Lemma C10_verdict_depends_on_stdout_and_expected_witness :
  List.filter is_verdict
    (printed (world_of demo_fs)
       (snd (run_and_check (demo_env 0 0 hello_world []) exe_file demo_expected
               demo_subject (world_of demo_fs))))
  = List.filter is_verdict
      (printed (world_of demo_fs_with_trace)
         (snd (run_and_check (demo_env 0 139 hello_world (lit "Segmentation fault"))
                 exe_file demo_expected demo_subject (world_of demo_fs_with_trace)))).
Proof.
  apply (C10_verdict_depends_on_stdout_and_expected
           (demo_env 0 0 hello_world []) (demo_env 0 139 hello_world (lit "Segmentation fault"))
           exe_file exe_file demo_expected demo_expected demo_subject demo_subject
           (world_of demo_fs) (world_of demo_fs_with_trace)
           (mkCompleted 0 hello_world [] demo_fs)
           (mkCompleted 139 hello_world (lit "Segmentation fault") demo_fs_with_trace)).
  - reflexivity.
  - reflexivity.
  - reflexivity.
  - vm_compute. reflexivity.
Defined.

Lemma staged_entries_not_one_aborts_witness :
  let env := demo_env 0 0 hello_world [] in
  let w := world_of demo_fs_two_solutions in
  let r := test_subject env Version6 demo_level w in
  w_invoked (snd r) = w_invoked w /\
  w_fs (snd r) ⊆ w_fs w /\
  fst r = Ok tt /\
  w_fs (snd r) = clear_fs BUILD_DIR (w_fs w) /\
  isfile (w_fs (snd r)) exe_file = false /\
  printed w (snd r) = [MsgWorkingOn demo_level (lit "1"); MsgNeedOneSolution].
Proof.
  cbv zeta.
  destruct (staged_entries_not_one_aborts
              (demo_env 0 0 hello_world []) Version6 demo_level
              (world_of demo_fs_two_solutions)) as [Habort _].
  assert (Hlen : length (staged_solutions (w_fs (world_of demo_fs_two_solutions))) <> 1%nat)
    by (vm_compute; discriminate).
  destruct (Habort Hlen) as (H1 & H2 & H3).
  split; [exact H1|]. split; [exact H2|].
  exact (H3 eq_refl eq_refl eq_refl).
Defined.


Lemma C5_change_level_witness :
  let env := demo_env 0 0 hello_world [] in
  (exists w',
      V1.loop_body env [demo_level] (Some demo_level)
                   (typing (lit "new") (world_of demo_fs_with_trace))
      = (Ok (Next None), w') /\
      w_fs w' = reset_all_fs demo_fs_with_trace /\
      printed (typing (lit "new") (world_of demo_fs_with_trace)) w' = [MsgSwitching] /\
      w_invoked w' = [] /\ w_stdin w' = []) /\
  (exists w',
      V6.loop_body env (Some demo_level)
                   (typing (lit "NewNew") (world_of demo_fs_with_trace))
      = (Ok (Next None), w') /\
      w_fs w' = demo_fs_with_trace /\
      printed (typing (lit "NewNew") (world_of demo_fs_with_trace)) w'
      = [MsgActionPrompt; MsgChooseNewLevel] /\
      w_invoked w' = [] /\ w_stdin w' = []).
Proof.
  cbv zeta. split.
  - apply (proj1 (C5_change_level (demo_env 0 0 hello_world []) [demo_level] demo_level
                    (typing (lit "new") (world_of demo_fs_with_trace))
                    (lit "new") [] eq_refl));
      reflexivity.
  - apply (proj2 (C5_change_level (demo_env 0 0 hello_world []) [demo_level] demo_level
                    (typing (lit "NewNew") (world_of demo_fs_with_trace))
                    (lit "NewNew") [] eq_refl)).
    reflexivity.
Defined.

(** C5 (as stated) fails in version6: after [newnew] the mismatch trace
    of an earlier round is still in the trace directory. *)
Lemma C5_counterexample_version6_clears_nothing :
  ~ (forall env level w raw rest,
        w_stdin w = raw :: rest ->
        str_lower env (strip raw) = lit "newnew" ->
        exists w', V6.loop_body env (Some level) w = (Ok (Next None), w') /\
                   w_fs w' = reset_all_fs (w_fs w)).
Proof.
  intros H.
  pose (env := demo_env 0 0 hello_world []).
  pose (w := typing (lit "newnew") (world_of demo_fs_with_trace)).
  pose (old := lit "./traces/level1_1_trace_20240102_030405.txt").
  destruct (H env demo_level w (lit "newnew") [] eq_refl eq_refl) as (w' & Hrun & Hfs).
  assert (E : w_fs w' !! old = w_fs (snd (V6.loop_body env (Some demo_level) w)) !! old)
    by (rewrite Hrun; reflexivity).
  rewrite Hfs in E. vm_compute in E. discriminate E.
Qed.

Lemma C6_unrecognized_command_witness :
  let env := demo_env 0 0 hello_world [] in
  (exists w',
      V6.loop_body env (Some demo_level) (typing (lit "foo") (world_of demo_fs))
      = (Ok (Next (Some demo_level)), w') /\
      w_fs w' = demo_fs /\ w_invoked w' = [] /\ w_tick w' = 0%nat /\
      printed (typing (lit "foo") (world_of demo_fs)) w' = [MsgActionPrompt; MsgInvalidInput] /\
      w_stdin w' = []) /\
  (exists w',
      V6.loop_body env None (typing (lit "7") (world_of demo_fs)) = (Ok (Next None), w') /\
      w_fs w' = demo_fs /\ w_invoked w' = [] /\ w_tick w' = 0%nat /\
      printed (typing (lit "7") (world_of demo_fs)) w'
      = [MsgAvailableLevels; MsgLevelItem 1 demo_level; MsgChoosePrompt 1; MsgInvalidChoice] /\
      w_stdin w' = []) /\
  V1.loop_body env [demo_level] (Some demo_level) (typing (lit "foo") (world_of demo_fs))
  = (test_subject env Version1 demo_level ;; print MsgReadyRetest ;;
     ret (Next (Some demo_level))) (world_of demo_fs).
Proof.
  cbv zeta. split; [|split].
  - apply (proj1 (C6_unrecognized_command (demo_env 0 0 hello_world []) [demo_level]
                    demo_level (typing (lit "foo") (world_of demo_fs)) (lit "foo") []
                    eq_refl));
      vm_compute; discriminate.
  - apply (proj1 (proj2 (C6_unrecognized_command (demo_env 0 0 hello_world []) [demo_level]
                    demo_level (typing (lit "7") (world_of demo_fs)) (lit "7") []
                    eq_refl))).
    + reflexivity.
    + vm_compute. discriminate.
    + vm_compute. discriminate.
    + right. exists 7%Z. split; [reflexivity|]. vm_compute. intros [_ Hle]. apply Hle. reflexivity.
    + vm_compute. intros Hin. apply list_elem_of_In in Hin. destruct Hin as [Heq|[]].
      discriminate.
  - apply (proj2 (proj2 (C6_unrecognized_command (demo_env 0 0 hello_world []) [demo_level]
                    demo_level (typing (lit "foo") (world_of demo_fs)) (lit "foo") []
                    eq_refl)));
      vm_compute; discriminate.
Defined.

(** C6 (as stated) fails in version1: the line [foo], which is neither
    empty nor a command, runs the pipeline; the compiler and the candidate
    are invoked. *)
Lemma C6_counterexample_version1_runs_pipeline :
  ~ (forall env DIFFICULTIES level w raw rest,
        w_stdin w = raw :: rest ->
        strip raw <> [] ->
        str_upper env (strip raw) <> lit "EXIT" ->
        str_upper env (strip raw) <> lit "NEW" ->
        exists w', V1.loop_body env DIFFICULTIES (Some level) w
                   = (Ok (Next (Some level)), w') /\
                   w_invoked w' = w_invoked w).
Proof.
  intros H.
  pose (env := demo_env 0 0 hello_world []).
  pose (w := typing (lit "foo") (world_of demo_fs)).
  assert (H1 : strip (lit "foo") <> []) by (vm_compute; discriminate).
  assert (H2 : str_upper env (strip (lit "foo")) <> lit "EXIT") by (vm_compute; discriminate).
  assert (H3 : str_upper env (strip (lit "foo")) <> lit "NEW") by (vm_compute; discriminate).
  destruct (H env [demo_level] demo_level w (lit "foo") [] eq_refl H1 H2 H3)
    as (w' & Hrun & Hinv).
  assert (E : w_invoked w'
              = w_invoked (snd (V1.loop_body env [demo_level] (Some demo_level) w)))
    by (rewrite Hrun; reflexivity).
  rewrite Hinv in E. vm_compute in E. discriminate E.
Qed.

(* ================================================================== *)
(** * Further properties of the normalizer *)

(** Removing the empty lines of a list of lines. *)
Lemma filter_truthy_map_strip (ls : list (list N)) :
  List.filter truthy (map strip (List.filter truthy ls)) = List.filter truthy (map strip ls).
Proof.
  induction ls as [|l ls IH]; [reflexivity|].
  destruct l as [|c l]; [exact IH|].
  cbn [List.filter truthy map]. destruct (truthy (strip (c :: l))); rewrite IH; reflexivity.
Qed.

Lemma nonempty_lines_after_break (c : N) (b : list N) :
  List.filter truthy (splitlines (after_break c b)) = List.filter truthy (splitlines b).
Proof.
  unfold after_break. destruct b as [|c' b']; [reflexivity|].
  destruct ((c =? CR) && (c' =? LF)) eqn:E; [|reflexivity].
  apply andb_true_iff in E as [_ E]. apply N.eqb_eq in E. subst c'.
  rewrite (splitlines_break LF) by reflexivity. cbn [List.filter truthy].
  destruct b'; reflexivity.
Qed.

(** The lines of a text cut at a line boundary: those before it, then
    lines that are, up to empty ones, those after it. *)
Lemma splitlines_app_break (c : N) (b : list N) :
  islinebreak c = true ->
  forall a, exists rest,
    splitlines (a ++ c :: b)
    = match a with [] => [[]] | _ :: _ => splitlines a end ++ rest /\
    List.filter truthy rest = List.filter truthy (splitlines b).
Proof.
  intros Hc a. induction a as [|d a Hd IHa|d a Hd IHa] using splitlines_rect.
  - exists (splitlines (after_break c b)). split.
    + cbn [app]. apply splitlines_break. exact Hc.
    + apply nonempty_lines_after_break.
  - destruct a as [|r0 a'].
    + cbn [app]. rewrite !splitlines_break by assumption.
      exists (splitlines (after_break d (c :: b))). split; [reflexivity|].
      rewrite nonempty_lines_after_break, splitlines_break by assumption.
      apply nonempty_lines_after_break.
    + assert (E : after_break d ((r0 :: a') ++ c :: b) = after_break d (r0 :: a') ++ c :: b).
      { unfold after_break. cbn [app]. destruct ((d =? CR) && (r0 =? LF)); reflexivity. }
      destruct IHa as (rest & H1 & H2).
      change ((d :: r0 :: a') ++ c :: b) with (d :: (r0 :: a') ++ c :: b).
      rewrite !splitlines_break by assumption. rewrite E, H1.
      destruct (after_break d (r0 :: a')) as [|x y].
      * exists ([] :: rest). split; [reflexivity | exact H2].
      * exists rest. split; [reflexivity | exact H2].
  - destruct IHa as (rest & H1 & H2).
    change ((d :: a) ++ c :: b) with (d :: a ++ c :: b).
    rewrite !splitlines_plain by assumption. rewrite H1.
    exists rest. split; [|exact H2].
    destruct a as [|r0 a']; [reflexivity|].
    destruct (splitlines (r0 :: a')) as [|l ls] eqn:El; [|reflexivity].
    apply splitlines_nil_inv in El. discriminate.
Qed.

Lemma normalize_spec_app_break (a b : list N) (c : N) :
  islinebreak c = true ->
  normalize_spec (a ++ c :: b) = normalize_spec a ++ normalize_spec b.
Proof.
  intros Hc. unfold normalize_spec.
  destruct (splitlines_app_break c b Hc a) as (rest & H1 & H2).
  rewrite H1, map_app, List.filter_app.
  rewrite <- (filter_truthy_map_strip rest), H2, filter_truthy_map_strip.
  destruct a; reflexivity.
Qed.

(** The characters of the lines are the characters of the text that are
    not line boundaries, in the same order. *)
Lemma concat_splitlines (s : list N) :
  concat (splitlines s) = List.filter (fun c => negb (islinebreak c)) s.
Proof.
  induction s as [|c s Hc IH|c s Hc IH] using splitlines_rect.
  - reflexivity.
  - rewrite splitlines_break by assumption. cbn [concat app List.filter].
    rewrite Hc. cbn [negb]. rewrite IH.
    unfold after_break. destruct s as [|c' s']; [reflexivity|].
    destruct ((c =? CR) && (c' =? LF)) eqn:E; [|reflexivity].
    apply andb_true_iff in E as [_ E]. apply N.eqb_eq in E. subst c'.
    cbn [List.filter]. rewrite islinebreak_LF. reflexivity.
  - rewrite splitlines_plain by assumption. cbn [List.filter]. rewrite Hc. cbn [negb].
    rewrite <- IH. destruct (splitlines s); reflexivity.
Qed.

Lemma solid_lstrip (l : list N) :
  List.filter (fun c => negb (isspace c)) (lstrip l)
  = List.filter (fun c => negb (isspace c)) l.
Proof.
  induction l as [|c l IH]; [reflexivity|]. cbn [lstrip List.filter].
  destruct (isspace c) eqn:E; [exact IH|]. cbn [List.filter]. rewrite E. reflexivity.
Qed.

Lemma solid_rstrip (l : list N) :
  List.filter (fun c => negb (isspace c)) (rstrip l)
  = List.filter (fun c => negb (isspace c)) l.
Proof.
  induction l as [|c l IH]; [reflexivity|]. rewrite rstrip_cons. cbn [List.filter].
  rewrite <- IH. unfold rcons. destruct (rstrip l) as [|x r].
  - destruct (isspace c) eqn:E; cbn [List.filter]; rewrite ?E; reflexivity.
  - reflexivity.
Qed.

Lemma solid_strip (l : list N) :
  List.filter (fun c => negb (isspace c)) (strip l)
  = List.filter (fun c => negb (isspace c)) l.
Proof. unfold strip. rewrite solid_rstrip. apply solid_lstrip. Qed.

Lemma solid_normalize_lines (ls : list (list N)) :
  List.filter (fun c => negb (isspace c)) (concat (List.filter truthy (map strip ls)))
  = List.filter (fun c => negb (isspace c)) (concat ls).
Proof.
  induction ls as [|l ls IH]; [reflexivity|]. cbn [map List.filter concat].
  rewrite List.filter_app, <- IH, <- (solid_strip l).
  destruct (strip l) as [|c r] eqn:E; cbn [truthy]; [reflexivity|].
  cbn [concat]. rewrite List.filter_app. reflexivity.
Qed.

Lemma solid_not_break (s : list N) :
  List.filter (fun c => negb (isspace c)) (List.filter (fun c => negb (islinebreak c)) s)
  = List.filter (fun c => negb (isspace c)) s.
Proof.
  induction s as [|c s IH]; [reflexivity|]. cbn [List.filter].
  destruct (islinebreak c) eqn:Hb; cbn [negb].
  - rewrite (islinebreak_isspace c Hb). cbn [negb]. exact IH.
  - cbn [List.filter]. rewrite IH. reflexivity.
Qed.

Lemma solid_normalize_spec (t : list N) :
  List.filter (fun c => negb (isspace c)) (concat (normalize_spec t))
  = List.filter (fun c => negb (isspace c)) t.
Proof.
  unfold normalize_spec. rewrite solid_normalize_lines, concat_splitlines.
  apply solid_not_break.
Qed.

Lemma filter_solid_nil (t : list N) :
  List.filter (fun c => negb (isspace c)) t = [] <-> forallb isspace t = true.
Proof.
  induction t as [|c t IH]; [split; reflexivity|]. cbn [List.filter forallb].
  destruct (isspace c); cbn [negb andb]; [exact IH|]. split; discriminate.
Qed.

Lemma clean_solid_head (l : list N) :
  clean l -> List.filter (fun c => negb (isspace c)) l <> [].
Proof.
  intros (Hne & Hl & _). destruct l as [|c l]; [congruence|].
  cbn [lstrip] in Hl. cbn [List.filter]. destruct (isspace c) eqn:E; [|discriminate].
  exfalso. destruct (lstrip_decomp l) as (w & Hw & _).
  apply (f_equal (@length N)) in Hw. rewrite length_app, Hl in Hw. cbn [length] in Hw. lia.
Qed.

(** X1. Every line that [normalize_output] returns is not empty, has no
    whitespace at either end (trimming it again changes nothing) and
    contains no line boundary. *)
Theorem X1_normalize_output_lines_are_clean (text : list N) :
  Forall (fun line => line <> [] /\ strip line = line /\
                      forallb (fun c => negb (islinebreak c)) line = true)
         (normalize_output text).
Proof.
  rewrite normalize_output_spec.
  eapply List.Forall_impl; [|apply normalize_spec_clean].
  intros l Hl. split; [apply Hl|]. split; [apply clean_strip; exact Hl | apply Hl].
Qed.

(** X2. Round trip: whatever list of non-empty, trimmed lines without line
    boundary is joined with newlines, [normalize_output] gives the list
    back. *)
Theorem X2_normalize_output_of_join (ls : list (list N)) :
  Forall (fun line => line <> [] /\ strip line = line /\
                      forallb (fun c => negb (islinebreak c)) line = true) ls ->
  normalize_output (join [LF] ls) = ls.
Proof.
  intros H. rewrite normalize_output_spec. apply normalize_spec_join.
  eapply List.Forall_impl; [|exact H].
  intros l (Hne & Hs & Hb). repeat split; try assumption.
  - rewrite <- Hs. apply lstrip_strip.
  - rewrite <- Hs. apply rstrip_strip.
Qed.

Lemma X2_normalize_output_of_join_witness :
  normalize_output (join [LF] [lit "Hello there"; lit "World"])
  = [lit "Hello there"; lit "World"].
Proof.
  apply X2_normalize_output_of_join.
  repeat constructor; try discriminate; reflexivity.
Defined.

(** X3. Normalizing a text cut at a line boundary is normalizing the two
    parts and putting the results one after the other; the boundary can be
    any of the characters [splitlines] cuts at, also a line feed that
    follows a carriage return. *)
Theorem X3_normalize_output_app (a b : list N) (c : N) :
  islinebreak c = true ->
  normalize_output (a ++ c :: b) = normalize_output a ++ normalize_output b.
Proof.
  intros Hc. rewrite !normalize_output_spec. apply normalize_spec_app_break. exact Hc.
Qed.

Lemma X3_normalize_output_app_witness :
  normalize_output (lit "Hello " ++ CR :: (LF :: lit " World"))
  = normalize_output (lit "Hello ") ++ normalize_output (LF :: lit " World").
Proof. apply X3_normalize_output_app. reflexivity. Defined.

(** X4. [normalize_output] returns the empty sequence exactly for the
    texts that consist of whitespace only (the empty text among them). *)
Theorem X4_normalize_output_empty_iff_blank (text : list N) :
  normalize_output text = [] <-> forallb isspace text = true.
Proof.
  rewrite normalize_output_spec, <- filter_solid_nil, <- (solid_normalize_spec text).
  split; [intros ->; reflexivity|].
  pose proof (normalize_spec_clean text) as Hclean.
  destruct (normalize_spec text) as [|l ls]; [reflexivity|].
  inversion Hclean as [|? ? Hl _]; subst.
  cbn [concat]. rewrite List.filter_app. intros H.
  destruct (List.app_eq_nil _ _ H) as [H' _]. apply clean_solid_head in Hl. contradiction.
Qed.

(** X5. Normalization changes whitespace only: the characters of the
    normalized lines that are not whitespace are those of the text, all of
    them and in the same order. *)
Theorem X5_normalize_output_keeps_solid_characters (text : list N) :
  List.filter (fun c => negb (isspace c)) (concat (normalize_output text))
  = List.filter (fun c => negb (isspace c)) text.
Proof. rewrite normalize_output_spec. apply solid_normalize_spec. Qed.

(* ================================================================== *)
(** * Further properties of the workspace manager *)

Lemma clear_fs_lookup (d : list N) (fs : gmap (list N) node) (k : list N) :
  clear_fs d fs !! k
  = if isdir fs d && bool_decide (is_Some (entry_name d k)) && isfile fs k
    then None else fs !! k.
Proof.
  unfold clear_fs, isdir. destruct (fs !! d) as [[c|]|]; try reflexivity.
  rewrite remove_regular_files_lookup. reflexivity.
Qed.

Lemma isfile_clear_fs_eq (d : list N) (fs : gmap (list N) node) (k : list N) :
  isfile (clear_fs d fs) k
  = isfile fs k && negb (isdir fs d && bool_decide (is_Some (entry_name d k))).
Proof.
  unfold isfile at 1. rewrite clear_fs_lookup.
  destruct (isdir fs d), (bool_decide (is_Some (entry_name d k))); cbn [andb negb];
    rewrite ?andb_true_r, ?andb_false_r; try reflexivity.
  destruct (isfile fs k) eqn:E; [reflexivity | exact E].
Qed.

Lemma clear_fs_idempotent (d : list N) (fs : gmap (list N) node) :
  clear_fs d (clear_fs d fs) = clear_fs d fs.
Proof.
  apply map_eq. intros k.
  rewrite (clear_fs_lookup d (clear_fs d fs)), isdir_clear_fs, isfile_clear_fs_eq.
  rewrite clear_fs_lookup.
  destruct (isdir fs d), (bool_decide (is_Some (entry_name d k))), (isfile fs k);
    reflexivity.
Qed.

Lemma clear_fs_comm (d1 d2 : list N) (fs : gmap (list N) node) :
  clear_fs d1 (clear_fs d2 fs) = clear_fs d2 (clear_fs d1 fs).
Proof.
  apply map_eq. intros k.
  rewrite (clear_fs_lookup d1 (clear_fs d2 fs)), (clear_fs_lookup d2 (clear_fs d1 fs)).
  rewrite !isdir_clear_fs, !isfile_clear_fs_eq, !clear_fs_lookup.
  destruct (isdir fs d1), (isdir fs d2),
           (bool_decide (is_Some (entry_name d1 k))),
           (bool_decide (is_Some (entry_name d2 k))), (isfile fs k);
    reflexivity.
Qed.

(** X6. On a path that names a regular file, [clear_folder] raises
    [NotADirectoryError] (the path exists, and cannot be listed) and
    changes nothing. *)
Theorem X6_clear_folder_on_regular_file (d content : list N) (w : World) :
  w_fs w !! d = Some (File content) ->
  clear_folder d w = (Raise NotADirectoryError, w).
Proof. apply clear_folder_on_file. Qed.

Lemma X6_clear_folder_on_regular_file_witness :
  clear_folder BUILD_DIR (world_of (<[BUILD_DIR := File (lit "not a folder")]> demo_fs))
  = (Raise NotADirectoryError,
     world_of (<[BUILD_DIR := File (lit "not a folder")]> demo_fs)).
Proof.
  apply (X6_clear_folder_on_regular_file BUILD_DIR (lit "not a folder")).
  vm_compute. reflexivity.
Defined.

(** X7. Clearing is idempotent: clearing a folder twice in a row leaves
    the world that clearing it once leaves. *)
Theorem X7_clear_folder_idempotent (d : list N) (w : World) :
  isfile (w_fs w) d = false ->
  (clear_folder d ;; clear_folder d) w = clear_folder d w.
Proof.
  intros H. rewrite (bind_ok _ _ _ _ _ (clear_folder_ok d w H)).
  rewrite clear_folder_ok by (cbn [set_fs w_fs]; apply isfile_clear_fs; exact H).
  rewrite (clear_folder_ok d w H). cbn [set_fs w_fs w_console w_invoked w_stdin w_tick].
  rewrite clear_fs_idempotent. reflexivity.
Qed.

Lemma X7_clear_folder_idempotent_witness :
  (clear_folder BUILD_DIR ;; clear_folder BUILD_DIR) (world_of build_with_subdir)
  = clear_folder BUILD_DIR (world_of build_with_subdir).
Proof. apply X7_clear_folder_idempotent. reflexivity. Defined.

(** X8. The order in which folders are cleared does not matter: clearing
    two folders one way round or the other leaves the same world (so does
    the order of the three resets done on exit). *)
Theorem X8_clear_folder_order_irrelevant (d1 d2 : list N) (w : World) :
  isfile (w_fs w) d1 = false ->
  isfile (w_fs w) d2 = false ->
  (clear_folder d1 ;; clear_folder d2) w = (clear_folder d2 ;; clear_folder d1) w.
Proof.
  intros H1 H2.
  rewrite (bind_ok _ _ _ _ _ (clear_folder_ok d1 w H1)).
  rewrite (bind_ok _ _ _ _ _ (clear_folder_ok d2 w H2)).
  rewrite !clear_folder_ok by (cbn [set_fs w_fs]; apply isfile_clear_fs; assumption).
  cbn [set_fs w_fs w_console w_invoked w_stdin w_tick].
  rewrite (clear_fs_comm d2 d1). reflexivity.
Qed.

Lemma X8_clear_folder_order_irrelevant_witness :
  (clear_folder SOLUTIONS_DIR ;; clear_folder TRACE_DIR) (world_of demo_fs_with_trace)
  = (clear_folder TRACE_DIR ;; clear_folder SOLUTIONS_DIR) (world_of demo_fs_with_trace).
Proof. apply X8_clear_folder_order_irrelevant; reflexivity. Defined.

(* ================================================================== *)
(** * Further properties of the pipeline *)

Lemma subprocess_run_check_ok env argv w r :
  spawn env (w_tick w) argv (w_fs w) = Some r ->
  returncode r = 0%Z ->
  subprocess_run env argv true w = (Ok r, after_process argv r w).
Proof.
  intros H Hrc. unfold subprocess_run. rewrite H, Hrc. reflexivity.
Qed.

(** [run_and_check] runs the candidate without [check=True]: whatever the
    candidate does, no [CalledProcessError] leaves it. *)
Lemma run_and_check_not_called_process_error env exe expected subject w rc out err :
  fst (run_and_check env exe expected subject w) <> Raise (CalledProcessError rc out err).
Proof.
  destruct (spawn env (w_tick w) [exe] (w_fs w)) as [r|] eqn:Hrun.
  - rewrite (run_and_check_spec env exe expected subject w r Hrun). cbv zeta.
    destruct (fs_after r !! expected) as [[raw|]|];
      try (cbn [fst]; discriminate).
    destruct (bool_decide _); [cbn [fst]; discriminate|].
    unfold write_file. destruct (isdir _ _); [cbn [fst]; discriminate|].
    destruct (parent_ok _ _); cbn [fst]; discriminate.
  - unfold run_and_check. erewrite bind_raise.
    2:{ unfold subprocess_run. rewrite Hrun. reflexivity. }
    cbn [fst]. discriminate.
Qed.

Lemma try_except_pass {A} (body : M A) handler w :
  (forall rc out err, fst (body w) <> Raise (CalledProcessError rc out err)) ->
  try_except_called_process_error body handler w = body w.
Proof.
  intros H. unfold try_except_called_process_error.
  destruct (body w) as [[a|e] w'] eqn:E; [reflexivity|].
  destruct e; try reflexivity. exfalso. eapply H. reflexivity.
Qed.

(** The build step when the toolchain exits with zero. *)
Lemma build_step_compile_ok env level exercise first source w rc :
  let solution_file := os_path_join SOLUTIONS_DIR first in
  let dst_file := os_path_join BUILD_DIR first in
  let argv := compiler solution_file dst_file in
  valid_name first = true ->
  w_fs w !! BUILD_DIR = Some Dir ->
  w_fs w !! solution_file = Some (File source) ->
  isdir (w_fs w) dst_file = false ->
  spawn env (w_tick w) argv (<[dst_file := File source]> (w_fs w)) = Some rc ->
  returncode rc = 0%Z ->
  build_step env level exercise first w
  = run_and_check env exe_file
      (expected_output_file (os_path_join (os_path_join TASKS_DIR level) exercise))
      (level ++ lit "_" ++ exercise)
      (add_console MsgCompilationOk
         (after_process argv rc (set_fs (<[dst_file := File source]> (w_fs w)) w))).
Proof.
  cbv zeta. intros Hv Hbuild Hsrc Hdst Hspawn Hrc.
  unfold build_step. cbv zeta.
  erewrite bind_ok.
  2:{ apply (shutil_copy_ok _ _ source); try assumption.
      - apply solution_is_not_its_copy. exact Hv.
      - apply parent_ok_entry; [apply plain_BUILD_DIR | exact Hv | exact Hbuild]. }
  rewrite try_except_pass.
  - erewrite bind_ok; [|apply subprocess_run_check_ok; [exact Hspawn | exact Hrc]].
    reflexivity.
  - intros c o e.
    erewrite bind_ok; [|apply subprocess_run_check_ok; [exact Hspawn | exact Hrc]].
    unfold bind at 1, print at 1. apply run_and_check_not_called_process_error.
Qed.

(** [test_subject] up to the end of a successful build. *)
Lemma test_subject_compile_ok env v level w first source rc :
  let exercise := picked env (w_tick w) (exercises_of (w_fs w) level) in
  let solution_file := os_path_join SOLUTIONS_DIR first in
  let dst_file := os_path_join BUILD_DIR first in
  let argv := compiler solution_file dst_file in
  w_fs w !! os_path_join TASKS_DIR level = Some Dir ->
  exercises_of (w_fs w) level <> [] ->
  w_fs w !! BUILD_DIR = Some Dir ->
  w_fs w !! SOLUTIONS_DIR = Some Dir ->
  staged_solutions (w_fs w) = [first] ->
  w_fs w !! solution_file = Some (File source) ->
  isdir (w_fs w) dst_file = false ->
  spawn env (S (w_tick w)) argv
        (<[dst_file := File source]> (clear_fs BUILD_DIR (w_fs w))) = Some rc ->
  returncode rc = 0%Z ->
  test_subject env v level w
  = run_and_check env exe_file
      (expected_output_file (os_path_join (os_path_join TASKS_DIR level) exercise))
      (level ++ lit "_" ++ exercise)
      (add_console MsgCompilationOk
         (after_process argv rc
            (set_fs (<[dst_file := File source]> (clear_fs BUILD_DIR (w_fs w)))
               (add_all (announced v level exercise (w_fs w)) (next_tick w))))).
Proof.
  cbv zeta. intros Hlevel Hex Hbuild Hsol Hstaged Hsrc Hdst Hspawn Hrc.
  set (exercise := picked env (w_tick w) (exercises_of (w_fs w) level)) in *.
  assert (Hvf : valid_name first = true).
  { apply (staged_solutions_valid (w_fs w)). rewrite Hstaged. left. reflexivity. }
  assert (Hstaged' : staged_solutions (clear_fs BUILD_DIR (w_fs w)) = [first]).
  { apply Permutation_singleton_r. rewrite staged_solutions_clear_build, Hstaged.
    reflexivity. }
  rewrite test_subject_spec, Hlevel.
  assert (Ht : truthy (exercises_of (w_fs w) level) = true)
    by (destruct (exercises_of (w_fs w) level); [congruence | reflexivity]).
  rewrite Ht. cbn [negb]. cbv zeta. fold exercise.
  set (w_b := add_all (announced v level exercise (w_fs w)) (next_tick w)).
  assert (Hfs : w_fs w_b = w_fs w) by (subst w_b; rewrite w_fs_add_all; reflexivity).
  assert (Htick : w_tick w_b = S (w_tick w))
    by (subst w_b; rewrite w_tick_add_all; reflexivity).
  rewrite after_announce_spec, Hfs.
  rewrite (proj2 (isdir_Some_Dir _ _ Hbuild)), (proj1 (isdir_Some_Dir _ _ Hsol)).
  cbv zeta. rewrite Hstaged'. cbn [length Nat.eqb negb nth].
  erewrite (build_step_compile_ok env level exercise first source _ rc);
    cbn [set_fs w_fs w_tick]; rewrite ?Htick; try assumption.
  - reflexivity.
  - apply clear_fs_lookup_dir. exact Hbuild.
  - rewrite clear_fs_lookup_other by (apply solutions_not_in_build; exact Hvf).
    exact Hsrc.
  - rewrite isdir_clear_fs. exact Hdst.
Qed.

Lemma announced_no_verdict (v : variant) (level exercise : list N)
    (fs : gmap (list N) node) :
  List.filter is_verdict (announced v level exercise fs) = [].
Proof.
  destruct v; cbn [announced List.filter is_verdict]; [|reflexivity].
  destruct (fs !! _) as [[text|]|]; reflexivity.
Qed.

(** What a run adds to the terminal, and the verdict in it. *)
Lemma run_and_check_appends env exe expected subject w r :
  spawn env (w_tick w) [exe] (w_fs w) = Some r ->
  exists ms,
    w_console (snd (run_and_check env exe expected subject w)) = w_console w ++ ms /\
    List.filter is_verdict ms = verdict_for (stdout r) (expected_text (fs_after r) expected).
Proof.
  intros Hrun. rewrite (run_and_check_spec env exe expected subject w r Hrun).
  cbv zeta. unfold expected_text, verdict_for.
  destruct (after_shown_fields [exe] r w (shown r)) as (_ & Hc & _).
  destruct (fs_after r !! expected) as [[raw|]|];
    try (exists (shown r); split; [exact Hc | apply shown_no_verdict]).
  rewrite !normalize_output_strip.
  destruct (bool_decide (normalize_output (stdout r) = normalize_output raw)).
  - exists (shown r ++ [MsgMatch]). split.
    + cbn [snd add_console w_console]. rewrite Hc, <- app_assoc. reflexivity.
    + rewrite List.filter_app, shown_no_verdict. reflexivity.
  - set (rep := mismatch_report _ _).
    set (w1 := add_all (shown r) _) in *.
    destruct (add_all_fields rep w1) as (_ & Hc2 & _).
    unfold write_file.
    destruct (isdir _ _); [|destruct (parent_ok _ _)]; cbn [snd].
    + exists (shown r ++ rep). split.
      * cbn [next_tick w_console]. rewrite Hc2, Hc, <- app_assoc. reflexivity.
      * rewrite List.filter_app, shown_no_verdict. reflexivity.
    + eexists (shown r ++ rep ++ [_]). split.
      * cbn [add_console set_fs next_tick w_console].
        rewrite Hc2, Hc, <- !app_assoc. reflexivity.
      * rewrite !List.filter_app, shown_no_verdict. reflexivity.
    + exists (shown r ++ rep). split.
      * cbn [next_tick w_console]. rewrite Hc2, Hc, <- app_assoc. reflexivity.
      * rewrite List.filter_app, shown_no_verdict. reflexivity.
Qed.

(** X9. A level without exercise directory (an empty one, or one that
    holds files only): [test_subject] says so and does nothing else; no
    exercise is drawn (so [random.choice] never sees an empty list), the
    build directory is not cleared and no process is run. *)
Theorem X9_level_without_exercises env v level w :
  w_fs w !! os_path_join TASKS_DIR level = Some Dir ->
  exercises_of (w_fs w) level = [] ->
  test_subject env v level w = (Ok tt, add_console (MsgNoExercises level) w).
Proof.
  intros Hlevel Hex. rewrite test_subject_spec, Hlevel, Hex. reflexivity.
Qed.

Lemma X9_level_without_exercises_witness :
  test_subject (demo_env 0 0 hello_world []) Version1 (lit "level2")
               (world_of demo_fs_empty_level)
  = (Ok tt, add_console (MsgNoExercises (lit "level2")) (world_of demo_fs_empty_level)).
Proof.
  apply X9_level_without_exercises; vm_compute; reflexivity.
Defined.

(** X10. After a zero exit of the toolchain the rest of [test_subject] is
    [run_and_check] on [./build/program.out], on [output/output.txt] of
    the exercise and on the subject [<level>_<exercise>], started in the
    world the toolchain left, with "Compilation successful" shown.  The
    [except] clause of [test_subject] does not catch anything of it:
    whatever the candidate does, no compile trace is written for it. *)
Theorem X10_successful_build_runs_check env v level w first source rc :
  let exercise := picked env (w_tick w) (exercises_of (w_fs w) level) in
  let solution_file := os_path_join SOLUTIONS_DIR first in
  let dst_file := os_path_join BUILD_DIR first in
  let argv := compiler solution_file dst_file in
  w_fs w !! os_path_join TASKS_DIR level = Some Dir ->
  exercises_of (w_fs w) level <> [] ->
  w_fs w !! BUILD_DIR = Some Dir ->
  w_fs w !! SOLUTIONS_DIR = Some Dir ->
  staged_solutions (w_fs w) = [first] ->
  w_fs w !! solution_file = Some (File source) ->
  isdir (w_fs w) dst_file = false ->
  spawn env (S (w_tick w)) argv
        (<[dst_file := File source]> (clear_fs BUILD_DIR (w_fs w))) = Some rc ->
  returncode rc = 0%Z ->
  exists w_ok,
    test_subject env v level w
    = run_and_check env exe_file
        (os_path_join (os_path_join (os_path_join (os_path_join TASKS_DIR level) exercise)
                                    (lit "output")) (lit "output.txt"))
        (level ++ lit "_" ++ exercise) w_ok /\
    w_fs w_ok = fs_after rc /\
    w_console w_ok = w_console w ++ announced v level exercise (w_fs w) ++ [MsgCompilationOk] /\
    w_invoked w_ok = w_invoked w ++ [argv] /\
    w_stdin w_ok = w_stdin w /\
    w_tick w_ok = S (S (w_tick w)).
Proof.
  cbv zeta. intros Hlevel Hex Hbuild Hsol Hstaged Hsrc Hdst Hspawn Hrc.
  eexists. split.
  - apply (test_subject_compile_ok env v level w first source rc); assumption.
  - cbn [add_console after_process set_fs next_tick add_invoked
         w_fs w_console w_invoked w_stdin w_tick].
    rewrite w_console_add_all, w_invoked_add_all, w_tick_add_all.
    rewrite (proj1 (proj2 (proj2 (proj2 (add_all_fields _ _))))).
    cbn [next_tick w_console w_invoked w_stdin w_tick].
    rewrite <- app_assoc. repeat split; reflexivity.
Qed.

Lemma X10_successful_build_runs_check_witness :
  let env := demo_env 0 139 hello_world (lit "Segmentation fault") in
  exists w_ok,
    test_subject env Version6 demo_level (world_of demo_fs)
    = run_and_check env exe_file
        (os_path_join
           (os_path_join
              (os_path_join (os_path_join TASKS_DIR demo_level)
                 (picked env 0 (exercises_of demo_fs demo_level)))
              (lit "output")) (lit "output.txt"))
        (demo_level ++ lit "_" ++ picked env 0 (exercises_of demo_fs demo_level)) w_ok /\
    w_fs w_ok = fs_after demo_compiled /\
    w_console w_ok
    = [] ++ announced Version6 demo_level (picked env 0 (exercises_of demo_fs demo_level))
               demo_fs ++ [MsgCompilationOk] /\
    w_invoked w_ok
    = [] ++ [compiler (os_path_join SOLUTIONS_DIR (lit "main.cpp"))
                      (os_path_join BUILD_DIR (lit "main.cpp"))] /\
    w_stdin w_ok = [] /\
    w_tick w_ok = 2%nat.
Proof.
  cbv zeta.
  apply (X10_successful_build_runs_check
           (demo_env 0 139 hello_world (lit "Segmentation fault")) Version6 demo_level
           (world_of demo_fs) (lit "main.cpp") demo_source demo_compiled).
  - vm_compute. reflexivity.
  - vm_compute. discriminate.
  - vm_compute. reflexivity.
  - vm_compute. reflexivity.
  - vm_compute. reflexivity.
  - vm_compute. reflexivity.
  - vm_compute. reflexivity.
  - vm_compute. reflexivity.
  - reflexivity.
Defined.

(** The world in which the candidate is run. *)
Lemma compiled_world_fields (argv : list (list N)) (rc : Completed)
    (fs : gmap (list N) node) (ms : list Msg) (w : World) :
  let w_ok := add_console MsgCompilationOk
                (after_process argv rc (set_fs fs (add_all ms (next_tick w)))) in
  w_fs w_ok = fs_after rc /\
  w_console w_ok = w_console w ++ ms ++ [MsgCompilationOk] /\
  w_invoked w_ok = w_invoked w ++ [argv] /\
  w_tick w_ok = S (S (w_tick w)).
Proof.
  cbv zeta.
  cbn [add_console after_process set_fs next_tick add_invoked
       w_fs w_console w_invoked w_stdin w_tick].
  rewrite w_console_add_all, w_invoked_add_all, w_tick_add_all.
  cbn [next_tick w_console w_invoked w_tick].
  rewrite <- app_assoc. repeat split; reflexivity.
Qed.

(** X11. End to end: with one staged solution, a toolchain that exits
    with zero and a candidate whose output normalizes to the expected
    sequence, [test_subject] ends normally with the verdict Match; the
    toolchain and the candidate are the two processes run, in this order,
    and the run itself leaves no trace: the file system is as the
    candidate left it. *)
Theorem X11_pipeline_match env v level w first source rc r raw :
  let exercise := picked env (w_tick w) (exercises_of (w_fs w) level) in
  let solution_file := os_path_join SOLUTIONS_DIR first in
  let dst_file := os_path_join BUILD_DIR first in
  let argv := compiler solution_file dst_file in
  let expected :=
    os_path_join (os_path_join (os_path_join (os_path_join TASKS_DIR level) exercise)
                               (lit "output")) (lit "output.txt") in
  w_fs w !! os_path_join TASKS_DIR level = Some Dir ->
  exercises_of (w_fs w) level <> [] ->
  w_fs w !! BUILD_DIR = Some Dir ->
  w_fs w !! SOLUTIONS_DIR = Some Dir ->
  staged_solutions (w_fs w) = [first] ->
  w_fs w !! solution_file = Some (File source) ->
  isdir (w_fs w) dst_file = false ->
  spawn env (S (w_tick w)) argv
        (<[dst_file := File source]> (clear_fs BUILD_DIR (w_fs w))) = Some rc ->
  returncode rc = 0%Z ->
  spawn env (S (S (w_tick w))) [exe_file] (fs_after rc) = Some r ->
  fs_after r !! expected = Some (File raw) ->
  normalize_output (stdout r) = normalize_output raw ->
  exists w', test_subject env v level w = (Ok tt, w') /\
    w_fs w' = fs_after r /\
    w_invoked w' = w_invoked w ++ [argv; [exe_file]] /\
    printed w w' = announced v level exercise (w_fs w)
                   ++ [MsgCompilationOk] ++ shown r ++ [MsgMatch].
Proof.
  cbv zeta. intros Hlevel Hex Hbuild Hsol Hstaged Hsrc Hdst Hspawn Hrc Hrun Hexp Heq.
  rewrite (test_subject_compile_ok env v level w first source rc) by assumption.
  set (w_ok := add_console MsgCompilationOk _).
  destruct (compiled_world_fields
              (compiler (os_path_join SOLUTIONS_DIR first) (os_path_join BUILD_DIR first))
              rc
              (<[os_path_join BUILD_DIR first := File source]> (clear_fs BUILD_DIR (w_fs w)))
              (announced v level (picked env (w_tick w) (exercises_of (w_fs w) level)) (w_fs w))
              w) as (Hfs & Hcon & Hinv & Htick).
  fold w_ok in Hfs, Hcon, Hinv, Htick.
  assert (Hrun' : spawn env (w_tick w_ok) [exe_file] (w_fs w_ok) = Some r)
    by (rewrite Htick, Hfs; exact Hrun).
  unfold expected_output_file.
  rewrite (run_and_check_match env exe_file _ _ w_ok r raw Hrun' Hexp Heq).
  eexists. split; [reflexivity|].
  destruct (after_shown_fields [exe_file] r w_ok (shown r)) as (H1 & H2 & H3 & _).
  cbn [add_console w_fs w_invoked w_console].
  split; [exact H1|]. split.
  - rewrite H3, Hinv, <- app_assoc. reflexivity.
  - apply printed_app. cbn [add_console w_console]. rewrite H2, Hcon, <- !app_assoc. reflexivity.
Qed.

Lemma X11_pipeline_match_witness :
  let env := demo_env 0 0 hello_world [] in
  exists w', test_subject env Version6 demo_level (world_of demo_fs) = (Ok tt, w') /\
    w_fs w' = fs_after demo_compiled /\
    w_invoked w' = [demo_argv; [lit "./build/program.out"]] /\
    printed (world_of demo_fs) w'
    = [MsgWorkingOn demo_level (lit "1")] ++ [MsgCompilationOk]
      ++ shown (demo_ran 0 hello_world []) ++ [MsgMatch].
Proof.
  cbv zeta.
  assert (Eex : picked (demo_env 0 0 hello_world []) 0 (exercises_of demo_fs demo_level)
                = lit "1") by (vm_compute; reflexivity).
  destruct (X11_pipeline_match
              (demo_env 0 0 hello_world []) Version6 demo_level (world_of demo_fs)
              (lit "main.cpp") demo_source demo_compiled (demo_ran 0 hello_world [])
              demo_expected_text)
    as (w' & Hrun & Hfs & Hinv & Hout).
  - vm_compute. reflexivity.
  - vm_compute. discriminate.
  - vm_compute. reflexivity.
  - vm_compute. reflexivity.
  - vm_compute. reflexivity.
  - vm_compute. reflexivity.
  - vm_compute. reflexivity.
  - vm_compute. reflexivity.
  - reflexivity.
  - reflexivity.
  - vm_compute. reflexivity.
  - vm_compute. reflexivity.
  - cbn [w_fs w_tick world_of] in *. rewrite Eex in Hout.
    exists w'. split; [exact Hrun|]. split; [exact Hfs|]. split; [exact Hinv | exact Hout].
Defined.

(** X12. In a run that reaches the candidate, the verdict that
    [test_subject] shows is the one that the standard output of the
    candidate and the expected text call for: Match, Mismatch, or none
    when there is no expected-output file; nothing else that is shown
    during the run is a verdict, and this holds also when the mismatch
    trace cannot be written. *)
Theorem X12_pipeline_verdict env v level w first source rc r :
  let exercise := picked env (w_tick w) (exercises_of (w_fs w) level) in
  let solution_file := os_path_join SOLUTIONS_DIR first in
  let dst_file := os_path_join BUILD_DIR first in
  let argv := compiler solution_file dst_file in
  let expected :=
    os_path_join (os_path_join (os_path_join (os_path_join TASKS_DIR level) exercise)
                               (lit "output")) (lit "output.txt") in
  w_fs w !! os_path_join TASKS_DIR level = Some Dir ->
  exercises_of (w_fs w) level <> [] ->
  w_fs w !! BUILD_DIR = Some Dir ->
  w_fs w !! SOLUTIONS_DIR = Some Dir ->
  staged_solutions (w_fs w) = [first] ->
  w_fs w !! solution_file = Some (File source) ->
  isdir (w_fs w) dst_file = false ->
  spawn env (S (w_tick w)) argv
        (<[dst_file := File source]> (clear_fs BUILD_DIR (w_fs w))) = Some rc ->
  returncode rc = 0%Z ->
  spawn env (S (S (w_tick w))) [exe_file] (fs_after rc) = Some r ->
  List.filter is_verdict (printed w (snd (test_subject env v level w)))
  = verdict_for (stdout r) (expected_text (fs_after r) expected).
Proof.
  cbv zeta. intros Hlevel Hex Hbuild Hsol Hstaged Hsrc Hdst Hspawn Hrc Hrun.
  rewrite (test_subject_compile_ok env v level w first source rc) by assumption.
  set (w_ok := add_console MsgCompilationOk _).
  destruct (compiled_world_fields
              (compiler (os_path_join SOLUTIONS_DIR first) (os_path_join BUILD_DIR first))
              rc
              (<[os_path_join BUILD_DIR first := File source]> (clear_fs BUILD_DIR (w_fs w)))
              (announced v level (picked env (w_tick w) (exercises_of (w_fs w) level)) (w_fs w))
              w) as (Hfs & Hcon & Hinv & Htick).
  fold w_ok in Hfs, Hcon, Hinv, Htick.
  assert (Hrun' : spawn env (w_tick w_ok) [exe_file] (w_fs w_ok) = Some r)
    by (rewrite Htick, Hfs; exact Hrun).
  unfold expected_output_file.
  destruct (run_and_check_appends env exe_file
              (os_path_join
                 (os_path_join
                    (os_path_join (os_path_join TASKS_DIR level)
                       (picked env (w_tick w) (exercises_of (w_fs w) level)))
                    (lit "output")) (lit "output.txt"))
              (level ++ lit "_" ++ picked env (w_tick w) (exercises_of (w_fs w) level))
              w_ok r Hrun') as (ms & Hms & Hv).
  erewrite printed_app.
  2:{ rewrite Hms, Hcon, <- !app_assoc. reflexivity. }
  rewrite !List.filter_app, announced_no_verdict, Hv. reflexivity.
Qed.

Lemma X12_pipeline_verdict_witness :
  let env := demo_env 0 1 world_hello [] in
  List.filter is_verdict
    (printed (world_of demo_fs)
       (snd (test_subject env Version1 demo_level (world_of demo_fs))))
  = verdict_for (stdout (demo_ran 1 world_hello []))
      (expected_text (fs_after (demo_ran 1 world_hello []))
         (os_path_join
            (os_path_join
               (os_path_join (os_path_join TASKS_DIR demo_level)
                  (picked env 0 (exercises_of demo_fs demo_level)))
               (lit "output")) (lit "output.txt"))).
Proof.
  cbv zeta.
  apply (X12_pipeline_verdict
           (demo_env 0 1 world_hello []) Version1 demo_level (world_of demo_fs)
           (lit "main.cpp") demo_source demo_compiled (demo_ran 1 world_hello [])).
  - vm_compute. reflexivity.
  - vm_compute. discriminate.
  - vm_compute. reflexivity.
  - vm_compute. reflexivity.
  - vm_compute. reflexivity.
  - vm_compute. reflexivity.
  - vm_compute. reflexivity.
  - vm_compute. reflexivity.
  - reflexivity.
  - reflexivity.
Defined.

(** *** Further properties of the session controller *)

Lemma add_all_level_menu (levels : list (list N)) (w : World) :
  add_all (level_menu levels) w
  = add_console (MsgChoosePrompt (length levels))
      (add_all (map (fun il => MsgLevelItem (fst il) (snd il))
                    (combine (seq 1 (length levels)) levels))
               (add_console MsgAvailableLevels w)).
Proof.
  unfold level_menu. cbn [add_all fold_left]. unfold add_all.
  rewrite fold_left_app. reflexivity.
Qed.

(** The level prompt of version6, up to the line it reads. *)
Lemma V6_choose_level_prompt env w raw rest :
  w_stdin w = raw :: rest ->
  w_fs w !! TASKS_DIR = Some Dir ->
  levels_of (w_fs w) <> [] ->
  V6.choose_level env w
  = (let levels := levels_of (w_fs w) in
     let choice := str_lower env (strip raw) in
     if bool_decide (str_upper env choice = lit "EXIT") then
       clear_folder SOLUTIONS_DIR ;;
       clear_folder TRACE_DIR ;;
       clear_folder BUILD_DIR ;;
       print MsgBye ;;
       ret V6.Stop
     else
       by_index <- (if str_isdigit env choice then
                      k <- int env choice ;;
                      ret ((1 <=? k)%Z && (k <=? Z.of_nat (length levels))%Z)
                    else ret false) ;;
       if by_index then
         k <- int env choice ;;
         let current_level := nth (Z.to_nat (k - 1)) levels [] in
         test_subject env Version6 current_level ;;
         ret (V6.Level current_level)
       else if bool_decide (choice ∈ map (str_lower env) levels) then
         match List.find (fun lvl => bool_decide (str_lower env lvl = choice)) levels with
         | Some current_level =>
             test_subject env Version6 current_level ;;
             ret (V6.Level current_level)
         | None => raise StopIteration
         end
       else
         print MsgInvalidChoice ;; ret V6.Again)
      (set_stdin rest (add_all (level_menu (levels_of (w_fs w))) w)).
Proof.
  intros Hin Htasks Hlevels. unfold V6.choose_level.
  rewrite (bind_ok _ _ _ _ _ (os_listdir_dir _ _ Htasks)).
  unfold bind at 1, get at 1. fold (levels_of (w_fs w)).
  assert (Ht : truthy (levels_of (w_fs w)) = true)
    by (destruct (levels_of (w_fs w)); [congruence | reflexivity]).
  rewrite Ht. cbn [negb].
  unfold bind at 1, print at 1.
  rewrite (bind_ok _ _ _ _ _ (for_each_print _ _ _)).
  erewrite bind_ok.
  2:{ apply input_run. rewrite (proj1 (proj2 (proj2 (proj2 (add_all_fields _ _))))).
      exact Hin. }
  rewrite add_all_level_menu. reflexivity.
Qed.

Lemma exited_reset msgs rest w :
  exited (msgs ++ [MsgBye]) rest w
    (add_console MsgBye (set_fs (reset_all_fs (w_fs w)) (set_stdin rest (add_all msgs w)))).
Proof.
  unfold exited.
  cbn [add_console set_fs set_stdin w_fs w_console w_invoked w_stdin w_tick].
  rewrite w_invoked_add_all, w_tick_add_all.
  repeat split; try reflexivity.
  apply printed_app. cbn [add_console set_fs set_stdin w_console].
  rewrite w_console_add_all, <- app_assoc. reflexivity.
Qed.

(** After the reset no regular file is left directly in any of the three
    directories. *)
Lemma reset_all_fs_no_regular_file (fs : gmap (list N) node) (d n : list N) :
  d ∈ [SOLUTIONS_DIR; TRACE_DIR; BUILD_DIR] ->
  fs !! d = Some Dir ->
  valid_name n = true ->
  isfile (reset_all_fs fs) (os_path_join d n) = false.
Proof.
  intros Hd Hdir Hv. unfold reset_all_fs.
  assert (Hin : bool_decide (is_Some (entry_name d (os_path_join d n))) = true).
  { apply bool_decide_eq_true_2. rewrite entry_name_join by exact Hv. eauto. }
  assert (Hisdir : isdir fs d = true) by (unfold isdir; rewrite Hdir; reflexivity).
  rewrite !isfile_clear_fs_eq, !isdir_clear_fs.
  apply elem_of_cons in Hd as [-> | Hd];
    [| apply elem_of_cons in Hd as [-> | Hd];
       [| apply elem_of_cons in Hd as [-> | Hd]; [| inversion Hd]]];
    rewrite Hisdir, Hin; cbn [andb negb]; rewrite ?andb_false_r; reflexivity.
Qed.

(** X13. The exit command ends the session in both variants, wherever it
    is typed: at the action prompt of version6 ([exit], in any case), at
    its level prompt ([EXIT]) and in version1 ([EXIT]).  The three
    directories are cleared, the farewell is shown, no process is run, the
    loop returns at once whatever lines follow; and in the file system that
    is left, no regular file lies directly in the staging, trace or build
    directory. *)
Theorem X13_exit_ends_session env DIFFICULTIES level fuel w raw rest :
  w_stdin w = raw :: rest ->
  isfile (w_fs w) SOLUTIONS_DIR = false ->
  isfile (w_fs w) TRACE_DIR = false ->
  isfile (w_fs w) BUILD_DIR = false ->
  (str_lower env (strip raw) = lit "exit" ->
   exists w', V6.command_loop env (S fuel) (Some level) w = (Ok tt, w') /\
              exited [MsgActionPrompt; MsgBye] rest w w') /\
  (str_upper env (str_lower env (strip raw)) = lit "EXIT" ->
   w_fs w !! TASKS_DIR = Some Dir ->
   levels_of (w_fs w) <> [] ->
   exists w', V6.command_loop env (S fuel) None w = (Ok tt, w') /\
              exited (level_menu (levels_of (w_fs w)) ++ [MsgBye]) rest w w') /\
  (str_upper env (strip raw) = lit "EXIT" ->
   exists w', V1.command_loop env DIFFICULTIES (S fuel) (Some level) w = (Ok tt, w') /\
              exited [MsgBye] rest w w') /\
  (forall d n, d ∈ [SOLUTIONS_DIR; TRACE_DIR; BUILD_DIR] ->
     w_fs w !! d = Some Dir -> valid_name n = true ->
     isfile (reset_all_fs (w_fs w)) (os_path_join d n) = false).
Proof.
  intros Hin Hs Ht Hb. split; [|split; [|split]].
  - intros Hexit. eexists. split.
    + cbn [V6.command_loop V6.loop_body]. erewrite bind_ok.
      2:{ unfold V6.act.
          rewrite (bind_ok _ _ _ _ _ (input_run MsgActionPrompt raw rest w Hin)).
          cbv zeta. rewrite Hexit.
          rewrite !bool_decide_eq_false_2 by (vm_compute; discriminate).
          rewrite bool_decide_eq_true_2 by reflexivity.
          rewrite reset_all_run by (cbn [set_stdin add_console w_fs]; assumption).
          unfold bind, print, ret. reflexivity. }
      reflexivity.
    + apply (exited_reset [MsgActionPrompt] rest w).
  - intros Hexit Htasks Hlevels. eexists. split.
    + cbn [V6.command_loop V6.loop_body]. erewrite bind_ok.
      2:{ erewrite bind_ok.
          2:{ rewrite (V6_choose_level_prompt env w raw rest Hin Htasks Hlevels).
              cbv zeta. rewrite bool_decide_eq_true_2 by exact Hexit.
              rewrite reset_all_run
                by (cbn [set_stdin w_fs]; rewrite w_fs_add_all; assumption).
              unfold bind, print, ret. reflexivity. }
          reflexivity. }
      reflexivity.
    + cbn [set_stdin w_fs]. rewrite w_fs_add_all.
      apply (exited_reset (level_menu (levels_of (w_fs w))) rest w).
  - intros Hexit. eexists. split.
    + cbn [V1.command_loop]. erewrite bind_ok.
      2:{ unfold V1.loop_body. unfold bind at 1, ret at 1.
          rewrite (bind_ok _ _ _ _ _ (input_no_prompt_run raw rest w Hin)).
          cbv zeta. rewrite bool_decide_eq_true_2 by exact Hexit.
          rewrite reset_all_run by (cbn [set_stdin w_fs]; assumption).
          unfold bind, print, ret. reflexivity. }
      reflexivity.
    + apply (exited_reset [] rest w).
  - intros d n Hd Hdir Hv. apply reset_all_fs_no_regular_file; assumption.
Qed.

Lemma X13_exit_ends_session_witness :
  let env := demo_env 0 0 hello_world [] in
  let w := typing (lit " Exit ") (typing (lit "never read") (world_of demo_fs_with_trace)) in
  (exists w', V6.command_loop env 3 (Some demo_level) w = (Ok tt, w') /\
              exited [MsgActionPrompt; MsgBye] [lit "never read"] w w') /\
  (exists w', V6.command_loop env 3 None w = (Ok tt, w') /\
              exited (level_menu (levels_of (w_fs w)) ++ [MsgBye]) [lit "never read"] w w') /\
  (exists w', V1.command_loop env [demo_level] 3 (Some demo_level) w = (Ok tt, w') /\
              exited [MsgBye] [lit "never read"] w w') /\
  isfile (reset_all_fs (w_fs w)) (os_path_join SOLUTIONS_DIR (lit "main.cpp")) = false.
Proof.
  cbv zeta.
  pose proof (X13_exit_ends_session (demo_env 0 0 hello_world []) [demo_level] demo_level 2
                (typing (lit " Exit ") (typing (lit "never read") (world_of demo_fs_with_trace)))
                (lit " Exit ") [lit "never read"] eq_refl eq_refl eq_refl eq_refl)
    as (H1 & H2 & H3 & H4).
  split; [apply H1; reflexivity|].
  split; [apply H2; [reflexivity | reflexivity | vm_compute; discriminate]|].
  split; [apply H3; reflexivity|].
  apply H4; [| reflexivity | reflexivity].
  apply elem_of_cons. left. reflexivity.
Defined.

(** X14. At the action prompt of version6 the empty line and [new] are
    one command: each runs the pipeline once on the current level (which
    draws the exercise afresh), shows the ready notice and keeps the
    level. *)
Theorem X14_enter_and_new_alike env level w enter new :
  str_lower env (strip enter) = [] ->
  str_lower env (strip new) = lit "new" ->
  V6.loop_body env (Some level) (typing enter w)
  = V6.loop_body env (Some level) (typing new w) /\
  V6.loop_body env (Some level) (typing new w)
  = (test_subject env Version6 level ;; print MsgReady ;; ret (Next (Some level)))
      (add_console MsgActionPrompt w).
Proof.
  intros Henter Hnew.
  assert (E1 : V6.loop_body env (Some level) (typing enter w)
               = (test_subject env Version6 level ;; print MsgReady ;;
                  ret (Next (Some level))) (add_console MsgActionPrompt w)).
  { cbn [V6.loop_body]. unfold V6.act.
    rewrite (bind_ok _ _ _ _ _ (input_run MsgActionPrompt enter (w_stdin w)
                                  (typing enter w) eq_refl)).
    cbv zeta. rewrite Henter. rewrite bool_decide_eq_true_2 by reflexivity.
    destruct w; reflexivity. }
  assert (E2 : V6.loop_body env (Some level) (typing new w)
               = (test_subject env Version6 level ;; print MsgReady ;;
                  ret (Next (Some level))) (add_console MsgActionPrompt w)).
  { cbn [V6.loop_body]. unfold V6.act.
    rewrite (bind_ok _ _ _ _ _ (input_run MsgActionPrompt new (w_stdin w)
                                  (typing new w) eq_refl)).
    cbv zeta. rewrite Hnew.
    rewrite bool_decide_eq_false_2 by (vm_compute; discriminate).
    rewrite bool_decide_eq_true_2 by reflexivity.
    destruct w; reflexivity. }
  split; [rewrite E1, E2; reflexivity | exact E2].
Qed.

Lemma X14_enter_and_new_alike_witness :
  let env := demo_env 0 0 hello_world [] in
  V6.loop_body env (Some demo_level) (typing (lit "  ") (world_of demo_fs))
  = V6.loop_body env (Some demo_level) (typing (lit "New") (world_of demo_fs)) /\
  V6.loop_body env (Some demo_level) (typing (lit "New") (world_of demo_fs))
  = (test_subject env Version6 demo_level ;; print MsgReady ;; ret (Next (Some demo_level)))
      (add_console MsgActionPrompt (world_of demo_fs)).
Proof.
  cbv zeta.
  apply (X14_enter_and_new_alike (demo_env 0 0 hello_world []) demo_level
           (world_of demo_fs) (lit "  ") (lit "New")); reflexivity.
Defined.

Lemma find_first {A} (f : A -> bool) (l : list A) (x : A) :
  List.find f l = Some x ->
  exists before after, l = before ++ x :: after /\ f x = true /\
                       List.Forall (fun y => f y = false) before.
Proof.
  induction l as [|y l IH]; cbn [List.find]; [discriminate|].
  destruct (f y) eqn:Hy.
  - intros [= ->]. exists [], l. repeat split; [exact Hy | constructor].
  - intros H. destruct (IH H) as (before & after & -> & Hx & Hb).
    exists (y :: before), after. repeat split; [exact Hx | constructor; assumption].
Qed.

(** X15. How version6 resolves the line typed at the level prompt.  A
    digit string whose value is between one and the number of levels
    selects the level listed under that number, whatever the levels are
    called; otherwise a line that equals a level name up to case selects
    the first such level of the list (the generator never runs dry).  In
    both cases the pipeline is run once on the selected level. *)
Theorem X15_level_selection env w raw rest :
  let choice := str_lower env (strip raw) in
  let levels := levels_of (w_fs w) in
  let w1 := set_stdin rest (add_all (level_menu levels) w) in
  w_stdin w = raw :: rest ->
  w_fs w !! TASKS_DIR = Some Dir ->
  levels <> [] ->
  str_upper env choice <> lit "EXIT" ->
  (forall k, str_isdigit env choice = true -> int_of_str env choice = Some k ->
     (1 <= k <= Z.of_nat (length levels))%Z ->
     exists l, levels !! Z.to_nat (k - 1) = Some l /\
       V6.choose_level env w = (test_subject env Version6 l ;; ret (V6.Level l)) w1) /\
  ((str_isdigit env choice = false \/
    exists k, int_of_str env choice = Some k /\ ~ (1 <= k <= Z.of_nat (length levels))%Z) ->
   choice ∈ map (str_lower env) levels ->
   exists before l after, levels = before ++ l :: after /\
     str_lower env l = choice /\
     (choice ∉ map (str_lower env) before) /\
     V6.choose_level env w = (test_subject env Version6 l ;; ret (V6.Level l)) w1).
Proof.
  cbv zeta. intros Hin Htasks Hlevels Hexit. split.
  - intros k Hdigit Hk Hrange.
    destruct (lookup_lt_is_Some_2 (levels_of (w_fs w)) (Z.to_nat (k - 1))) as [l Hl]; [lia|].
    exists l. split; [exact Hl|].
    rewrite (V6_choose_level_prompt env w raw rest Hin Htasks Hlevels).
    cbv zeta. rewrite bool_decide_eq_false_2 by exact Hexit.
    rewrite Hdigit. unfold int. rewrite Hk.
    assert (E : ((1 <=? k)%Z && (k <=? Z.of_nat (length (levels_of (w_fs w))))%Z) = true).
    { apply andb_true_iff. split; apply Z.leb_le; lia. }
    unfold bind at 1. unfold bind at 1, ret at 1. unfold ret at 1. rewrite E.
    unfold bind at 1, ret at 1.
    rewrite (nth_lookup_Some _ _ _ _ Hl). reflexivity.
  - intros Hindex Hname.
    destruct (List.find (fun lvl => bool_decide (str_lower env lvl = str_lower env (strip raw)))
                        (levels_of (w_fs w))) as [l|] eqn:Hfind.
    + destruct (find_first _ _ _ Hfind) as (before & after & Hsplit & Hl & Hbefore).
      exists before, l, after. split; [exact Hsplit|].
      split; [apply bool_decide_eq_true_1 in Hl; exact Hl|]. split.
      * intros Hc. change (map (str_lower env) before) with (str_lower env <$> before) in Hc.
        apply list_elem_of_fmap in Hc as (y & Hy & Hyin).
        apply list_elem_of_In in Hyin.
        rewrite List.Forall_forall in Hbefore. specialize (Hbefore y Hyin).
        apply bool_decide_eq_false_1 in Hbefore. congruence.
      * rewrite (V6_choose_level_prompt env w raw rest Hin Htasks Hlevels).
        cbv zeta. rewrite bool_decide_eq_false_2 by exact Hexit.
        assert (Hby : (if str_isdigit env (str_lower env (strip raw))
                       then k <- int env (str_lower env (strip raw)) ;;
                            ret ((1 <=? k)%Z
                                 && (k <=? Z.of_nat (length (levels_of (w_fs w))))%Z)
                       else ret false)
                      = ret false).
        { destruct Hindex as [-> | (k & Hk & Hrange)]; [reflexivity|].
          destruct (str_isdigit env _); [|reflexivity].
          unfold int. rewrite Hk.
          assert (E : ((1 <=? k)%Z
                       && (k <=? Z.of_nat (length (levels_of (w_fs w))))%Z) = false).
          { apply andb_false_iff.
            destruct (Z.leb_spec 1 k); [|left; reflexivity].
            destruct (Z.leb_spec k (Z.of_nat (length (levels_of (w_fs w)))));
              [|right; reflexivity].
            exfalso. apply Hrange. lia. }
          unfold bind, ret. rewrite E. reflexivity. }
        rewrite Hby. unfold bind at 1, ret at 1.
        rewrite bool_decide_eq_true_2 by exact Hname.
        rewrite Hfind. reflexivity.
    + exfalso.
      change (map (str_lower env) (levels_of (w_fs w)))
        with (str_lower env <$> levels_of (w_fs w)) in Hname.
      apply list_elem_of_fmap in Hname as (y & Hy & Hyin).
      apply list_elem_of_In in Hyin.
      pose proof (List.find_none _ _ Hfind y Hyin) as Hnone.
      apply bool_decide_eq_false_1 in Hnone. congruence.
Qed.

Lemma X15_level_selection_witness :
  let env := demo_env 0 0 hello_world [] in
  let w := world_of demo_fs in
  (exists l, levels_of demo_fs !! 0%nat = Some l /\
     V6.choose_level env (typing (lit "1") w)
     = (test_subject env Version6 l ;; ret (V6.Level l))
         (set_stdin [] (add_all (level_menu (levels_of demo_fs)) (typing (lit "1") w)))) /\
  (exists before l after, levels_of demo_fs = before ++ l :: after /\
     ascii_lower l = lit "level1" /\
     (lit "level1" ∉ map ascii_lower before) /\
     V6.choose_level env (typing (lit " Level1") w)
     = (test_subject env Version6 l ;; ret (V6.Level l))
         (set_stdin [] (add_all (level_menu (levels_of demo_fs))
                                (typing (lit " Level1") w)))).
Proof.
  cbv zeta. split.
  - apply (proj1 (X15_level_selection (demo_env 0 0 hello_world [])
                    (typing (lit "1") (world_of demo_fs)) (lit "1") []
                    eq_refl eq_refl
                    ltac:(vm_compute; discriminate) ltac:(vm_compute; discriminate))
                 1%Z eq_refl eq_refl).
    vm_compute. split; discriminate.
  - apply (proj2 (X15_level_selection (demo_env 0 0 hello_world [])
                    (typing (lit " Level1") (world_of demo_fs)) (lit " Level1") []
                    eq_refl eq_refl
                    ltac:(vm_compute; discriminate) ltac:(vm_compute; discriminate))).
    + left. reflexivity.
    + vm_compute. apply elem_of_cons. left. reflexivity.
Defined.

(** X16. A catalogue without level ends the session at once: version6
    shows the notice and leaves the loop without prompting, reading or
    clearing anything, and so does version1 when its list of difficulties
    is empty.  When the catalogue directory itself is missing, version6
    does not get that far: [FileNotFoundError] leaves the loop. *)
Theorem X16_empty_catalogue env fuel w :
  (w_fs w !! TASKS_DIR = Some Dir -> levels_of (w_fs w) = [] ->
   V6.command_loop env (S fuel) None w = (Ok tt, add_console MsgNoLevels w)) /\
  (w_fs w !! TASKS_DIR = None ->
   V6.command_loop env (S fuel) None w = (Raise FileNotFoundError, w)) /\
  V1.command_loop env [] (S fuel) None w = (Ok tt, add_console MsgNoSubjects w).
Proof.
  split; [|split].
  - intros Htasks Hnone. cbn [V6.command_loop V6.loop_body]. erewrite bind_ok.
    2:{ erewrite bind_ok.
        2:{ unfold V6.choose_level.
            rewrite (bind_ok _ _ _ _ _ (os_listdir_dir _ _ Htasks)).
            unfold bind at 1, get at 1. fold (levels_of (w_fs w)). rewrite Hnone.
            cbn [truthy negb]. unfold bind, print, ret. reflexivity. }
        reflexivity. }
    reflexivity.
  - intros Hmissing. cbn [V6.command_loop V6.loop_body]. erewrite bind_raise; [reflexivity|].
    erewrite bind_raise; [reflexivity|].
    unfold V6.choose_level. erewrite bind_raise; [reflexivity|].
    unfold os_listdir. rewrite Hmissing. reflexivity.
  - reflexivity.
Qed.

Lemma X16_empty_catalogue_witness :
  let env := demo_env 0 0 hello_world [] in
  V6.command_loop env 5 None (typing (lit "1") (world_of demo_fs_no_level))
  = (Ok tt, add_console MsgNoLevels (typing (lit "1") (world_of demo_fs_no_level))) /\
  V6.command_loop env 5 None (world_of (delete TASKS_DIR demo_fs_no_level))
  = (Raise FileNotFoundError, world_of (delete TASKS_DIR demo_fs_no_level)) /\
  V1.command_loop env [] 5 None (typing (lit "1") (world_of demo_fs_no_level))
  = (Ok tt, add_console MsgNoSubjects (typing (lit "1") (world_of demo_fs_no_level))).
Proof.
  cbv zeta. split; [|split].
  - apply (proj1 (X16_empty_catalogue (demo_env 0 0 hello_world []) 4
                    (typing (lit "1") (world_of demo_fs_no_level)))).
    + reflexivity.
    + vm_compute. reflexivity.
  - apply (proj1 (proj2 (X16_empty_catalogue (demo_env 0 0 hello_world []) 4
                           (world_of (delete TASKS_DIR demo_fs_no_level))))).
    vm_compute. reflexivity.
  - apply (proj2 (proj2 (X16_empty_catalogue (demo_env 0 0 hello_world []) 4
                           (typing (lit "1") (world_of demo_fs_no_level))))).
Defined.

(** X17. At the level prompt of version6 the line is given to [int] as
    soon as [str.isdigit] holds of it.  For a line of which it holds and
    that [int] rejects (the superscript two, for one), [ValueError] leaves
    the command loop: the session ends there, with nothing cleared and no
    notice shown after the menu. *)
Theorem X17_digit_that_int_rejects env fuel w raw rest :
  let choice := str_lower env (strip raw) in
  let levels := levels_of (w_fs w) in
  w_stdin w = raw :: rest ->
  w_fs w !! TASKS_DIR = Some Dir ->
  levels <> [] ->
  str_upper env choice <> lit "EXIT" ->
  str_isdigit env choice = true ->
  int_of_str env choice = None ->
  V6.command_loop env (S fuel) None w
  = (Raise ValueError, set_stdin rest (add_all (level_menu levels) w)).
Proof.
  cbv zeta. intros Hin Htasks Hlevels Hexit Hdigit Hint.
  cbn [V6.command_loop V6.loop_body]. erewrite bind_raise; [reflexivity|].
  erewrite bind_raise; [reflexivity|].
  rewrite (V6_choose_level_prompt env w raw rest Hin Htasks Hlevels).
  cbv zeta. rewrite bool_decide_eq_false_2 by exact Hexit.
  rewrite Hdigit. unfold int. rewrite Hint. reflexivity.
Qed.

Lemma X17_digit_that_int_rejects_witness :
  V6.command_loop superscript_env 5 None (typing [178] (world_of demo_fs))
  = (Raise ValueError,
     set_stdin [] (add_all (level_menu (levels_of demo_fs)) (typing [178] (world_of demo_fs)))).
Proof.
  apply (X17_digit_that_int_rejects superscript_env 4 (typing [178] (world_of demo_fs))
           [178] []).
  - reflexivity.
  - reflexivity.
  - vm_compute. discriminate.
  - vm_compute. discriminate.
  - reflexivity.
  - reflexivity.
Defined.

(** X18. When standard input is at its end, the prompt that reads next
    raises [EOFError], which leaves the command loop: the session ends
    without the farewell and without clearing the workspace, in both
    variants and at both prompts of version6. *)
Theorem X18_end_of_input env DIFFICULTIES level fuel w :
  w_stdin w = [] ->
  V6.command_loop env (S fuel) (Some level) w
  = (Raise EOFError, add_console MsgActionPrompt w) /\
  V1.command_loop env DIFFICULTIES (S fuel) (Some level) w = (Raise EOFError, w) /\
  (w_fs w !! TASKS_DIR = Some Dir -> levels_of (w_fs w) <> [] ->
   V6.command_loop env (S fuel) None w
   = (Raise EOFError, add_all (level_menu (levels_of (w_fs w))) w)).
Proof.
  intros Hin. split; [|split].
  - cbn [V6.command_loop V6.loop_body]. erewrite bind_raise; [reflexivity|].
    unfold V6.act. erewrite bind_raise; [reflexivity|].
    unfold input. cbn [add_console w_stdin]. rewrite Hin. reflexivity.
  - cbn [V1.command_loop]. erewrite bind_raise; [reflexivity|].
    unfold V1.loop_body. unfold bind at 1, ret at 1.
    erewrite bind_raise; [reflexivity|].
    unfold input. rewrite Hin. reflexivity.
  - intros Htasks Hlevels.
    cbn [V6.command_loop V6.loop_body]. erewrite bind_raise; [reflexivity|].
    erewrite bind_raise; [reflexivity|].
    unfold V6.choose_level.
    rewrite (bind_ok _ _ _ _ _ (os_listdir_dir _ _ Htasks)).
    unfold bind at 1, get at 1. fold (levels_of (w_fs w)).
    assert (Ht : truthy (levels_of (w_fs w)) = true)
      by (destruct (levels_of (w_fs w)); [congruence | reflexivity]).
    rewrite Ht. cbn [negb].
    unfold bind at 1, print at 1.
    rewrite (bind_ok _ _ _ _ _ (for_each_print _ _ _)).
    erewrite bind_raise; [rewrite add_all_level_menu; reflexivity|].
    unfold input. cbn [add_console w_stdin].
    rewrite (proj1 (proj2 (proj2 (proj2 (add_all_fields _ _))))).
    cbn [add_console w_stdin]. rewrite Hin. reflexivity.
Qed.

Lemma X18_end_of_input_witness :
  let env := demo_env 0 0 hello_world [] in
  V6.command_loop env 5 (Some demo_level) (world_of demo_fs_with_trace)
  = (Raise EOFError, add_console MsgActionPrompt (world_of demo_fs_with_trace)) /\
  V1.command_loop env [demo_level] 5 (Some demo_level) (world_of demo_fs_with_trace)
  = (Raise EOFError, world_of demo_fs_with_trace) /\
  V6.command_loop env 5 None (world_of demo_fs_with_trace)
  = (Raise EOFError,
     add_all (level_menu (levels_of demo_fs_with_trace)) (world_of demo_fs_with_trace)).
Proof.
  cbv zeta.
  pose proof (X18_end_of_input (demo_env 0 0 hello_world []) [demo_level] demo_level 4
                (world_of demo_fs_with_trace) eq_refl) as (H1 & H2 & H3).
  split; [exact H1|]. split; [exact H2|].
  apply H3; [reflexivity | vm_compute; discriminate].
Defined.

(** *** Invariants of the pipeline and of the session

    One induction over the script serves several invariants: a relation
    [R] between worlds that is reflexive and transitive, and that every
    primitive effect of the script respects, holds between the start and
    the end of every run.  The paths the script removes or writes are
    [allowed]; the levels it works on are [good]. *)

Lemma Forall_List_filter {A} (P : A -> Prop) (f : A -> bool) (l : list A) :
  List.Forall P l -> List.Forall P (List.filter f l).
Proof.
  rewrite !List.Forall_forall. intros H x Hx. apply filter_In in Hx as [Hx _]. auto.
Qed.

Lemma listdir_valid (fs : gmap (list N) node) (d : list N) :
  List.Forall (fun n => valid_name n = true) (listdir fs d).
Proof.
  apply List.Forall_forall. intros n Hn.
  apply list_elem_of_In, elem_of_listdir in Hn. tauto.
Qed.

Lemma single_first (l : list (list N)) :
  List.Forall (fun n => valid_name n = true) l ->
  negb (length l =? 1)%nat = false ->
  valid_name (nth 0 l []) = true.
Proof.
  intros H Hlen. destruct l as [|x [|y l]]; try discriminate Hlen.
  inversion H; subst. assumption.
Qed.

Lemma single_first_recognized (l : list (list N)) :
  negb (length (List.filter recognized l) =? 1)%nat = false ->
  recognized (nth 0 (List.filter recognized l) []) = true.
Proof.
  intros Hlen.
  destruct (List.filter recognized l) as [|x [|y t]] eqn:E; try discriminate Hlen.
  assert (Hin : In x (List.filter recognized l)) by (rewrite E; left; reflexivity).
  apply filter_In in Hin. apply Hin.
Qed.

Lemma in_dirs_solutions : SOLUTIONS_DIR ∈ [SOLUTIONS_DIR; TRACE_DIR; BUILD_DIR].
Proof. apply elem_of_cons. left. reflexivity. Qed.

Lemma in_dirs_traces : TRACE_DIR ∈ [SOLUTIONS_DIR; TRACE_DIR; BUILD_DIR].
Proof. apply elem_of_cons. right. apply elem_of_cons. left. reflexivity. Qed.

Lemma in_dirs_build : BUILD_DIR ∈ [SOLUTIONS_DIR; TRACE_DIR; BUILD_DIR].
Proof. do 2 (apply elem_of_cons; right). apply elem_of_cons. left. reflexivity. Qed.

Section Invariant.

Variable env : Env.
Variable R : World -> World -> Prop.
Variable allowed : list N -> Prop.
Variable good : list N -> Prop.

Hypothesis R_refl : forall w, R w w.
Hypothesis R_trans : forall w1 w2 w3, R w1 w2 -> R w2 w3 -> R w1 w3.
Hypothesis R_print : forall m w, R w (add_console m w).
Hypothesis R_read : forall rest w, R w (set_stdin rest w).
Hypothesis R_tick : forall w, R w (next_tick w).
Hypothesis R_remove : forall p c w,
  allowed p -> w_fs w !! p = Some (File c) -> R w (set_fs (delete p (w_fs w)) w).
Hypothesis R_write : forall p c w,
  allowed p -> isdir (w_fs w) p = false -> R w (set_fs (<[p := File c]> (w_fs w)) w).
Hypothesis R_run : forall argv check w,
  script_command argv -> R w (snd (subprocess_run env argv check w)).

Hypothesis allowed_entry : forall d file,
  d ∈ [SOLUTIONS_DIR; TRACE_DIR; BUILD_DIR] -> valid_name file = true ->
  allowed (os_path_join d file).
Hypothesis allowed_copy : forall first,
  valid_name first = true -> recognized first = true ->
  allowed (os_path_join (os_path_join BUILD_DIR first)
                        (basename (os_path_join SOLUTIONS_DIR first))).
Hypothesis allowed_mismatch : forall level exercise timestamp,
  good level -> valid_name exercise = true -> no_slash timestamp ->
  allowed (mismatch_trace_file (level ++ lit "_" ++ exercise) timestamp).
Hypothesis allowed_compile : forall level exercise timestamp,
  good level -> valid_name exercise = true -> no_slash timestamp ->
  allowed (compile_trace_file level exercise timestamp).
Hypothesis good_valid : forall l, valid_name l = true -> good l.

Lemma hoare_ret {A} (a : A) (Q : A -> Prop) : Q a -> hoare R (ret a) Q.
Proof. intros H w. split; [apply R_refl | intros a' [= <-]; exact H]. Qed.

Lemma hoare_raise {A} (e : exn) (Q : A -> Prop) : hoare R (raise e) Q.
Proof. intros w. split; [apply R_refl | intros a H; discriminate H]. Qed.

Lemma hoare_bind {A B} (m : M A) (k : A -> M B) (P : A -> Prop) (Q : B -> Prop) :
  hoare R m P -> (forall a, P a -> hoare R (k a) Q) -> hoare R (bind m k) Q.
Proof.
  intros Hm Hk w. unfold bind. destruct (Hm w) as [HR HP].
  destruct (m w) as [[a|e] w']; cbn [fst snd] in *.
  - destruct (Hk a (HP a eq_refl) w') as [HR' HQ].
    split; [exact (R_trans _ _ _ HR HR') | exact HQ].
  - split; [exact HR | intros a H; discriminate H].
Qed.

Lemma hoare_weaken {A} (m : M A) (P Q : A -> Prop) :
  hoare R m P -> (forall a, P a -> Q a) -> hoare R m Q.
Proof. intros Hm HPQ w. destruct (Hm w) as [HR HP]. split; [exact HR | auto]. Qed.

Lemma hoare_seq {A B} (m : M A) (k : M B) (Q : B -> Prop) :
  hoare R m any -> hoare R k Q -> hoare R (bind m (fun _ => k)) Q.
Proof. intros Hm Hk. apply (hoare_bind m _ any Q Hm). intros _ _. exact Hk. Qed.

Lemma hoare_print (m : Msg) : hoare R (print m) any.
Proof. intros w. split; [apply R_print | intros; exact I]. Qed.

Lemma hoare_get : hoare R get any.
Proof. intros w. split; [apply R_refl | intros; exact I]. Qed.

Lemma hoare_input (prompt : option Msg) : hoare R (input prompt) any.
Proof.
  intros w. split; [|intros; exact I]. unfold input.
  assert (H1 : R w (match prompt with Some m => add_console m w | None => w end))
    by (destruct prompt; [apply R_print | apply R_refl]).
  destruct (w_stdin _) as [|line rest]; cbn [snd]; [exact H1|].
  exact (R_trans _ _ _ H1 (R_read rest _)).
Qed.

Lemma hoare_os_path_exists (p : list N) : hoare R (os_path_exists p) any.
Proof. intros w. split; [apply R_refl | intros; exact I]. Qed.

Lemma hoare_os_path_isfile (p : list N) : hoare R (os_path_isfile p) any.
Proof. intros w. split; [apply R_refl | intros; exact I]. Qed.

Lemma hoare_os_listdir (d : list N) :
  hoare R (os_listdir d) (List.Forall (fun n => valid_name n = true)).
Proof.
  intros w. unfold os_listdir. destruct (w_fs w !! d) as [[c|]|]; cbn [fst snd].
  - split; [apply R_refl | intros a H; discriminate H].
  - split; [apply R_refl | intros a [= <-]; apply listdir_valid].
  - split; [apply R_refl | intros a H; discriminate H].
Qed.

Lemma hoare_os_remove (p : list N) : allowed p -> hoare R (os_remove p) any.
Proof.
  intros Hp w. split; [|intros; exact I]. unfold os_remove.
  destruct (w_fs w !! p) as [[c|]|] eqn:E; cbn [snd]; try apply R_refl.
  apply (R_remove p c w Hp E).
Qed.

Lemma hoare_read_file (p : list N) : hoare R (read_file p) any.
Proof.
  intros w. split; [|intros; exact I]. unfold read_file.
  destruct (w_fs w !! p) as [[c|]|]; apply R_refl.
Qed.

Lemma hoare_write_file (p content : list N) : allowed p -> hoare R (write_file p content) any.
Proof.
  intros Hp w. split; [|intros; exact I]. unfold write_file.
  destruct (isdir (w_fs w) p) eqn:E; [apply R_refl|].
  destruct (parent_ok (w_fs w) p); [|apply R_refl].
  apply (R_write p content w Hp E).
Qed.

Lemma hoare_timestamp_now : hoare R (timestamp_now env) no_slash.
Proof.
  intros w. split; [apply R_tick|]. intros a Ha.
  assert (E : a = strftime (now env (w_tick w)))
    by (unfold timestamp_now in Ha; cbn [fst] in Ha; congruence).
  rewrite E. apply no_slash_strftime.
Qed.

Lemma hoare_random_choice (seq : list (list N)) :
  hoare R (random_choice env seq) (fun x => In x seq).
Proof.
  intros w. destruct seq as [|x l].
  - split; [apply R_refl | intros a H; discriminate H].
  - rewrite random_choice_run by discriminate. cbn [fst snd].
    split; [apply R_tick|]. intros a Ha.
    assert (E : a = picked env (w_tick w) (x :: l)) by congruence.
    rewrite E. apply picked_In. discriminate.
Qed.

Lemma hoare_subprocess_run (argv : list (list N)) (check : bool) :
  script_command argv -> hoare R (subprocess_run env argv check) any.
Proof. intros H w. split; [apply R_run; exact H | intros; exact I]. Qed.

Lemma hoare_for_each {A} (xs : list A) (body : A -> M unit) :
  (forall x, In x xs -> hoare R (body x) any) -> hoare R (for_each xs body) any.
Proof.
  induction xs as [|x xs IH]; intros H; cbn [for_each].
  - apply hoare_ret. exact I.
  - apply hoare_seq; [apply H; left; reflexivity|].
    apply IH. intros y Hy. apply H. right. exact Hy.
Qed.

Lemma hoare_try_except {A} (body : M A) (handler : list N -> list N -> M A) (Q : A -> Prop) :
  hoare R body Q -> (forall out err, hoare R (handler out err) Q) ->
  hoare R (try_except_called_process_error body handler) Q.
Proof.
  intros Hb Hh w. unfold try_except_called_process_error.
  destruct (Hb w) as [HR HQ].
  destruct (body w) as [[a|e] w']; cbn [fst snd] in *; [split; assumption|].
  destruct e; try (split; [exact HR | intros a H; discriminate H]).
  destruct (Hh out err w') as [HR' HQ'].
  split; [exact (R_trans _ _ _ HR HR') | exact HQ'].
Qed.

Lemma hoare_clear_folder (d : list N) :
  d ∈ [SOLUTIONS_DIR; TRACE_DIR; BUILD_DIR] -> hoare R (clear_folder d) any.
Proof.
  intros Hd. unfold clear_folder.
  eapply hoare_bind; [apply hoare_os_path_exists|]. intros [|] _; [|apply hoare_ret; exact I].
  eapply hoare_bind; [apply hoare_os_listdir|]. intros files Hfiles.
  apply hoare_for_each. intros file Hfile. cbv zeta.
  rewrite List.Forall_forall in Hfiles.
  eapply hoare_bind; [apply hoare_os_path_isfile|]. intros [|] _; [|apply hoare_ret; exact I].
  apply hoare_os_remove. apply allowed_entry; auto.
Qed.

Lemma hoare_shutil_copy (first : list N) :
  valid_name first = true -> recognized first = true ->
  hoare R (shutil_copy (os_path_join SOLUTIONS_DIR first) (os_path_join BUILD_DIR first)) any.
Proof.
  intros Hv Hrec. unfold shutil_copy.
  eapply hoare_bind; [apply hoare_get|]. intros w _. cbv zeta.
  destruct (bool_decide _); [apply hoare_raise|].
  eapply hoare_bind; [apply hoare_read_file|]. intros content _.
  apply hoare_write_file.
  destruct (isdir (w_fs w) _); [apply allowed_copy; assumption|].
  apply allowed_entry; [|exact Hv]. apply in_dirs_build.
Qed.

Lemma hoare_run_and_check (expected level exercise : list N) :
  good level -> valid_name exercise = true ->
  hoare R (run_and_check env exe_file expected (level ++ lit "_" ++ exercise)) any.
Proof.
  intros Hgood Hex. unfold run_and_check.
  eapply hoare_bind; [apply hoare_subprocess_run; left; reflexivity|]. intros result _.
  cbv zeta.
  apply hoare_seq; [apply hoare_print|].
  apply hoare_seq; [apply hoare_print|].
  apply hoare_seq; [destruct (truthy (stderr result)); [apply hoare_print | apply hoare_ret; exact I]|].
  eapply hoare_bind; [apply hoare_os_path_isfile|]. intros [|] _; [|apply hoare_ret; exact I].
  eapply hoare_bind; [apply hoare_read_file|]. intros raw _.
  destruct (bool_decide _); [apply hoare_print|].
  do 5 (apply hoare_seq; [apply hoare_print|]).
  eapply hoare_bind; [apply hoare_timestamp_now|]. intros timestamp Hts.
  apply hoare_seq; [|apply hoare_print].
  apply hoare_write_file. apply allowed_mismatch; assumption.
Qed.

Lemma hoare_announce (v : variant) (level exercise subject_dir : list N) :
  hoare R (announce v level exercise subject_dir) any.
Proof.
  destruct v; cbn [announce]; [|apply hoare_print].
  apply hoare_seq; [apply hoare_print|].
  eapply hoare_bind; [apply hoare_os_path_isfile|]. intros [|] _; [|apply hoare_ret; exact I].
  apply hoare_seq; [apply hoare_print|].
  eapply hoare_bind; [apply hoare_read_file|]. intros text _.
  apply hoare_seq; apply hoare_print.
Qed.

Lemma hoare_test_subject (v : variant) (level : list N) :
  good level -> hoare R (test_subject env v level) any.
Proof.
  intros Hgood. unfold test_subject. cbv zeta.
  eapply hoare_bind; [apply hoare_os_listdir|]. intros names Hnames.
  eapply hoare_bind; [apply hoare_get|]. intros w0 _.
  destruct (negb (truthy _)); [apply hoare_print|].
  eapply hoare_bind; [apply hoare_random_choice|]. intros exercise Hin.
  assert (Hex : valid_name exercise = true).
  { apply filter_In in Hin as [Hin _].
    rewrite List.Forall_forall in Hnames. apply Hnames. exact Hin. }
  apply hoare_seq; [apply hoare_announce|].
  apply hoare_seq;
    [apply hoare_clear_folder; apply in_dirs_build|].
  eapply hoare_bind; [apply hoare_os_listdir|]. intros staged Hstaged.
  destruct (negb (length (List.filter recognized staged) =? 1)%nat) eqn:Hlen;
    [apply hoare_print|].
  assert (Hv : valid_name (nth 0 (List.filter recognized staged) []) = true)
    by (apply single_first; [apply Forall_List_filter; exact Hstaged | exact Hlen]).
  assert (Hrec : recognized (nth 0 (List.filter recognized staged) []) = true)
    by (apply single_first_recognized; exact Hlen).
  apply hoare_seq; [apply hoare_shutil_copy; assumption|].
  apply hoare_try_except.
  - eapply hoare_bind; [apply hoare_subprocess_run; right; eauto|]. intros r _.
    apply hoare_seq; [apply hoare_print|].
    apply hoare_run_and_check; assumption.
  - intros out err.
    apply hoare_seq; [apply hoare_print|].
    eapply hoare_bind; [apply hoare_timestamp_now|]. intros timestamp Hts.
    apply hoare_seq; [|apply hoare_print].
    apply hoare_write_file. apply allowed_compile; assumption.
Qed.

Lemma hoare_reset_all {A} (k : M A) (Q : A -> Prop) :
  hoare R k Q ->
  hoare R (clear_folder SOLUTIONS_DIR ;; clear_folder TRACE_DIR ;; clear_folder BUILD_DIR ;; k) Q.
Proof.
  intros Hk.
  apply hoare_seq; [apply hoare_clear_folder; apply in_dirs_solutions|].
  apply hoare_seq;
    [apply hoare_clear_folder; apply in_dirs_traces|].
  apply hoare_seq;
    [apply hoare_clear_folder; apply in_dirs_build|].
  exact Hk.
Qed.

Lemma hoare_V6_choose_level : hoare R (V6.choose_level env) (good_chosen good).
Proof.
  unfold V6.choose_level.
  eapply hoare_bind; [apply hoare_os_listdir|]. intros names Hnames.
  eapply hoare_bind; [apply hoare_get|]. intros w0 _. cbv zeta.
  set (levels := List.filter _ names).
  assert (Hlevels : forall l, In l levels -> good l).
  { apply List.Forall_forall, Forall_List_filter.
    eapply List.Forall_impl; [|exact Hnames]. apply good_valid. }
  destruct (negb (truthy levels));
    [apply hoare_seq; [apply hoare_print | apply hoare_ret; exact I]|].
  apply hoare_seq; [apply hoare_print|].
  apply hoare_seq; [apply hoare_for_each; intros il _; apply hoare_print|].
  eapply hoare_bind; [apply hoare_input|]. intros raw _.
  set (choice := str_lower env (strip raw)).
  destruct (bool_decide (str_upper env choice = _)).
  { apply hoare_reset_all. apply hoare_seq; [apply hoare_print | apply hoare_ret; exact I]. }
  apply hoare_bind
    with (P := fun b : bool =>
                 b = true -> exists k, int_of_str env choice = Some k /\
                                       (1 <= k <= Z.of_nat (length levels))%Z).
  { destruct (str_isdigit env choice); [|apply hoare_ret; discriminate].
    unfold int. destruct (int_of_str env choice) as [k|];
      [|apply hoare_bind with (P := fun _ => False); [apply hoare_raise | intros ? []]].
    apply hoare_bind with (P := fun k' => k' = k); [apply hoare_ret; reflexivity|].
    intros k' ->. apply hoare_ret. intros Hrange.
    apply andb_true_iff in Hrange as [H1 H2]. apply Z.leb_le in H1, H2. eauto. }
  intros [|] Hby.
  - destruct (Hby eq_refl) as (k & Hk & Hrange). unfold int. rewrite Hk.
    apply hoare_bind with (P := fun k' => k' = k); [apply hoare_ret; reflexivity|].
    intros k' ->. cbv zeta.
    assert (Hgood : good (nth (Z.to_nat (k - 1)) levels [])).
    { apply Hlevels, nth_In. lia. }
    apply hoare_seq; [apply hoare_test_subject; exact Hgood | apply hoare_ret; exact Hgood].
  - destruct (bool_decide (choice ∈ _));
      [|apply hoare_seq; [apply hoare_print | apply hoare_ret; exact I]].
    destruct (List.find _ levels) as [l|] eqn:Hfind; [|apply hoare_raise].
    assert (Hgood : good l) by (apply Hlevels; apply (List.find_some _ _ Hfind)).
    apply hoare_seq; [apply hoare_test_subject; exact Hgood | apply hoare_ret; exact Hgood].
Qed.

Lemma hoare_V6_act (l : list N) :
  good l -> hoare R (V6.act env l) (good_control good).
Proof.
  intros Hgood. unfold V6.act.
  eapply hoare_bind; [apply hoare_input|]. intros raw _. cbv zeta.
  destruct (bool_decide _).
  { apply hoare_seq; [apply hoare_test_subject; exact Hgood|].
    apply hoare_seq; [apply hoare_print | apply hoare_ret; exact Hgood]. }
  destruct (bool_decide _).
  { apply hoare_seq; [apply hoare_test_subject; exact Hgood|].
    apply hoare_seq; [apply hoare_print | apply hoare_ret; exact Hgood]. }
  destruct (bool_decide _).
  { apply hoare_seq; [apply hoare_print | apply hoare_ret; exact I]. }
  destruct (bool_decide _).
  { apply hoare_reset_all. apply hoare_seq; [apply hoare_print | apply hoare_ret; exact I]. }
  apply hoare_seq; [apply hoare_print | apply hoare_ret; exact Hgood].
Qed.

Lemma hoare_V6_loop_body (current_level : option (list N)) :
  good_level good current_level ->
  hoare R (V6.loop_body env current_level) (good_control good).
Proof.
  intros Hgood. destruct current_level as [l|]; cbn [V6.loop_body];
    [apply hoare_V6_act; exact Hgood|].
  eapply hoare_bind; [apply hoare_V6_choose_level|].
  intros [| |l] Hl; [apply hoare_ret; exact I | apply hoare_ret; exact I|].
  apply hoare_V6_act. exact Hl.
Qed.

Lemma hoare_V6_command_loop (fuel : nat) : forall current_level,
  good_level good current_level ->
  hoare R (V6.command_loop env fuel current_level) any.
Proof.
  induction fuel as [|fuel IH]; intros cl Hgood; cbn [V6.command_loop];
    [apply hoare_ret; exact I|].
  eapply hoare_bind; [apply hoare_V6_loop_body; exact Hgood|].
  intros [|cl'] Hcl'; [apply hoare_ret; exact I|].
  apply IH. exact Hcl'.
Qed.

Lemma hoare_V1_loop_body (DIFFICULTIES : list (list N)) (current_difficulty : option (list N)) :
  List.Forall good DIFFICULTIES ->
  good_level good current_difficulty ->
  hoare R (V1.loop_body env DIFFICULTIES current_difficulty) (good_control good).
Proof.
  intros Hall Hgood. unfold V1.loop_body.
  apply hoare_bind with (P := good_level good).
  { destruct current_difficulty as [d|]; [apply hoare_ret; exact Hgood|].
    destruct (negb (truthy DIFFICULTIES));
      [apply hoare_seq; [apply hoare_print | apply hoare_ret; exact I]|].
    eapply hoare_bind; [apply hoare_random_choice|]. intros d Hd.
    apply hoare_seq; [apply hoare_print|]. apply hoare_ret.
    rewrite List.Forall_forall in Hall. apply Hall. exact Hd. }
  intros [d|] Hd; [|apply hoare_ret; exact I].
  eapply hoare_bind; [apply hoare_input|]. intros raw _. cbv zeta.
  destruct (bool_decide _).
  { apply hoare_reset_all. apply hoare_seq; [apply hoare_print | apply hoare_ret; exact I]. }
  destruct (bool_decide _).
  { apply hoare_reset_all. apply hoare_seq; [apply hoare_print | apply hoare_ret; exact I]. }
  apply hoare_seq; [apply hoare_test_subject; exact Hd|].
  apply hoare_seq; [apply hoare_print | apply hoare_ret; exact Hd].
Qed.

Lemma hoare_V1_command_loop (DIFFICULTIES : list (list N)) (fuel : nat) :
  List.Forall good DIFFICULTIES ->
  forall current_difficulty,
  good_level good current_difficulty ->
  hoare R (V1.command_loop env DIFFICULTIES fuel current_difficulty) any.
Proof.
  intros Hall. induction fuel as [|fuel IH]; intros cd Hgood; cbn [V1.command_loop];
    [apply hoare_ret; exact I|].
  eapply hoare_bind; [apply hoare_V1_loop_body; assumption|].
  intros [|cd'] Hcd'; [apply hoare_ret; exact I|].
  apply IH. exact Hcd'.
Qed.

End Invariant.

(** **** Paths the script writes *)

Lemma startswith_app_prefix (a b pre : list N) :
  startswith a pre = true -> startswith (a ++ b) pre = true.
Proof.
  revert a. induction pre as [|c pre IH]; intros a H; [reflexivity|].
  destruct a as [|x a]; [discriminate H|]. cbn [app startswith] in *.
  apply andb_true_iff in H as [Hx H]. rewrite Hx. cbn [andb]. apply IH. exact H.
Qed.

Lemma no_slash_not_abs (s : list N) : no_slash s -> startswith s [SLASH] = false.
Proof.
  unfold no_slash. destruct s as [|c s]; [reflexivity|]. cbn [existsb startswith].
  intros H. apply orb_false_iff in H as [H _]. rewrite N.eqb_sym, H. reflexivity.
Qed.

Lemma no_slash_take_until_slash (r : list N) : no_slash (take_until_slash r).
Proof.
  unfold no_slash. induction r as [|c r IH]; [reflexivity|]. cbn [take_until_slash].
  destruct (c =? SLASH) eqn:E; [reflexivity|]. cbn [existsb].
  rewrite N.eqb_sym, E. exact IH.
Qed.

Lemma basename_not_abs (p : list N) : startswith (basename p) [SLASH] = false.
Proof. apply no_slash_not_abs, no_slash_rev, no_slash_take_until_slash. Qed.

Lemma os_path_join_prefix (a b : list N) :
  startswith b [SLASH] = false -> exists sep, os_path_join a b = a ++ sep ++ b.
Proof.
  intros H. unfold os_path_join. rewrite H.
  destruct (negb (truthy a) || endswith a [SLASH]); [exists [] | exists [SLASH]]; reflexivity.
Qed.

Lemma take_until_slash_app (a r : list N) :
  no_slash a -> take_until_slash (a ++ SLASH :: r) = a.
Proof.
  unfold no_slash. induction a as [|c a IH]; intros H.
  - cbn [app take_until_slash]. rewrite N.eqb_refl. reflexivity.
  - cbn [existsb] in H. apply orb_false_iff in H as [Hc Ha].
    cbn [app take_until_slash]. rewrite N.eqb_sym, Hc, (IH Ha). reflexivity.
Qed.

Lemma basename_entry (d n : list N) : no_slash n -> basename (d ++ SLASH :: n) = n.
Proof.
  intros Hn. unfold basename. rewrite rev_app_distr. cbn [rev].
  rewrite <- app_assoc. cbn [app].
  rewrite take_until_slash_app by (apply no_slash_rev; exact Hn).
  apply rev_involutive.
Qed.

Lemma plain_dir_entry (d n : list N) :
  plain_dir d -> valid_name n = true -> plain_dir (d ++ SLASH :: n).
Proof.
  intros [Hd _] Hv. apply valid_name_inv in Hv as [Hne Hn]. split.
  - destruct d; [discriminate Hd | reflexivity].
  - unfold endswith. rewrite rev_app_distr. cbn [rev]. rewrite <- app_assoc.
    pose proof (no_slash_not_abs (rev n) (no_slash_rev n Hn)) as H.
    destruct (rev n) as [|x t] eqn:E.
    + apply (f_equal (@rev N)) in E. rewrite rev_involutive in E. contradiction.
    + exact H.
Qed.

Lemma is_entry_join (d n : list N) :
  valid_name n = true -> is_entry d (os_path_join d n) = true.
Proof. intros H. unfold is_entry. rewrite entry_name_join by exact H. reflexivity. Qed.

Lemma in_workspace_entry (d n : list N) :
  d ∈ [SOLUTIONS_DIR; TRACE_DIR; BUILD_DIR] ->
  valid_name n = true ->
  in_workspace (os_path_join d n) = true.
Proof.
  intros Hd Hv. unfold in_workspace.
  apply elem_of_cons in Hd as [-> | Hd];
    [| apply elem_of_cons in Hd as [-> | Hd];
       [| apply elem_of_cons in Hd as [-> | Hd]; [| inversion Hd]]];
    rewrite (is_entry_join _ _ Hv), ?orb_true_r; reflexivity.
Qed.

Lemma in_workspace_copy (first : list N) :
  valid_name first = true -> recognized first = true ->
  in_workspace (os_path_join (os_path_join BUILD_DIR first)
                             (basename (os_path_join SOLUTIONS_DIR first))) = true.
Proof.
  intros Hv Hrec.
  assert (Hn : no_slash first) by (apply valid_name_inv in Hv; tauto).
  rewrite (os_path_join_plain _ _ plain_SOLUTIONS_DIR Hv), (basename_entry _ _ Hn).
  pose proof (plain_dir_entry _ _ plain_BUILD_DIR Hv) as Hplain.
  rewrite <- (os_path_join_plain _ _ plain_BUILD_DIR Hv) in Hplain.
  assert (E : basename (os_path_join (os_path_join BUILD_DIR first) first) = first)
    by (rewrite (os_path_join_plain _ _ Hplain Hv); apply basename_entry; exact Hn).
  unfold in_workspace. rewrite E, Hv, Hrec.
  rewrite bool_decide_eq_true_2 by reflexivity.
  rewrite !orb_true_r. reflexivity.
Qed.

Lemma in_workspace_mismatch_trace (level exercise timestamp : list N) :
  valid_name level = true -> valid_name exercise = true -> no_slash timestamp ->
  in_workspace (mismatch_trace_file (level ++ lit "_" ++ exercise) timestamp) = true.
Proof.
  intros Hl He Ht. unfold mismatch_trace_file.
  apply in_workspace_entry; [apply in_dirs_traces|].
  apply valid_name_inv in Hl as [_ Hl]. apply valid_name_inv in He as [_ He].
  apply valid_name_intro.
  - intros E. apply (f_equal (@length N)) in E. rewrite !length_app in E.
    simpl in E. lia.
  - repeat first [ assumption | apply no_slash_app; split ]; reflexivity.
Qed.

Lemma in_workspace_compile_trace (level exercise timestamp : list N) :
  valid_name level = true -> valid_name exercise = true -> no_slash timestamp ->
  in_workspace (compile_trace_file level exercise timestamp) = true.
Proof.
  intros Hl He Ht. unfold compile_trace_file.
  apply in_workspace_entry; [apply in_dirs_traces|].
  apply valid_name_inv in Hl as [_ Hl]. apply valid_name_inv in He as [_ He].
  apply valid_name_intro.
  - intros E. apply (f_equal (@length N)) in E. rewrite !length_app in E.
    simpl in E. lia.
  - repeat first [ assumption | apply no_slash_app; split ]; reflexivity.
Qed.

(** **** What [subprocess.run] leaves *)

Lemma subprocess_run_invoked env (argv : list (list N)) (check : bool) (w : World) :
  w_invoked (snd (subprocess_run env argv check w)) = w_invoked w ++ [argv].
Proof.
  unfold subprocess_run. destruct (spawn env _ _ _) as [r|]; [|reflexivity].
  cbv zeta. destruct (check && _); reflexivity.
Qed.

Lemma subprocess_run_fs env (argv : list (list N)) (check : bool) (w : World) :
  w_fs (snd (subprocess_run env argv check w))
  = match spawn env (w_tick w) argv (w_fs w) with
    | Some r => fs_after r
    | None => w_fs w
    end.
Proof.
  unfold subprocess_run. destruct (spawn env _ _ _) as [r|]; [|reflexivity].
  cbv zeta. destruct (check && _); reflexivity.
Qed.

Lemma dirs_kept_delete_file (fs : gmap (list N) node) (p c : list N) :
  fs !! p = Some (File c) -> dirs_kept fs (delete p fs).
Proof.
  intros Hp k Hk. rewrite lookup_delete_ne; [exact Hk|]. intros ->. congruence.
Qed.

Lemma dirs_kept_insert_file (fs : gmap (list N) node) (p c : list N) :
  isdir fs p = false -> dirs_kept fs (<[p := File c]> fs).
Proof.
  intros Hp k Hk. rewrite lookup_insert_ne; [exact Hk|]. intros ->.
  unfold isdir in Hp. rewrite Hk in Hp. discriminate Hp.
Qed.

(** X19. The script never removes a directory and never puts a file in
    the place of one: as long as the processes it runs keep the
    directories they find, every directory that is there when the
    pipeline or a session starts is still there when it ends, however it
    ends (normally or by an exception), in both variants. *)
Theorem X19_directories_are_kept env :
  (forall t argv fs r, spawn env t argv fs = Some r -> dirs_kept fs (fs_after r)) ->
  (forall v level w,
     dirs_kept (w_fs w) (w_fs (snd (test_subject env v level w)))) /\
  (forall fuel current_level w,
     dirs_kept (w_fs w) (w_fs (snd (V6.command_loop env fuel current_level w)))) /\
  (forall DIFFICULTIES fuel current_difficulty w,
     dirs_kept (w_fs w)
       (w_fs (snd (V1.command_loop env DIFFICULTIES fuel current_difficulty w)))).
Proof.
  intros Henv.
  pose (R := fun w w' : World => dirs_kept (w_fs w) (w_fs w')).
  assert (R_refl : forall w, R w w) by (intros w k Hk; exact Hk).
  assert (R_trans : forall w1 w2 w3, R w1 w2 -> R w2 w3 -> R w1 w3)
    by (intros w1 w2 w3 H12 H23 k Hk; apply H23, H12, Hk).
  assert (R_print : forall m w, R w (add_console m w)) by (intros m w k Hk; exact Hk).
  assert (R_read : forall rest w, R w (set_stdin rest w)) by (intros rest w k Hk; exact Hk).
  assert (R_tick : forall w, R w (next_tick w)) by (intros w k Hk; exact Hk).
  assert (R_remove : forall p c w, True -> w_fs w !! p = Some (File c) ->
                                   R w (set_fs (delete p (w_fs w)) w))
    by (intros p c w _ Hp; apply (dirs_kept_delete_file _ _ _ Hp)).
  assert (R_write : forall p c w, True -> isdir (w_fs w) p = false ->
                                  R w (set_fs (<[p := File c]> (w_fs w)) w))
    by (intros p c w _ Hp; apply (dirs_kept_insert_file _ _ _ Hp)).
  assert (R_run : forall argv check w, script_command argv ->
                                       R w (snd (subprocess_run env argv check w))).
  { intros argv check w _. unfold R. rewrite subprocess_run_fs.
    destruct (spawn env _ _ _) as [r|] eqn:E; [exact (Henv _ _ _ _ E) | apply R_refl]. }
  split; [|split].
  - intros v level w.
    apply (hoare_test_subject env R (fun _ => True) (fun _ => True)); auto.
  - intros fuel cl w.
    apply (hoare_V6_command_loop env R (fun _ => True) (fun _ => True)); auto.
    destruct cl; exact I.
  - intros DIFFICULTIES fuel cd w.
    apply (hoare_V1_command_loop env R (fun _ => True) (fun _ => True)); auto.
    + apply List.Forall_forall. intros; exact I.
    + destruct cd; exact I.
Qed.

Lemma X19_directories_are_kept_witness :
  let w := typing (lit "1") (typing (lit "exit") (world_of demo_fs_with_trace)) in
  dirs_kept (w_fs w) (w_fs (snd (test_subject idle_env Version1 demo_level w))) /\
  dirs_kept (w_fs w) (w_fs (snd (V6.command_loop idle_env 4 None w))) /\
  dirs_kept (w_fs w) (w_fs (snd (V1.command_loop idle_env [demo_level] 4 None w))).
Proof.
  cbv zeta.
  assert (Henv : forall t argv fs r,
             spawn idle_env t argv fs = Some r -> dirs_kept fs (fs_after r)).
  { intros t argv fs r H k Hk. destruct argv as [|a [|b l]]; cbn in H;
      injection H as <-; exact Hk. }
  destruct (X19_directories_are_kept idle_env Henv) as (H1 & H2 & H3).
  split; [apply H1|]. split; [apply H2 | apply H3].
Defined.

(** X20. The script itself writes and removes entries of [./build],
    [./traces] and [./solutions] only (and [./build/<name>/<name>] when
    the copy of the staged file finds a directory in its place).  For every other path that the
    processes leave as it is: whatever is at this path when the pipeline
    or a session starts is there unchanged when it ends, however it ends.
    For the pipeline, and for version1, this takes levels that are single
    path components, as the names of a listing all are: a level with a
    slash in it, [../x] for one, takes the trace out of [./traces]. *)
Theorem X20_outside_the_workspace_untouched env k :
  in_workspace k = false ->
  (forall t argv fs r, spawn env t argv fs = Some r -> fs_after r !! k = fs !! k) ->
  (forall v level w,
     valid_name level = true ->
     w_fs (snd (test_subject env v level w)) !! k = w_fs w !! k) /\
  (forall fuel w,
     w_fs (snd (V6.command_loop env fuel None w)) !! k = w_fs w !! k) /\
  (forall DIFFICULTIES fuel w,
     List.Forall (fun d => valid_name d = true) DIFFICULTIES ->
     w_fs (snd (V1.command_loop env DIFFICULTIES fuel None w)) !! k = w_fs w !! k).
Proof.
  intros Hk Henv.
  pose (R := fun w w' : World => w_fs w' !! k = w_fs w !! k).
  pose (allowed := fun p : list N => in_workspace p = true).
  pose (good := fun l : list N => valid_name l = true).
  assert (R_refl : forall w, R w w) by (intros w; reflexivity).
  assert (R_trans : forall w1 w2 w3, R w1 w2 -> R w2 w3 -> R w1 w3)
    by (unfold R; intros w1 w2 w3 H12 H23; congruence).
  assert (R_print : forall m w, R w (add_console m w)) by (intros m w; reflexivity).
  assert (R_read : forall rest w, R w (set_stdin rest w)) by (intros rest w; reflexivity).
  assert (R_tick : forall w, R w (next_tick w)) by (intros w; reflexivity).
  assert (R_remove : forall p c w, allowed p -> w_fs w !! p = Some (File c) ->
                                   R w (set_fs (delete p (w_fs w)) w)).
  { intros p c w Hp _. unfold R. cbn [set_fs w_fs].
    apply lookup_delete_ne. intros ->. unfold allowed in Hp. congruence. }
  assert (R_write : forall p c w, allowed p -> isdir (w_fs w) p = false ->
                                  R w (set_fs (<[p := File c]> (w_fs w)) w)).
  { intros p c w Hp _. unfold R. cbn [set_fs w_fs].
    apply lookup_insert_ne. intros ->. unfold allowed in Hp. congruence. }
  assert (R_run : forall argv check w, script_command argv ->
                                       R w (snd (subprocess_run env argv check w))).
  { intros argv check w _. unfold R. rewrite subprocess_run_fs.
    destruct (spawn env _ _ _) as [r|] eqn:E; [exact (Henv _ _ _ _ E) | reflexivity]. }
  assert (allowed_entry : forall d file, d ∈ [SOLUTIONS_DIR; TRACE_DIR; BUILD_DIR] ->
                                         valid_name file = true ->
                                         allowed (os_path_join d file))
    by (intros d file Hd Hv; apply in_workspace_entry; assumption).
  assert (allowed_copy := in_workspace_copy :
            forall first, valid_name first = true -> recognized first = true ->
            allowed (os_path_join (os_path_join BUILD_DIR first)
                                  (basename (os_path_join SOLUTIONS_DIR first)))).
  assert (allowed_mismatch := in_workspace_mismatch_trace :
            forall level exercise timestamp,
              good level -> valid_name exercise = true -> no_slash timestamp ->
              allowed (mismatch_trace_file (level ++ lit "_" ++ exercise) timestamp)).
  assert (allowed_compile := in_workspace_compile_trace :
            forall level exercise timestamp,
              good level -> valid_name exercise = true -> no_slash timestamp ->
              allowed (compile_trace_file level exercise timestamp)).
  assert (good_valid : forall l, valid_name l = true -> good l) by (intros l Hl; exact Hl).
  split; [|split].
  - intros v level w Hlevel.
    apply (hoare_test_subject env R allowed good); auto.
  - intros fuel w.
    apply (hoare_V6_command_loop env R allowed good); auto. exact I.
  - intros DIFFICULTIES fuel w Hall.
    apply (hoare_V1_command_loop env R allowed good); auto. exact I.
Qed.

Lemma X20_outside_the_workspace_untouched_witness :
  let w := typing (lit "1") (typing (lit "exit") (world_of demo_fs_with_trace)) in
  w_fs (snd (test_subject idle_env Version1 demo_level w)) !! demo_expected
  = w_fs w !! demo_expected /\
  w_fs (snd (V6.command_loop idle_env 4 None w)) !! demo_expected = w_fs w !! demo_expected /\
  w_fs (snd (V1.command_loop idle_env [demo_level] 4 None w)) !! demo_expected
  = w_fs w !! demo_expected.
Proof.
  cbv zeta.
  assert (Henv : forall t argv fs r,
             spawn idle_env t argv fs = Some r -> fs_after r !! demo_expected = fs !! demo_expected).
  { intros t argv fs r H. destruct argv as [|a [|b l]]; cbn in H;
      injection H as <-; reflexivity. }
  destruct (X20_outside_the_workspace_untouched idle_env demo_expected
              ltac:(vm_compute; reflexivity) Henv)
    as (H1 & H2 & H3).
  split; [apply H1; reflexivity|]. split; [apply H2|].
  apply H3. repeat constructor.
Defined.

(** X21. Whatever the host and the input, the only command lines the
    pipeline and the sessions of both variants ever hand to
    [subprocess.run] are the candidate [./build/program.out] and the
    toolchain ([c++ -std=c++17] or [gcc -std=c11], by the extension) on
    the copy in [./build] of a staged file; the record of the commands
    run only grows. *)
Theorem X21_only_script_commands env :
  (forall v level w, exists cmds,
     w_invoked (snd (test_subject env v level w)) = w_invoked w ++ cmds /\
     List.Forall script_command cmds) /\
  (forall fuel current_level w, exists cmds,
     w_invoked (snd (V6.command_loop env fuel current_level w)) = w_invoked w ++ cmds /\
     List.Forall script_command cmds) /\
  (forall DIFFICULTIES fuel current_difficulty w, exists cmds,
     w_invoked (snd (V1.command_loop env DIFFICULTIES fuel current_difficulty w))
     = w_invoked w ++ cmds /\
     List.Forall script_command cmds).
Proof.
  pose (R := fun w w' : World =>
               exists cmds, w_invoked w' = w_invoked w ++ cmds /\
                            List.Forall script_command cmds).
  assert (R_same : forall w w', w_invoked w' = w_invoked w -> R w w').
  { intros w w' H. exists []. rewrite app_nil_r. split; [exact H | constructor]. }
  assert (R_refl : forall w, R w w) by (intros w; apply R_same; reflexivity).
  assert (R_trans : forall w1 w2 w3, R w1 w2 -> R w2 w3 -> R w1 w3).
  { intros w1 w2 w3 (c1 & E1 & F1) (c2 & E2 & F2). exists (c1 ++ c2).
    split; [rewrite E2, E1, <- app_assoc; reflexivity | apply List.Forall_app; auto]. }
  assert (R_print : forall m w, R w (add_console m w))
    by (intros m w; apply R_same; reflexivity).
  assert (R_read : forall rest w, R w (set_stdin rest w))
    by (intros rest w; apply R_same; reflexivity).
  assert (R_tick : forall w, R w (next_tick w)) by (intros w; apply R_same; reflexivity).
  assert (R_remove : forall p c w, True -> w_fs w !! p = Some (File c) ->
                                   R w (set_fs (delete p (w_fs w)) w))
    by (intros p c w _ _; apply R_same; reflexivity).
  assert (R_write : forall p c w, True -> isdir (w_fs w) p = false ->
                                  R w (set_fs (<[p := File c]> (w_fs w)) w))
    by (intros p c w _ _; apply R_same; reflexivity).
  assert (R_run : forall argv check w, script_command argv ->
                                       R w (snd (subprocess_run env argv check w))).
  { intros argv check w Hargv. exists [argv].
    split; [apply subprocess_run_invoked | constructor; [exact Hargv | constructor]]. }
  split; [|split].
  - intros v level w.
    apply (hoare_test_subject env R (fun _ => True) (fun _ => True)); auto.
  - intros fuel cl w.
    apply (hoare_V6_command_loop env R (fun _ => True) (fun _ => True)); auto.
    destruct cl; exact I.
  - intros DIFFICULTIES fuel cd w.
    apply (hoare_V1_command_loop env R (fun _ => True) (fun _ => True)); auto.
    + apply List.Forall_forall. intros; exact I.
    + destruct cd; exact I.
Qed.

(** *** Further edge behaviour of the pipeline *)

Lemma endswith_app (pre s suffix : list N) :
  endswith s suffix = true -> endswith (pre ++ s) suffix = true.
Proof. unfold endswith. rewrite rev_app_distr. apply startswith_app_prefix. Qed.

Lemma endswith_c_excludes_cpp (s : list N) :
  endswith s (lit ".c") = true -> endswith s (lit ".cpp") = false.
Proof.
  unfold endswith. change (rev (lit ".c")) with [99; 46].
  change (rev (lit ".cpp")) with [112; 112; 99; 46].
  destruct (rev s) as [|x r]; [discriminate|]. cbn [startswith].
  intros H. apply andb_true_iff in H as [Hx _]. apply N.eqb_eq in Hx. subst x.
  reflexivity.
Qed.

Lemma os_path_join_suffix (a b : list N) : exists pre, os_path_join a b = pre ++ b.
Proof.
  unfold os_path_join. destruct (startswith b [SLASH]); [exists []; reflexivity|].
  destruct (negb (truthy a) || endswith a [SLASH]); [exists a; reflexivity|].
  exists (a ++ [SLASH]). rewrite <- app_assoc. reflexivity.
Qed.

(** X22. The toolchain goes by the extension of the staged file: a
    recognized file is compiled with [c++ -std=c++17] when its name ends
    in [.cpp], and with [gcc -std=c11] otherwise, that is, when it ends in
    [.c]; the two cases do not overlap, although the script tests the
    whole path of the file and not its name. *)
Theorem X22_toolchain_by_extension (first dst : list N) :
  recognized first = true ->
  compiler (os_path_join SOLUTIONS_DIR first) dst
  = (if endswith first (lit ".cpp")
     then [lit "c++"; lit "-std=c++17"; lit "-o"; exe_file; dst]
     else [lit "gcc"; lit "-std=c11"; lit "-o"; exe_file; dst]) /\
  (endswith first (lit ".cpp") = false -> endswith first (lit ".c") = true).
Proof.
  unfold recognized, compiler. intros Hrec.
  destruct (os_path_join_suffix SOLUTIONS_DIR first) as [pre ->].
  destruct (endswith first (lit ".cpp")) eqn:Hcpp.
  - rewrite (endswith_app pre first _ Hcpp). split; [reflexivity | discriminate].
  - rewrite orb_false_r in Hrec.
    rewrite (endswith_c_excludes_cpp _ (endswith_app pre first _ Hrec)).
    split; [reflexivity | intros _; exact Hrec].
Qed.

Lemma X22_toolchain_by_extension_witness :
  (compiler (os_path_join SOLUTIONS_DIR (lit "main.cpp")) (lit "./build/main.cpp")
   = [lit "c++"; lit "-std=c++17"; lit "-o"; exe_file; lit "./build/main.cpp"]) /\
  (compiler (os_path_join SOLUTIONS_DIR (lit "cpp.c")) (lit "./build/cpp.c")
   = [lit "gcc"; lit "-std=c11"; lit "-o"; exe_file; lit "./build/cpp.c"]).
Proof.
  split.
  - apply (X22_toolchain_by_extension (lit "main.cpp") (lit "./build/main.cpp")).
    reflexivity.
  - apply (X22_toolchain_by_extension (lit "cpp.c") (lit "./build/cpp.c")).
    reflexivity.
Defined.

(** [test_subject] up to the build step. *)
Lemma test_subject_reaches_build env v level w first :
  let exercise := picked env (w_tick w) (exercises_of (w_fs w) level) in
  w_fs w !! os_path_join TASKS_DIR level = Some Dir ->
  exercises_of (w_fs w) level <> [] ->
  w_fs w !! BUILD_DIR = Some Dir ->
  w_fs w !! SOLUTIONS_DIR = Some Dir ->
  staged_solutions (w_fs w) = [first] ->
  test_subject env v level w
  = build_step env level exercise first
      (set_fs (clear_fs BUILD_DIR (w_fs w))
         (add_all (announced v level exercise (w_fs w)) (next_tick w))).
Proof.
  cbv zeta. intros Hlevel Hex Hbuild Hsol Hstaged.
  set (exercise := picked env (w_tick w) (exercises_of (w_fs w) level)) in *.
  assert (Hstaged' : staged_solutions (clear_fs BUILD_DIR (w_fs w)) = [first]).
  { apply Permutation_singleton_r. rewrite staged_solutions_clear_build, Hstaged.
    reflexivity. }
  rewrite test_subject_spec, Hlevel.
  assert (Ht : truthy (exercises_of (w_fs w) level) = true)
    by (destruct (exercises_of (w_fs w) level); [congruence | reflexivity]).
  rewrite Ht. cbn [negb]. cbv zeta. fold exercise.
  rewrite after_announce_spec, w_fs_add_all. cbn [next_tick w_fs].
  rewrite (proj2 (isdir_Some_Dir _ _ Hbuild)), (proj1 (isdir_Some_Dir _ _ Hsol)).
  cbv zeta. rewrite Hstaged'. reflexivity.
Qed.

(** X23. Of the directories the pipeline reads, the script creates
    [./build] and [./traces] only.  When the directory of the level is
    missing, [test_subject] raises [FileNotFoundError] at once; when the
    staging directory is missing, it raises [FileNotFoundError] after it
    has announced the exercise and cleared the build directory, and the
    notice on the one solution file is not shown. *)
Theorem X23_missing_directories env v level w :
  let exercise := picked env (w_tick w) (exercises_of (w_fs w) level) in
  (w_fs w !! os_path_join TASKS_DIR level = None ->
   test_subject env v level w = (Raise FileNotFoundError, w)) /\
  (w_fs w !! os_path_join TASKS_DIR level = Some Dir ->
   exercises_of (w_fs w) level <> [] ->
   isfile (w_fs w) BUILD_DIR = false ->
   w_fs w !! SOLUTIONS_DIR = None ->
   exists w', test_subject env v level w = (Raise FileNotFoundError, w') /\
     w_fs w' = clear_fs BUILD_DIR (w_fs w) /\
     printed w w' = announced v level exercise (w_fs w) /\
     w_invoked w' = w_invoked w).
Proof.
  cbv zeta. split.
  - intros Hlevel. rewrite test_subject_spec, Hlevel. reflexivity.
  - intros Hlevel Hex Hbuild Hsol.
    rewrite test_subject_spec, Hlevel.
    assert (Ht : truthy (exercises_of (w_fs w) level) = true)
      by (destruct (exercises_of (w_fs w) level); [congruence | reflexivity]).
    rewrite Ht. cbn [negb]. cbv zeta.
    rewrite after_announce_spec, w_fs_add_all. cbn [next_tick w_fs].
    rewrite Hbuild. cbv zeta. unfold isdir, fs_exists. rewrite Hsol.
    eexists. split; [reflexivity|].
    cbn [set_fs w_fs w_invoked]. rewrite w_invoked_add_all.
    repeat split; try reflexivity.
    apply printed_app. cbn [set_fs w_console]. rewrite w_console_add_all. reflexivity.
Qed.

Lemma X23_missing_directories_witness :
  let env := demo_env 0 0 hello_world [] in
  test_subject env Version6 (lit "level9") (world_of demo_fs)
  = (Raise FileNotFoundError, world_of demo_fs) /\
  exists w', test_subject env Version6 demo_level (world_of demo_fs_no_staging)
             = (Raise FileNotFoundError, w') /\
    w_fs w' = clear_fs BUILD_DIR demo_fs_no_staging /\
    printed (world_of demo_fs_no_staging) w'
    = announced Version6 demo_level
        (picked env 0 (exercises_of demo_fs_no_staging demo_level)) demo_fs_no_staging /\
    w_invoked w' = [].
Proof.
  cbv zeta. split.
  - apply (proj1 (X23_missing_directories (demo_env 0 0 hello_world []) Version6
                    (lit "level9") (world_of demo_fs))).
    vm_compute. reflexivity.
  - apply (proj2 (X23_missing_directories (demo_env 0 0 hello_world []) Version6
                    demo_level (world_of demo_fs_no_staging))).
    + vm_compute. reflexivity.
    + vm_compute. discriminate.
    + vm_compute. reflexivity.
    + vm_compute. reflexivity.
Defined.

(** X24. The handler of [test_subject] catches [CalledProcessError] and
    nothing else.  When the toolchain cannot be started at all, [OSError]
    leaves [test_subject] after the copy into the build directory: no
    failure notice is shown and no trace is written.  When the toolchain
    exits with zero and the candidate cannot be started, [OSError] leaves
    it after the success notice, again without a trace. *)
Theorem X24_process_cannot_start env v level w first source :
  let exercise := picked env (w_tick w) (exercises_of (w_fs w) level) in
  let solution_file := os_path_join SOLUTIONS_DIR first in
  let dst_file := os_path_join BUILD_DIR first in
  let argv := compiler solution_file dst_file in
  let staged := <[dst_file := File source]> (clear_fs BUILD_DIR (w_fs w)) in
  w_fs w !! os_path_join TASKS_DIR level = Some Dir ->
  exercises_of (w_fs w) level <> [] ->
  w_fs w !! BUILD_DIR = Some Dir ->
  w_fs w !! SOLUTIONS_DIR = Some Dir ->
  staged_solutions (w_fs w) = [first] ->
  w_fs w !! solution_file = Some (File source) ->
  isdir (w_fs w) dst_file = false ->
  (spawn env (S (w_tick w)) argv staged = None ->
   exists w', test_subject env v level w = (Raise OSError, w') /\
     w_fs w' = staged /\
     printed w w' = announced v level exercise (w_fs w) /\
     w_invoked w' = w_invoked w ++ [argv]) /\
  (forall rc,
     spawn env (S (w_tick w)) argv staged = Some rc ->
     returncode rc = 0%Z ->
     spawn env (S (S (w_tick w))) [exe_file] (fs_after rc) = None ->
     exists w', test_subject env v level w = (Raise OSError, w') /\
       w_fs w' = fs_after rc /\
       printed w w' = announced v level exercise (w_fs w) ++ [MsgCompilationOk] /\
       w_invoked w' = w_invoked w ++ [argv; [exe_file]]).
Proof.
  cbv zeta. intros Hlevel Hex Hbuild Hsol Hstaged Hsrc Hdst.
  set (exercise := picked env (w_tick w) (exercises_of (w_fs w) level)).
  split.
  - intros Hspawn.
    assert (Hvf : valid_name first = true).
    { apply (staged_solutions_valid (w_fs w)). rewrite Hstaged. left. reflexivity. }
    rewrite (test_subject_reaches_build env v level w first) by assumption.
    fold exercise.
    set (w_b := set_fs _ (add_all _ _)).
    assert (Hfs : w_fs w_b = clear_fs BUILD_DIR (w_fs w)) by reflexivity.
    assert (Htick : w_tick w_b = S (w_tick w))
      by (subst w_b; cbn [set_fs w_tick]; rewrite w_tick_add_all; reflexivity).
    unfold build_step. cbv zeta.
    erewrite bind_ok.
    2:{ apply (shutil_copy_ok _ _ source).
        - rewrite Hfs, clear_fs_lookup_other
            by (apply solutions_not_in_build; exact Hvf). exact Hsrc.
        - rewrite Hfs, isdir_clear_fs. exact Hdst.
        - apply solution_is_not_its_copy. exact Hvf.
        - apply parent_ok_entry; [apply plain_BUILD_DIR | exact Hvf|].
          rewrite Hfs. apply clear_fs_lookup_dir. exact Hbuild. }
    assert (Hrun : subprocess_run env
                     (compiler (os_path_join SOLUTIONS_DIR first)
                               (os_path_join BUILD_DIR first)) true
                     (set_fs (<[os_path_join BUILD_DIR first := File source]> (w_fs w_b)) w_b)
                   = (Raise OSError,
                      next_tick (add_invoked
                        (compiler (os_path_join SOLUTIONS_DIR first)
                                  (os_path_join BUILD_DIR first))
                        (set_fs (<[os_path_join BUILD_DIR first := File source]> (w_fs w_b))
                                w_b)))).
    { unfold subprocess_run. cbn [set_fs w_fs w_tick]. rewrite Htick, Hfs, Hspawn.
      reflexivity. }
    unfold try_except_called_process_error.
    rewrite (bind_raise _ _ _ _ _ Hrun).
    eexists. split; [reflexivity|].
    cbn [next_tick add_invoked set_fs w_fs w_invoked w_console].
    rewrite Hfs. subst w_b. cbn [set_fs w_invoked]. rewrite w_invoked_add_all.
    repeat split; try reflexivity.
    apply printed_app. cbn [next_tick add_invoked set_fs w_console].
    rewrite w_console_add_all. reflexivity.
  - intros rc Hspawn Hrc Hrun.
    rewrite (test_subject_compile_ok env v level w first source rc) by assumption.
    fold exercise.
    set (w_ok := add_console MsgCompilationOk _).
    destruct (compiled_world_fields
                (compiler (os_path_join SOLUTIONS_DIR first) (os_path_join BUILD_DIR first))
                rc
                (<[os_path_join BUILD_DIR first := File source]> (clear_fs BUILD_DIR (w_fs w)))
                (announced v level exercise (w_fs w))
                w) as (Hfs & Hcon & Hinv & Htick).
    fold w_ok in Hfs, Hcon, Hinv, Htick.
    unfold run_and_check. erewrite bind_raise.
    2:{ unfold subprocess_run. rewrite Htick, Hfs, Hrun. reflexivity. }
    eexists. split; [reflexivity|].
    cbn [next_tick add_invoked w_fs w_invoked w_console].
    rewrite Hfs, Hinv, <- app_assoc.
    repeat split; try reflexivity.
    apply printed_app. cbn [next_tick add_invoked w_console]. exact Hcon.
Qed.

Lemma X24_process_cannot_start_witness :
  (exists w', test_subject (broken_env false) Version6 demo_level (world_of demo_fs)
              = (Raise OSError, w') /\
     w_fs w' = <[lit "./build/main.cpp" := File demo_source]> (clear_fs BUILD_DIR demo_fs) /\
     printed (world_of demo_fs) w'
     = announced Version6 demo_level
         (picked (broken_env false) 0 (exercises_of demo_fs demo_level)) demo_fs /\
     w_invoked w' = [] ++ [demo_argv]) /\
  (exists w', test_subject (broken_env true) Version6 demo_level (world_of demo_fs)
              = (Raise OSError, w') /\
     w_fs w' = <[lit "./build/program.out" := File (lit "ELF")]>
                 (<[lit "./build/main.cpp" := File demo_source]>
                    (clear_fs BUILD_DIR demo_fs)) /\
     printed (world_of demo_fs) w'
     = announced Version6 demo_level
         (picked (broken_env true) 0 (exercises_of demo_fs demo_level)) demo_fs
       ++ [MsgCompilationOk] /\
     w_invoked w' = [] ++ [demo_argv; [exe_file]]).
Proof.
  split.
  - apply (proj1 (X24_process_cannot_start (broken_env false) Version6 demo_level
                    (world_of demo_fs) (lit "main.cpp") demo_source
                    eq_refl ltac:(vm_compute; discriminate) eq_refl eq_refl
                    ltac:(vm_compute; reflexivity) eq_refl
                    ltac:(vm_compute; reflexivity))).
    reflexivity.
  - destruct (proj2 (X24_process_cannot_start (broken_env true) Version6 demo_level
                       (world_of demo_fs) (lit "main.cpp") demo_source
                       eq_refl ltac:(vm_compute; discriminate) eq_refl eq_refl
                       ltac:(vm_compute; reflexivity) eq_refl
                       ltac:(vm_compute; reflexivity))
                    (mkCompleted 0 [] []
                       (<[lit "./build/program.out" := File (lit "ELF")]>
                          (<[lit "./build/main.cpp" := File demo_source]>
                             (clear_fs BUILD_DIR demo_fs))))
                    eq_refl eq_refl eq_refl)
      as (w' & Hrun & Hfs & Hout & Hinv).
    exists w'. split; [exact Hrun|]. split; [exact Hfs|]. split; [exact Hout | exact Hinv].
Defined.

(* ================================================================== *)
(** * The scan of the staging area and directories *)

(** *** A directory among the staged entries *)

Lemma solution_is_not_below_its_copy (first : list N) :
  valid_name first = true ->
  os_path_join SOLUTIONS_DIR first
  <> os_path_join (os_path_join BUILD_DIR first) (basename (os_path_join SOLUTIONS_DIR first)).
Proof.
  intros Hv E.
  destruct (os_path_join_prefix (os_path_join BUILD_DIR first)
              (basename (os_path_join SOLUTIONS_DIR first)) (basename_not_abs _))
    as [sep Hsep].
  rewrite Hsep in E.
  rewrite (os_path_join_plain _ _ plain_SOLUTIONS_DIR Hv),
          (os_path_join_plain _ _ plain_BUILD_DIR Hv) in E.
  apply (f_equal (fun p => startswith p (lit "./b"))) in E.
  vm_compute in E. discriminate E.
Qed.

(** A staged entry that is no regular file is a directory. *)
Lemma staged_entry_not_file (fs : gmap (list N) node) (first : list N) :
  staged_solutions fs = [first] ->
  staged_solution_files fs = [] ->
  fs !! os_path_join SOLUTIONS_DIR first = Some Dir.
Proof.
  unfold staged_solution_files. intros Hstaged Hfiles. rewrite Hstaged in Hfiles.
  cbn [List.filter] in Hfiles.
  destruct (isfile fs (os_path_join SOLUTIONS_DIR first)) eqn:Hf; [discriminate Hfiles|].
  assert (Hin : In first (staged_solutions fs)) by (rewrite Hstaged; left; reflexivity).
  unfold staged_solutions in Hin. apply filter_In in Hin as [Hin _].
  apply list_elem_of_In, elem_of_listdir in Hin as [_ [x Hx]].
  unfold isfile in Hf. rewrite Hx in Hf |- *. destruct x; [discriminate Hf | reflexivity].
Qed.

Lemma announced_no_solution_notice (v : variant) (level exercise : list N)
    (fs : gmap (list N) node) :
  List.filter is_solution_notice (announced v level exercise fs) = [].
Proof.
  destruct v; cbn [announced List.filter is_solution_notice]; [|reflexivity].
  destruct (fs !! _) as [[text|]|]; reflexivity.
Qed.

(** C3 (the defect).  The scan of the staging area goes by the names of
    its entries and does not ask whether an entry is a regular file.  When
    the staging area holds no file with a recognized extension and one
    directory with such a name, the directory is taken for the one
    solution: no configuration error is reported, and the copy into the
    build directory raises [IsADirectoryError], which leaves
    [test_subject] after the announcement and the clearing of the build
    directory. *)
Theorem C3_directory_counted_as_solution env v level w first :
  let exercise := picked env (w_tick w) (exercises_of (w_fs w) level) in
  w_fs w !! os_path_join TASKS_DIR level = Some Dir ->
  exercises_of (w_fs w) level <> [] ->
  w_fs w !! BUILD_DIR = Some Dir ->
  w_fs w !! SOLUTIONS_DIR = Some Dir ->
  staged_solutions (w_fs w) = [first] ->
  staged_solution_files (w_fs w) = [] ->
  exists w', test_subject env v level w = (Raise IsADirectoryError, w') /\
    printed w w' = announced v level exercise (w_fs w) /\
    List.filter is_solution_notice (w_console w')
    = List.filter is_solution_notice (w_console w) /\
    w_invoked w' = w_invoked w /\
    w_fs w' = clear_fs BUILD_DIR (w_fs w).
Proof.
  cbv zeta. intros Hlevel Hex Hbuild Hsol Hstaged Hfiles.
  set (exercise := picked env (w_tick w) (exercises_of (w_fs w) level)).
  assert (Hvf : valid_name first = true).
  { apply (staged_solutions_valid (w_fs w)). rewrite Hstaged. left. reflexivity. }
  pose proof (staged_entry_not_file _ _ Hstaged Hfiles) as Hdir.
  rewrite (test_subject_reaches_build env v level w first) by assumption.
  fold exercise.
  set (w_b := set_fs _ (add_all _ _)).
  assert (Hfs : w_fs w_b = clear_fs BUILD_DIR (w_fs w)) by reflexivity.
  assert (Hcopy : shutil_copy (os_path_join SOLUTIONS_DIR first)
                              (os_path_join BUILD_DIR first) w_b
                  = (Raise IsADirectoryError, w_b)).
  { unfold shutil_copy, bind at 1, get at 1. cbv zeta.
    rewrite bool_decide_eq_false_2.
    2:{ destruct (isdir (w_fs w_b) _);
          [apply solution_is_not_below_its_copy | apply solution_is_not_its_copy]; exact Hvf. }
    apply bind_raise. unfold read_file.
    rewrite Hfs, (clear_fs_lookup_dir _ _ _ Hdir). reflexivity. }
  unfold build_step. cbv zeta. rewrite (bind_raise _ _ _ _ _ Hcopy).
  exists w_b. split; [reflexivity|].
  assert (Hcon : w_console w_b = w_console w ++ announced v level exercise (w_fs w))
    by (subst w_b; cbn [set_fs w_console]; rewrite w_console_add_all; reflexivity).
  split; [apply printed_app; exact Hcon|]. split.
  { rewrite Hcon, List.filter_app.
    rewrite announced_no_solution_notice, app_nil_r. reflexivity. }
  split; [|exact Hfs].
  subst w_b. cbn [set_fs w_invoked]. rewrite w_invoked_add_all. reflexivity.
Qed.

Lemma C3_directory_counted_as_solution_witness :
  let env := demo_env 0 0 hello_world [] in
  let w := world_of demo_fs_directory_staged in
  staged_solution_files (w_fs w) = [] /\
  exists w', test_subject env Version6 demo_level w = (Raise IsADirectoryError, w') /\
    printed w w' = [MsgWorkingOn demo_level (lit "1")] /\
    List.filter is_solution_notice (w_console w') = [] /\
    w_invoked w' = [] /\
    w_fs w' = clear_fs BUILD_DIR demo_fs_directory_staged.
Proof.
  cbv zeta. split; [vm_compute; reflexivity|].
  assert (Eex : picked (demo_env 0 0 hello_world []) 0
                  (exercises_of demo_fs_directory_staged demo_level) = lit "1")
    by (vm_compute; reflexivity).
  destruct (C3_directory_counted_as_solution
              (demo_env 0 0 hello_world []) Version6 demo_level
              (world_of demo_fs_directory_staged) (lit "x.c"))
    as (w' & Hrun & Hout & Hnone & Hinv & Hfs).
  - vm_compute. reflexivity.
  - vm_compute. discriminate.
  - vm_compute. reflexivity.
  - vm_compute. reflexivity.
  - vm_compute. reflexivity.
  - vm_compute. reflexivity.
  - cbn [w_fs w_tick world_of] in *. rewrite Eex in Hout.
    exists w'. split; [exact Hrun|]. split; [exact Hout|].
    split; [exact Hnone|]. split; [exact Hinv | exact Hfs].
Defined.
